(** * EB_LLVMcomponent: the easyblock that builds one LLVM sub-project

    A shallow embedding of [easybuild/easyblocks/l/llvmcomponent.py] and the
    properties of its target selection, project profiles, staged bootstrap
    build, test-result interpretation and sanity check.

    Python strings are [string] (bytes; all names handled here are ASCII),
    [None]-able values are [option], dictionaries are [gmap], the process
    environment is a [gmap string string], and exceptions are the [Raise]
    outcome of a state-and-exception monad whose state survives a raise, as a
    Python object and [os.environ] do. The configure options are kept as the
    list of the values passed to [cfg.update], in order. Calls to the logger
    at the info and debug levels are left out; warnings are kept in the
    trace of the world, with every call that reaches outside the process. *)

From Stdlib Require Import ZArith Ascii.
From stdpp Require Import base option list strings pretty gmap.

Local Open Scope Z_scope.

(** ** Python string primitives *)

Module Py.

(** [s.startswith(p)] *)
Fixpoint startswith (s p : string) : bool :=
  match p with
  | EmptyString => true
  | String a p' =>
      match s with
      | EmptyString => false
      | String b s' => if Ascii.eqb a b then startswith s' p' else false
      end
  end.

(** [s.endswith(p)]: [p] is [s] itself or a suffix of its tail. *)
Fixpoint endswith (s p : string) : bool :=
  match s with
  | EmptyString => String.eqb p EmptyString
  | String _ s' => String.eqb s p || endswith s' p
  end.

(** [s[n:]] *)
Fixpoint drop (n : nat) (s : string) : string :=
  match n, s with
  | O, _ => s
  | S _, EmptyString => EmptyString
  | S k, String _ s' => drop k s'
  end.

(** [s.replace(old, new)] for a non-empty [old]: the occurrences of [old]
    are found from left to right and do not overlap; [skip] counts the
    characters of a found occurrence still to be passed over. *)
Fixpoint replace_from (old new s : string) (skip : nat) : string :=
  match s with
  | EmptyString => EmptyString
  | String c s' =>
      match skip with
      | S k => replace_from old new s' k
      | O =>
          if startswith s old
          then new +:+ replace_from old new s' (String.length old - 1)
          else String c (replace_from old new s' 0)
      end
  end.

Definition replace (s old new : string) : string := replace_from old new s 0.

Definition lower_char (c : ascii) : ascii :=
  let n := nat_of_ascii c in
  if (65 <=? n)%nat && (n <=? 90)%nat then ascii_of_nat (n + 32) else c.

(** [s.lower()] on ASCII text. *)
Fixpoint lower (s : string) : string :=
  match s with
  | EmptyString => EmptyString
  | String c s' => String (lower_char c) (lower s')
  end.

(** [sep.join(l)] *)
Fixpoint join (sep : string) (l : list string) : string :=
  match l with
  | [] => EmptyString
  | [x] => x
  | x :: l' => x +:+ sep +:+ join sep l'
  end.

(** ['%s' % v] for a value that may be [None]. *)
Definition fmt (v : option string) : string :=
  match v with Some s => s | None => "None" end.

(** Truthiness of an optional string: [None] and [''] are false. *)
Definition truthy (v : option string) : bool :=
  match v with Some (String _ _) => true | _ => false end.

(** [min(l)] on strings: the order is by code point, character by
    character ([String.ltb]); the first of equal minima is kept. *)
Fixpoint min_from (m : string) (l : list string) : string :=
  match l with
  | [] => m
  | x :: l' => min_from (if String.ltb x m then x else m) l'
  end.

Definition min (l : list string) : option string :=
  match l with [] => None | x :: l' => Some (min_from x l') end.

(** [x in l] *)
Definition mem (x : string) (l : list string) : bool :=
  existsb (String.eqb x) l.

(** [os.path.join(a, b)] of posixpath. *)
Definition path_join (a b : string) : string :=
  if startswith b "/" then b
  else if String.eqb a EmptyString || endswith a "/" then a +:+ b
  else a +:+ "/" +:+ b.

(** The double-quote character, as a one-character string. *)
Definition dquote : string := String (ascii_of_nat 34) EmptyString.

Definition upper_char (c : ascii) : ascii :=
  let n := nat_of_ascii c in
  if (97 <=? n)%nat && (n <=? 122)%nat then ascii_of_nat (n - 32) else c.

(** [s.upper()] on ASCII text. *)
Fixpoint upper (s : string) : string :=
  match s with
  | EmptyString => EmptyString
  | String c s' => String (upper_char c) (upper s')
  end.

Definition is_slash (c : ascii) : bool := Ascii.eqb c "/".

Fixpoint drop_while {A} (p : A -> bool) (l : list A) : list A :=
  match l with
  | [] => []
  | x :: l' => if p x then drop_while p l' else l
  end.

(** [os.path.dirname(p)] of posixpath: the text up to the last slash,
    without its trailing slashes unless it is made of slashes only. *)
Definition dirname (p : string) : string :=
  let head_rev := drop_while (fun c => negb (is_slash c))
                    (rev (String.list_ascii_of_string p)) in
  if forallb is_slash head_rev
  then String.string_of_list_ascii (rev head_rev)
  else String.string_of_list_ascii (rev (drop_while is_slash head_rev)).

Definition is_digit (c : ascii) : bool :=
  let n := nat_of_ascii c in (48 <=? n)%nat && (n <=? 57)%nat.

Definition digit_value (c : ascii) : Z := Z.of_nat (nat_of_ascii c) - 48.

(** [int(s)] for a string of decimal digits. *)
Fixpoint int_from (acc : Z) (s : string) : Z :=
  match s with
  | EmptyString => acc
  | String c s' => int_from (10 * acc + digit_value c) s'
  end.

Definition int (s : string) : Z := int_from 0 s.

End Py.

(** ** Module constants *)

(** List of all possible build targets for Clang. *)
Definition CLANG_TARGETS : list string :=
  ["all"; "AArch64"; "AMDGPU"; "ARM"; "CppBackend"; "Hexagon"; "Mips";
   "MBlaze"; "MSP430"; "NVPTX"; "PowerPC"; "R600"; "RISCV"; "Sparc";
   "SystemZ"; "X86"; "XCore"].

(** The CPU architecture constants of [easybuild.tools.systemtools] that the
    easyblock imports; any other value [get_cpu_architecture] may return is
    [OTHER_ARCH]. *)
Inductive cpu_arch :=
  | AARCH32 | AARCH64 | POWER | RISCV64 | X86_64
  | OTHER_ARCH (name : string).

Global Instance cpu_arch_eq_dec : EqDecision cpu_arch.
Proof. solve_decision. Defined.

(** Mapping of EasyBuild CPU architecture names to list of default LLVM
    target names, in the order of the dictionary literal. *)
Definition DEFAULT_TARGETS_MAP : list (cpu_arch * list string) :=
  [ (AARCH32, ["ARM"]);
    (AARCH64, ["AArch64"]);
    (POWER, ["PowerPC"]);
    (RISCV64, ["RISCV"]);
    (X86_64, ["X86"]) ].

(** [d[k]] on the dictionary literal; [None] is the [KeyError]. *)
Fixpoint dict_get {V} (d : list (cpu_arch * V)) (k : cpu_arch) : option V :=
  match d with
  | [] => None
  | (k', v) :: d' => if decide (k' = k) then Some v else dict_get d' k
  end.

(** ** Outcomes, events and the world *)

Inductive exn :=
  | EasyBuildError (msg : string)      (* raised by the easyblock itself *)
  | TypeError (what : string)          (* [None] where a string is needed *)
  | FrameworkError (what : string).    (* raised inside a framework call *)

Inductive result (A : Type) :=
  | Ok (a : A)
  | Raise (e : exn).
Arguments Ok {A} a.
Arguments Raise {A} e.

(** What the easyblock asks of the outside, in the order it asks. *)
Inductive Event :=
  | EvMkdir (dir : string)
  | EvChangeDir (dir : string)
  | EvSymlink (src dst : string)
  | EvRpathWrappers
  | EvWarning (msg : string)
  | EvRunCmd (cmd : string)
  | EvConfigure (srcdir : string) (opts : list string)   (* CMakeMake.configure_step *)
  | EvBuild                                              (* CMakeMake.build_step *)
  | EvInstall                                            (* CMakeMake.install_step *)
  | EvSanityCheck (files dirs commands : list string).   (* CMakeMake.sanity_check_step *)

Record World := mkWorld {
  environ : gmap string string;   (* os.environ *)
  trace : list Event;
}.

(** ** The framework around the easyblock

    Everything the easyblock calls but does not define: system probes, the
    dependency resolver, the file system and subprocesses. Calls whose answer
    may change as the build proceeds read the [World]. *)
Record Host := mkHost {
  get_cpu_architecture : cpu_arch;
  arch_name : cpu_arch -> string;                  (* '%s' % arch *)
  get_shared_lib_ext : string;
  loose_lt : string -> string -> bool;             (* LooseVersion(a) < LooseVersion(b) *)
  get_software_root : string -> option string;
  path_exists : string -> bool;                    (* os.path.exists at configure time *)
  which : World -> string -> option string;
  build_option_rpath : bool;
  build_option_cuda_compute_capabilities : option (list string);
  mkdir_ok : World -> string -> bool;
  change_dir_ok : World -> string -> bool;
  symlink_ok : World -> string -> string -> bool;
  prepare_rpath_wrappers : World -> option (gmap string string);
  run_cmd : World -> string -> string * Z;         (* (output, exit code) *)
  super_configure_ok : World -> string -> list string -> bool;
  super_build_ok : World -> bool;
  super_install_ok : World -> bool;
  super_sanity_ok : World -> list string -> list string -> list string -> bool;
}.

(** [LooseVersion(a) >= LooseVersion(b)] *)
Definition loose_ge (h : Host) (a b : string) : bool := negb (loose_lt h a b).

(** ** The easyconfig and the easyblock object *)

Record EasyConfig := mkEasyConfig {
  amd_gfx_list : option (list string);
  assertions : bool;
  bootstrap : bool;
  build_targets : option (list string);
  default_cuda_capability : option string;
  default_openmp_runtime : option string;
  enable_rtti : bool;
  python_bindings : bool;
  skip_all_tests : bool;
  test_suite_max_failed : Z;
  cuda_compute_capabilities : option (list string);
  parallel : option nat;
  dependencies : list string;                    (* dep['name'] of each dependency *)
  configopts : list string;                      (* one entry per cfg.update *)
  sanity_check_paths : gmap string (list string);
}.

(** The custom parameters with the defaults [extra_options] gives them; the
    parameters of the framework are left empty. *)
Definition extra_options : EasyConfig := {|
  amd_gfx_list := None;
  assertions := true;
  bootstrap := false;
  build_targets := None;
  default_cuda_capability := None;
  default_openmp_runtime := None;
  enable_rtti := false;
  python_bindings := false;
  skip_all_tests := false;
  test_suite_max_failed := 0;
  cuda_compute_capabilities := None;
  parallel := None;
  dependencies := [];
  configopts := [];
  sanity_check_paths := ∅;
|}.

(** What [CMakeMake.__init__] provides and this easyblock only reads. *)
Record EasyBlock := mkEasyBlock {
  name : string;
  version : string;
  builddir : string;
  installdir : string;
  build_type : string;
  toolchain_cuda_family : bool;   (* hasattr(self.toolchain, 'COMPILER_CUDA_FAMILY') *)
}.

Record Self := mkSelf {
  eb : EasyBlock;
  cfg : EasyConfig;
  llvm_src_dir : option string;
  llvm_obj_dir_stage1 : option string;
  llvm_obj_dir_stage2 : option string;
  llvm_obj_dir_stage3 : option string;
  test_targets : list string;
  check_files : list string;
  check_dirs : list string;
  check_commands : list string;
  make_parallel_opts : string;
  runtime_lib_path : string;
  project_name : string;
  srcdir : string;
}.

Definition set_configopts (v : list string) (c : EasyConfig) : EasyConfig :=
  mkEasyConfig (amd_gfx_list c) (assertions c) (bootstrap c) (build_targets c)
    (default_cuda_capability c) (default_openmp_runtime c) (enable_rtti c)
    (python_bindings c) (skip_all_tests c) (test_suite_max_failed c)
    (cuda_compute_capabilities c) (parallel c) (dependencies c) v
    (sanity_check_paths c).

Definition set_build_targets (v : option (list string)) (c : EasyConfig) : EasyConfig :=
  mkEasyConfig (amd_gfx_list c) (assertions c) (bootstrap c) v
    (default_cuda_capability c) (default_openmp_runtime c) (enable_rtti c)
    (python_bindings c) (skip_all_tests c) (test_suite_max_failed c)
    (cuda_compute_capabilities c) (parallel c) (dependencies c) (configopts c)
    (sanity_check_paths c).

Definition set_sanity_check_paths (v : gmap string (list string)) (c : EasyConfig) : EasyConfig :=
  mkEasyConfig (amd_gfx_list c) (assertions c) (bootstrap c) (build_targets c)
    (default_cuda_capability c) (default_openmp_runtime c) (enable_rtti c)
    (python_bindings c) (skip_all_tests c) (test_suite_max_failed c)
    (cuda_compute_capabilities c) (parallel c) (dependencies c) (configopts c) v.

(** [cfg.update('configopts', v)]: the option list grows by [v] at its end. *)
Definition cfg_update_configopts (v : string) (c : EasyConfig) : EasyConfig :=
  set_configopts (configopts c ++ [v]) c.

Definition set_cfg (v : EasyConfig) (s : Self) : Self :=
  mkSelf (eb s) v (llvm_src_dir s) (llvm_obj_dir_stage1 s) (llvm_obj_dir_stage2 s)
    (llvm_obj_dir_stage3 s) (test_targets s) (check_files s) (check_dirs s)
    (check_commands s) (make_parallel_opts s) (runtime_lib_path s)
    (project_name s) (srcdir s).

Definition set_obj_dirs (d1 d2 d3 : option string) (s : Self) : Self :=
  mkSelf (eb s) (cfg s) (llvm_src_dir s) d1 d2 d3 (test_targets s) (check_files s)
    (check_dirs s) (check_commands s) (make_parallel_opts s) (runtime_lib_path s)
    (project_name s) (srcdir s).

Definition set_test_targets (v : list string) (s : Self) : Self :=
  mkSelf (eb s) (cfg s) (llvm_src_dir s) (llvm_obj_dir_stage1 s) (llvm_obj_dir_stage2 s)
    (llvm_obj_dir_stage3 s) v (check_files s) (check_dirs s)
    (check_commands s) (make_parallel_opts s) (runtime_lib_path s)
    (project_name s) (srcdir s).

Definition set_check_files (v : list string) (s : Self) : Self :=
  mkSelf (eb s) (cfg s) (llvm_src_dir s) (llvm_obj_dir_stage1 s) (llvm_obj_dir_stage2 s)
    (llvm_obj_dir_stage3 s) (test_targets s) v (check_dirs s)
    (check_commands s) (make_parallel_opts s) (runtime_lib_path s)
    (project_name s) (srcdir s).

Definition set_check_dirs (v : list string) (s : Self) : Self :=
  mkSelf (eb s) (cfg s) (llvm_src_dir s) (llvm_obj_dir_stage1 s) (llvm_obj_dir_stage2 s)
    (llvm_obj_dir_stage3 s) (test_targets s) (check_files s) v
    (check_commands s) (make_parallel_opts s) (runtime_lib_path s)
    (project_name s) (srcdir s).

Definition set_check_commands (v : list string) (s : Self) : Self :=
  mkSelf (eb s) (cfg s) (llvm_src_dir s) (llvm_obj_dir_stage1 s) (llvm_obj_dir_stage2 s)
    (llvm_obj_dir_stage3 s) (test_targets s) (check_files s) (check_dirs s)
    v (make_parallel_opts s) (runtime_lib_path s) (project_name s) (srcdir s).

Definition set_make_parallel_opts (v : string) (s : Self) : Self :=
  mkSelf (eb s) (cfg s) (llvm_src_dir s) (llvm_obj_dir_stage1 s) (llvm_obj_dir_stage2 s)
    (llvm_obj_dir_stage3 s) (test_targets s) (check_files s) (check_dirs s)
    (check_commands s) v (runtime_lib_path s) (project_name s) (srcdir s).

(** ** Initialisation: version gate, bootstrap gate, target selection *)

Global Instance result_ret : MRet result := @Ok.
Global Instance result_bind : MBind result := fun A B f m =>
  match m with
  | Ok a => f a
  | Raise e => Raise e
  end.

(** The default targets of [__init__] when [build_targets] is [None]. *)
Definition default_build_targets (h : Host) (b : EasyBlock) (c : EasyConfig)
  : result (list string) :=
  let deps := map Py.lower (dependencies c) in
  let arch := get_cpu_architecture h in
  match dict_get DEFAULT_TARGETS_MAP arch with
  | Some default_targets =>
      let cuda_toolchain := toolchain_cuda_family b in
      let default_targets :=
        if Py.mem "cuda" deps || cuda_toolchain
        then default_targets ++ ["NVPTX"] else default_targets in
      let default_targets :=
        if Py.mem "rocr-runtime" deps
        then default_targets ++ ["AMDGPU"] else default_targets in
      Ok default_targets
  | None =>
      Raise (EasyBuildError
        ("No default build targets defined for CPU architecture "
           +:+ arch_name h arch +:+ "."))
  end.

(** [[target for target in build_targets if target not in CLANG_TARGETS]] *)
Definition unknown_targets (targets : list string) : list string :=
  List.filter (fun target => negb (Py.mem target CLANG_TARGETS)) targets.

(** [__init__]. Once the targets are chosen [build_targets] is a list, so
    the later fall-back to the empty list never applies. *)
Definition __init__ (h : Host) (b : EasyBlock) (c : EasyConfig) : result Self :=
  if loose_lt h (version b) "18.1.6" then
    Raise (EasyBuildError
      ("LLVM version " +:+ version b
         +:+ " is not supported, please use version 18.1.6 or newer"))
  else if bootstrap c && negb (String.eqb (Py.lower (name b)) "clang") then
    Raise (EasyBuildError "Bootstrapping only supported for Clang")
  else
    let c := cfg_update_configopts "-DPython3_FIND_VIRTUALENV=STANDARD" c in
    targets ← match build_targets c with
              | None => default_build_targets h b c
              | Some targets => Ok targets
              end;
    let c := set_build_targets (Some targets) c in
    let unknown := unknown_targets targets in
    if negb (bool_decide (unknown = [])) then
      Raise (EasyBuildError
        ("Some of the chosen build targets (" +:+ Py.join ", " unknown
           +:+ ") are not in " +:+ Py.join ", " CLANG_TARGETS +:+ "."))
    else if Py.mem "MBlaze" targets then
      Raise (EasyBuildError
        "Build target MBlaze is not supported anymore in > Clang-3.3")
    else
      let name := Py.lower (name b) in
      let name := if Py.startswith name "llvm" then Py.drop 4 name else name in
      Ok (mkSelf b c None None None None [] [] [] [] EmptyString "lib"
            name (Py.path_join (builddir b) name)).

(** ** The state-and-exception monad of the build steps

    A step is a method of the easyblock: it reads and mutates [self] and the
    [World]; what it mutated before raising stays mutated. *)

Record State := mkState {
  self : Self;
  world : World;
}.

Definition M (A : Type) : Type := State -> result A * State.

Global Instance M_ret : MRet M := fun A a st => (Ok a, st).
Global Instance M_bind : MBind M := fun A B f m st =>
  match m st with
  | (Ok a, st') => f a st'
  | (Raise e, st') => (Raise e, st')
  end.

Definition raise {A} (e : exn) : M A := fun st => (Raise e, st).
Definition get_self : M Self := fun st => (Ok (self st), st).
Definition get_world : M World := fun st => (Ok (world st), st).
Definition modify (f : Self -> Self) : M unit :=
  fun st => (Ok tt, mkState (f (self st)) (world st)).
Definition emit (ev : Event) : M unit :=
  fun st => (Ok tt, mkState (self st)
                      (mkWorld (environ (world st)) (trace (world st) ++ [ev]))).

(** [os.getenv(k)] *)
Definition getenv (k : string) : M (option string) :=
  fun st => (Ok (environ (world st) !! k), st).

(** [setvar(k, v)] *)
Definition setvar (k v : string) : M unit :=
  fun st => (Ok tt, mkState (self st)
                      (mkWorld (<[k := v]> (environ (world st))) (trace (world st)))).

Definition set_environ (e : gmap string string) : M unit :=
  fun st => (Ok tt, mkState (self st) (mkWorld e (trace (world st)))).

(** A string is needed where the value may be [None]. *)
Definition need_str (what : string) (v : option string) : M string :=
  match v with
  | Some s => mret s
  | None => raise (TypeError what)
  end.

Fixpoint for_each {A} (l : list A) (body : A -> M unit) : M unit :=
  match l with
  | [] => mret tt
  | x :: l' => body x;; for_each l' body
  end.

Definition when (b : bool) (body : M unit) : M unit :=
  if b then body else mret tt.

(** [self.cfg.update('configopts', v)] *)
Definition update_configopts (v : string) : M unit :=
  modify (fun s => set_cfg (cfg_update_configopts v (cfg s)) s).

(** *** Framework calls *)

Definition mkdir (h : Host) (dir : string) : M unit :=
  w ← get_world;
  emit (EvMkdir dir);;
  if mkdir_ok h w dir then mret tt else raise (FrameworkError "mkdir").

Definition change_dir (h : Host) (dir : string) : M unit :=
  w ← get_world;
  emit (EvChangeDir dir);;
  if change_dir_ok h w dir then mret tt else raise (FrameworkError "change_dir").

Definition symlink (h : Host) (src dst : string) : M unit :=
  w ← get_world;
  emit (EvSymlink src dst);;
  if symlink_ok h w src dst then mret tt else raise (FrameworkError "symlink").

(** [run_cmd(cmd, log_all=True)]: a non-zero exit code is an error. *)
Definition run_cmd_log_all (h : Host) (cmd : string) : M string :=
  w ← get_world;
  emit (EvRunCmd cmd);;
  let '(out, ec) := run_cmd h w cmd in
  if (ec =? 0)%Z then mret out else raise (FrameworkError "run_cmd").

(** [run_cmd(cmd, log_all=False, log_ok=False, simple=False, regexp=False)]:
    the output is returned whatever the exit code. *)
Definition run_cmd_no_check (h : Host) (cmd : string) : M string :=
  w ← get_world;
  emit (EvRunCmd cmd);;
  mret (fst (run_cmd h w cmd)).

Definition print_warning (msg : string) : M unit := emit (EvWarning msg).

Definition require_root (h : Host) (dep msg : string) : M string :=
  match get_software_root h dep with
  | Some root => mret root
  | None => raise (EasyBuildError msg)
  end.

(** ** Project profiles *)

Definition add_check_files (l : list string) : M unit :=
  modify (fun s => set_check_files (check_files s ++ l) s).
Definition add_check_dirs (l : list string) : M unit :=
  modify (fun s => set_check_dirs (check_dirs s ++ l) s).
Definition add_check_commands (l : list string) : M unit :=
  modify (fun s => set_check_commands (check_commands s ++ l) s).
Definition assign_test_targets (l : list string) : M unit :=
  modify (set_test_targets l).

Definition in_bin (f : string) : string := "bin/" +:+ f.
Definition in_lib (f : string) : string := "lib/" +:+ f.
Definition in_include (f : string) : string := "include/" +:+ f.

(** Configurations specific to Clang. *)
Definition _clang_config (h : Host) : M unit :=
  require_root h "LLVMruntimes" "LLVMruntimes is required to build Clang";;
  require_root h "lld" "lld is required to build Clang";;
  require_root h "compiler-rt" "compiler-rt is required to build Clang";;
  s ← get_self;
  when (enable_rtti (cfg s) && String.eqb (Py.lower (name (eb s))) "clang")
    (update_configopts "-DLLVM_REQUIRES_RTTI=ON";;
     update_configopts "-DLLVM_ENABLE_RTTI=ON";;
     update_configopts "-DLLVM_ENABLE_EH=ON");;
  when (Py.truthy (default_openmp_runtime (cfg s)))
    (update_configopts ("-DCLANG_DEFAULT_OPENMP_RUNTIME="
                          +:+ Py.fmt (default_openmp_runtime (cfg s))));;
  update_configopts "-DCLANG_DEFAULT_LINKER=lld";;
  update_configopts "-DCLANG_DEFAULT_CXX_STDLIB=libc++";;
  update_configopts "-DCLANG_DEFAULT_RTLIB=compiler-rt";;
  update_configopts "-DLLVM_BUILD_UTILS=ON";;
  w ← get_world;
  (if negb (Py.truthy (which h w "llvm-gtest")) then
     print_warning "llvm-gtest not found, disabling tests";;
     update_configopts "-DLLVM_INCLUDE_TESTS=OFF"
   else
     update_configopts "-DLLVM_INCLUDE_TESTS=ON";;
     assign_test_targets ["check-clang"]);;
  gcc_prefix ←
    match get_software_root h "GCCcore" with
    | Some p => mret p
    | None => require_root h "GCC" "Can't find GCC or GCCcore to use"
    end;
  update_configopts ("-DGCC_INSTALL_PREFIX='" +:+ gcc_prefix +:+ "'");;
  add_check_files
    (map in_bin
       ["clang"; "clang++"; "clang-cpp"; "clang-cl"; "clang-repl"; "hmaptool";
        "amdgpu-arch"; "nvptx-arch"; "intercept-build"; "scan-build";
        "scan-build-py"; "scan-view"; "analyze-build"; "c-index-test";
        "clang-tblgen"]
     ++ map in_lib
       ["libclang.so"; "libclang-cpp.so"; "libclangAST.a"; "libclangCrossTU.a";
        "libclangFrontend.a"; "libclangInterpreter.a"; "libclangParse.a";
        "libclangTooling.a"]);;
  add_check_dirs ["lib/cmake/clang"; "lib/libear"; "lib/libscanbuild"; "include/clang"];;
  add_check_commands
    [Py.join " | "
       ["echo 'int main(int argc, char **argv) { return 1; }'";
        "clang -xc -fplugin=" +:+ Py.dquote +:+ "$EBROOTPOLLY/lib/LLVMPolly.so"
          +:+ Py.dquote +:+ " -O3 -mllvm -polly -"]];;
  let cte_dir := Py.path_join (builddir (eb s)) "clang-tools-extra" in
  when (path_exists h cte_dir)
    (update_configopts "-DLLVM_TOOL_CLANG_TOOLS_EXTRA_BUILD=ON";;
     update_configopts ("-DLLVM_EXTERNAL_CLANG_TOOLS_EXTRA_SOURCE_DIR=" +:+ cte_dir);;
     add_check_files
       (map in_bin
          ["clangd"; "clang-tidy"; "clang-pseudo"; "clang-include-fixer";
           "clang-query"; "clang-move"; "clang-reorder-fields";
           "clang-include-cleaner"; "clang-apply-replacements";
           "clang-change-namespace"; "pp-trace"; "modularize"]
        ++ map in_lib
          ["libclangTidy.a"; "libclangQuery.a"; "libclangIncludeFixer.a";
           "libclangIncludeCleaner.a"])).

(** Configurations specific to Flang. *)
Definition _flang_config (h : Host) : M unit :=
  require_root h "lld" "lld is required to build Clang";;
  require_root h "compiler-rt" "compiler-rt is required to build Clang";;
  update_configopts "-DFLANG_DEFAULT_LINKER=lld";;
  update_configopts "-DFLANG_DEFAULT_RTLIB=compiler-rt";;
  add_check_files
    (map in_bin
       ["bbc"; "flang-new"; "flang-to-external-fc"; "f18-parse-demo"; "fir-opt"; "tco"]
     ++ map in_lib
       ["libFortranRuntime.a"; "libFortranSNemantics.a"; "libFortranLower.a";
        "libFortranParser.a"; "libFIRCodeGen.a"; "libflangFrontend.a";
        "libFortranCommon.a"; "libFortranDecimal.a"; "libHLFIRDialect.a"]).

(** [x in self.cfg['build_targets']] *)
Definition in_build_targets (x : string) (s : Self) : bool :=
  Py.mem x (default [] (build_targets (cfg s))).

(** Configurations specific to Polly. *)
Definition _polly_config (h : Host) : M unit :=
  assign_test_targets ["check-polly"];;
  add_check_files ["lib/LLVMPolly.so"; "lib/libPolly.a"; "lib/libPollyISL.a"];;
  add_check_dirs ["lib/cmake/polly"; "include/polly"];;
  s ← get_self;
  when (in_build_targets "NVPTX" s)
    (update_configopts "-DPOLLY_ENABLE_GPGPU_CODEGEN=ON").

(** Configurations specific to MLIR. *)
Definition _mlir_config (h : Host) : M unit :=
  update_configopts "-DLLVM_BUILD_UTILS=ON";;
  update_configopts "-DMLIR_INCLUDE_TESTS=On";;
  assign_test_targets ["check-mlir"];;
  add_check_files
    ["bin/mlir-tblgen"; "bin/tblgen-to-irdl"; "bin/mlir-pdll"; "lib/libMLIRIR.a";
     "lib/libmlir_async_runtime.so"; "lib/libmlir_arm_runner_utils.so";
     "lib/libmlir_c_runner_utils.so"; "lib/libmlir_float16_utils.so"];;
  add_check_dirs ["lib/cmake/mlir"; "include/mlir"; "include/mlir-c"];;
  s ← get_self;
  when (python_bindings (cfg s))
    (update_configopts "-DMLIR_ENABLE_BINDINGS_PYTHON=ON").

(** Configurations specific to LLVM runtimes. *)
Definition _runtimes_config (h : Host) : M unit :=
  assign_test_targets ["check-runtimes"; "check-unwind"; "check-cxx"; "check-cxxabi"];;
  update_configopts "-DLLVM_ENABLE_RUNTIMES='libunwind;libcxxabi;libcxx'";;
  update_configopts "-DLIBCXX_INCLUDE_BENCHMARKS=OFF";;
  update_configopts "-DCXX_SUPPORTS_NOSTDLIBXX_FLAG=OFF";;
  require_root h "compiler-rt" "compiler-rt is required to build LLVMruntimes";;
  update_configopts "-DLIBCXX_CXX_ABI=libcxxabi";;
  update_configopts "-DLIBCXX_USE_COMPILER_RT=On";;
  update_configopts "-DLIBCXXABI_USE_LLVM_UNWINDER=On";;
  update_configopts "-DLIBCXXABI_USE_COMPILER_RT=On";;
  add_check_files
    (map in_lib
       ["libunwind.a"; "libc++.a"; "libc++abi.a"; "libunwind.so"; "libc++.so";
        "libc++abi.so"]
     ++ map in_include
       ["unwind.h"; "libunwind.h"; "mach-o/compact_unwind_encoding.h"]);;
  add_check_dirs ["include/c++"; "include/mach-o"].

(** Configurations specific to LLD. *)
Definition _lld_config (h : Host) : M unit :=
  update_configopts "-DLLVM_INCLUDE_TESTS=On";;
  assign_test_targets ["check-lld"];;
  add_check_files
    ["bin/lld"; "bin/ld.lld"; "bin/ld64.lld"; "bin/wasm-ld"; "bin/lld-link";
     "lib/liblldCOFF.a"; "lib/liblldCommon.a"; "lib/liblldELF.a";
     "lib/liblldMachO.a"; "lib/liblldMinGW.a"; "lib/liblldWasm.a"];;
  add_check_dirs ["lib/cmake/lld"; "include/lld"].

(** Configurations specific to LLDB. *)
Definition _lldb_config (h : Host) : M unit :=
  add_check_files ["bin/lldb"].

(** Configurations specific to Compiler-RT. *)
Definition _compiler_rt_config (h : Host) : M unit :=
  let arch := arch_name h (get_cpu_architecture h) in
  add_check_files
    (map (fun f => "lib/linux/" +:+ f +:+ "-" +:+ arch +:+ ".a")
       ["libclang_rt.asan"; "libclang_rt.hwasan"; "libclang_rt.lsan";
        "libclang_rt.memprof"; "libclang_rt.xray"; "libclang_rt.scudo_standalone";
        "libclang_rt.stats"; "libclang_rt.tsan"; "libclang_rt.ubsan_minimal"]
     ++ ["bin/hwasan_symbolize"]);;
  add_check_dirs ["include/sanitizer"; "include/fuzzer"; "include/orc"; "include/xray"].

(** [getattr(self, '_%s_config' % self.project_name.replace('-', '_'), None)]:
    the profile whose method name is spelled by the project name, if any. *)
Definition configure_func (project_name : string) : option (Host -> M unit) :=
  let key := Py.replace project_name "-" "_" in
  if String.eqb key "clang" then Some _clang_config
  else if String.eqb key "flang" then Some _flang_config
  else if String.eqb key "polly" then Some _polly_config
  else if String.eqb key "mlir" then Some _mlir_config
  else if String.eqb key "runtimes" then Some _runtimes_config
  else if String.eqb key "lld" then Some _lld_config
  else if String.eqb key "lldb" then Some _lldb_config
  else if String.eqb key "compiler_rt" then Some _compiler_rt_config
  else None.

(** ** configure_step: Run CMake for stage 1 *)

(** [a or b or []] on optional lists: the first that is neither [None] nor
    empty. *)
Definition list_truthy (v : option (list string)) : bool :=
  match v with Some (_ :: _) => true | _ => false end.

Definition first_truthy (a b : option (list string)) : list string :=
  if list_truthy a then default [] a
  else if list_truthy b then default [] b
  else [].

(** The [<NAME>_DIR] hints for the sibling components already installed. *)
Definition sibling_cmake_dirs (h : Host) : M unit :=
  for_each ["LLVM"; "lld"; "lldb"; "clang-tools-extra"; "clang"; "flang"; "mlir"]
    (fun prevs =>
       let sft_root := get_software_root h prevs in
       when (Py.truthy sft_root)
         (let cmake_dir :=
            Py.path_join (Py.path_join (Py.path_join (Py.fmt sft_root) "lib") "cmake")
              (Py.lower prevs) in
          update_configopts ("-D" +:+ Py.upper prevs +:+ "_DIR=" +:+ cmake_dir))).

(** If 'NVPTX' is in the build targets we assume the user would like OpenMP
    offload support as well. *)
Definition nvptx_offload_config (h : Host) : M unit :=
  s ← get_self;
  let ec_cuda_cc := cuda_compute_capabilities (cfg s) in
  let cfg_cuda_cc := build_option_cuda_compute_capabilities h in
  let cuda_cc := first_truthy cfg_cuda_cc ec_cuda_cc in
  if bool_decide (cuda_cc = []) then
    raise (EasyBuildError
      "Can't build Clang with CUDA support without specifying 'cuda-compute-capabilities'")
  else
    let default_cc :=
      if Py.truthy (default_cuda_capability (cfg s))
      then Py.fmt (default_cuda_capability (cfg s))
      else Py.fmt (Py.min cuda_cc) in
    when (negb (Py.truthy (default_cuda_capability (cfg s))))
      (print_warning
         ("No default CUDA capability defined! Using '" +:+ default_cc
            +:+ "' taken as minimum from 'cuda_compute_capabilities'"));;
    let cuda_cc := map (fun cc => Py.replace cc "." EmptyString) cuda_cc in
    let default_cc := Py.replace default_cc "." EmptyString in
    update_configopts ("-DCLANG_OPENMP_NVPTX_DEFAULT_ARCH=sm_" +:+ default_cc);;
    update_configopts
      ("-DLIBOMPTARGET_NVPTX_COMPUTE_CAPABILITIES=" +:+ Py.join "," cuda_cc).

(** If 'AMDGPU' is in the build targets we assume the user would like OpenMP
    offload support for AMD. *)
Definition amdgpu_offload_config (h : Host) : M unit :=
  s ← get_self;
  if negb (Py.truthy (get_software_root h "ROCR-Runtime")) then
    raise (EasyBuildError
      "Can't build Clang with AMDGPU support without dependency 'ROCR-Runtime'")
  else
    let ec_amdgfx := amd_gfx_list (cfg s) in
    if negb (list_truthy ec_amdgfx) then
      raise (EasyBuildError
        "Can't build Clang with AMDGPU support without specifying 'amd_gfx_list'")
    else
      update_configopts
        ("-DLIBOMPTARGET_AMDGCN_GFXLIST=" +:+ Py.join " " (default [] ec_amdgfx)).

(** The value of [-DLLVM_TARGETS_TO_BUILD]. *)
Definition targets_to_build_flag (targets : list string) : string :=
  "-DLLVM_TARGETS_TO_BUILD=" +:+ Py.dquote +:+ Py.join ";" targets +:+ Py.dquote.

Definition configure_step (h : Host) : M unit :=
  let llvm_root := get_software_root h "LLVM" in
  if negb (Py.truthy llvm_root) then raise (EasyBuildError "Can't find LLVM to use")
  else
    let llvm_root := Py.fmt llvm_root in
    sibling_cmake_dirs h;;
    s ← get_self;
    let llvm_path := Py.path_join (builddir (eb s)) "llvm" in
    when (path_exists h llvm_path)
      (let llvm_path := Py.path_join (Py.path_join llvm_path "cmake") "modules" in
       cmake_mpath ← getenv "CMAKE_MODULE_PATH";
       let cmake_mpath :=
         match cmake_mpath with
         | None => llvm_path
         | Some p => llvm_path +:+ ";" +:+ p
         end in
       update_configopts ("-DCMAKE_MODULE_PATH=" +:+ cmake_mpath));;
    update_configopts "-DLLVM_LINK_LLVM_DYLIB=ON";;
    let obj1 := Py.path_join (builddir (eb s)) "llvm.obj.1" in
    modify (fun s =>
      if bootstrap (cfg s)
      then set_obj_dirs (Some obj1)
             (Some (Py.path_join (builddir (eb s)) "llvm.obj.2"))
             (Some (Py.path_join (builddir (eb s)) "llvm.obj.3")) s
      else set_obj_dirs (Some obj1) (llvm_obj_dir_stage2 s) (llvm_obj_dir_stage3 s) s);;
    mkdir h obj1;;
    change_dir h obj1;;
    match configure_func (project_name s) with
    | Some func => func h
    | None => mret tt
    end;;
    s ← get_self;
    (if assertions (cfg s)
     then update_configopts "-DLLVM_ENABLE_ASSERTIONS=ON"
     else update_configopts "-DLLVM_ENABLE_ASSERTIONS=OFF");;
    when (Py.truthy (get_software_root h "lld"))
      (update_configopts "-DCMAKE_EXE_LINKER_FLAGS=-fuse-ld=lld");;
    update_configopts
      ("-DCMAKE_AR=" +:+ Py.path_join (Py.path_join llvm_root "bin") "llvm-ar");;
    update_configopts
      ("-DCMAKE_NM=" +:+ Py.path_join (Py.path_join llvm_root "bin") "llvm-nm");;
    update_configopts
      ("-DCMAKE_RANLIB=" +:+ Py.path_join (Py.path_join llvm_root "bin") "llvm-ranlib");;
    update_configopts (targets_to_build_flag (default [] (build_targets (cfg s))));;
    match parallel (cfg s) with
    | Some (S n) => modify (set_make_parallel_opts ("-j " +:+ pretty (S n)))
    | _ => mret tt
    end;;
    let hwloc_root := get_software_root h "hwloc" in
    when (Py.truthy hwloc_root)
      (update_configopts "-DLIBOMP_USE_HWLOC=ON";;
       update_configopts ("-DLIBOMP_HWLOC_INSTALL_DIR=" +:+ Py.fmt hwloc_root));;
    when (in_build_targets "NVPTX" s) (nvptx_offload_config h);;
    when (negb (Py.truthy (get_software_root h "CUDA")))
      (setvar "CUDA_NVCC_EXECUTABLE" "IGNORE");;
    when (in_build_targets "AMDGPU" s) (amdgpu_offload_config h);;
    s ← get_self;
    w ← get_world;
    emit (EvConfigure (srcdir s) (configopts (cfg s)));;
    if super_configure_ok h w (srcdir s) (configopts (cfg s)) then mret tt
    else raise (FrameworkError "configure_step").

(** ** The staged build *)

(** Build Clang stage N using Clang stage N-1. *)
Definition build_with_prev_stage (h : Host) (prev_obj next_obj : option string)
  : M unit :=
  next_obj ← need_str "mkdir" next_obj;
  mkdir h next_obj;;
  change_dir h next_obj;;
  orig_path ← getenv "PATH";
  prev_obj ← need_str "os.path.join" prev_obj;
  let prev_obj_path := Py.path_join prev_obj "bin" in
  orig_path ← need_str "str + None" orig_path;
  setvar "PATH" (prev_obj_path +:+ ":" +:+ orig_path);;
  when (build_option_rpath h)
    (w ← get_world;
     emit EvRpathWrappers;;
     match prepare_rpath_wrappers h w with
     | Some e => set_environ e
     | None => raise (FrameworkError "prepare_rpath_wrappers")
     end;;
     w ← get_world;
     clang ← need_str "os.path.dirname" (which h w "clang");
     let clang_wrapper_dir := Py.dirname clang in
     symlink h (Py.path_join prev_obj_path "opt") (Py.path_join clang_wrapper_dir "opt");;
     cflags ← getenv "CFLAGS";
     cxxflags ← getenv "CXXFLAGS";
     setvar "CFLAGS" (Py.fmt cflags +:+ " " +:+ "-Wno-unused-command-line-argument");;
     setvar "CXXFLAGS" (Py.fmt cxxflags +:+ " " +:+ "-Wno-unused-command-line-argument"));;
  w ← get_world;
  let clang := which h w "clang" in
  let clangxx := which h w "clang++" in
  s ← get_self;
  let options :=
    [ "-DCMAKE_INSTALL_PREFIX=" +:+ installdir (eb s) +:+ " ";
      "-DCMAKE_C_COMPILER='" +:+ Py.fmt clang +:+ "' ";
      "-DCMAKE_CXX_COMPILER='" +:+ Py.fmt clangxx +:+ "' ";
      Py.join " " (configopts (cfg s));
      "-DCMAKE_BUILD_TYPE=" +:+ build_type (eb s) +:+ " " ] in
  let options :=
    if build_option_rpath h
    then options ++ ["-DLIBOMPTARGET_NVPTX_BC_LINKER=" +:+ Py.fmt (which h w "llvm-link")]
    else options in
  (if loose_ge h (version (eb s)) "14" then
     src ← need_str "os.path.join" (llvm_src_dir s);
     run_cmd_log_all h ("cmake " +:+ Py.join " " options +:+ " " +:+ Py.path_join src "llvm")
   else
     run_cmd_log_all h ("cmake " +:+ Py.join " " options +:+ " " +:+ Py.fmt (llvm_src_dir s)));;
  run_cmd_log_all h ("make " +:+ make_parallel_opts s +:+ " VERBOSE=1");;
  setvar "PATH" orig_path.

(** Build Clang stage 1, 2, 3. *)
Definition build_step (h : Host) : M unit :=
  s ← get_self;
  dir1 ← need_str "change_dir" (llvm_obj_dir_stage1 s);
  change_dir h dir1;;
  w ← get_world;
  emit EvBuild;;
  (if super_build_ok h w then mret tt else raise (FrameworkError "build_step"));;
  when (bootstrap (cfg s))
    (build_with_prev_stage h (llvm_obj_dir_stage1 s) (llvm_obj_dir_stage2 s);;
     build_with_prev_stage h (llvm_obj_dir_stage2 s) (llvm_obj_dir_stage3 s)).

(** ** test_step: Run Clang tests on final stage (unless disabled) *)

Module Rgx.

Definition is_space (c : ascii) : bool := Ascii.eqb c " ".
Definition is_newline (c : ascii) : bool := Ascii.eqb c "010".

(** The rest of [s] after its leading run of spaces. *)
Fixpoint skip_spaces (s : string) : string :=
  match s with
  | String c s' => if is_space c then skip_spaces s' else s
  | EmptyString => s
  end.

(** [ +]: one space at least, then every space that follows. *)
Definition spaces1 (s : string) : option string :=
  match s with
  | String c s' => if is_space c then Some (skip_spaces s') else None
  | EmptyString => None
  end.

(** A literal word: the rest of [s] after it. *)
Fixpoint literal (word s : string) : option string :=
  match word with
  | EmptyString => Some s
  | String a word' =>
      match s with
      | String b s' => if Ascii.eqb a b then literal word' s' else None
      | EmptyString => None
      end
  end.

(** The leading run of digits of [s]. *)
Fixpoint take_digits (s : string) : string :=
  match s with
  | String c s' => if Py.is_digit c then String c (take_digits s') else EmptyString
  | EmptyString => EmptyString
  end.

(** [([0-9]+)]: the group, when it is not empty. *)
Definition digits1 (s : string) : option string :=
  match take_digits s with
  | EmptyString => None
  | d => Some d
  end.

(** [ +<word> +: +([0-9]+)] matched at the start of [s]: group 1. *)
Definition match_summary (word s : string) : option string :=
  s ← spaces1 s;
  s ← literal word s;
  s ← spaces1 s;
  s ← literal ":" s;
  s ← spaces1 s;
  digits1 s.

(** [re.compile(r'^ +<word> +: +([0-9]+)', flags=re.MULTILINE).search(s)]:
    the match at the first line start where there is one; [bol] tells
    whether [s] begins a line. *)
Fixpoint search_from (word s : string) (bol : bool) : option string :=
  match (if bol then match_summary word s else None) with
  | Some d => Some d
  | None =>
      match s with
      | EmptyString => None
      | String c s' => search_from word s' (is_newline c)
      end
  end.

Definition search (word out : string) : option string := search_from word out true.

End Rgx.

(** The body of the loop over the test targets, after the target has run:
    the number of failed tests read from its output. *)
Definition num_failed_of (out : string) : result Z :=
  match Rgx.search "Failed" out with
  | None =>
      match Rgx.search "Passed" out with
      | None => Raise (EasyBuildError "Failed to extract test results from output")
      | Some _ => Ok 0
      end
  | Some group1 => Ok (Py.int group1)
  end.

Definition check_test_output (out : string) (max_failed : Z) : result unit :=
  num_failed ← num_failed_of out;
  if (num_failed >? max_failed)%Z then
    Raise (EasyBuildError ("Too many failed tests: " +:+ pretty num_failed))
  else Ok tt.

Definition lift {A} (r : result A) : M A :=
  match r with
  | Ok a => mret a
  | Raise e => raise e
  end.

Definition test_step (h : Host) : M unit :=
  s ← get_self;
  when (negb (skip_all_tests (cfg s)))
    (dir ← need_str "change_dir"
             (if bootstrap (cfg s) then llvm_obj_dir_stage3 s else llvm_obj_dir_stage1 s);
     change_dir h dir;;
     for_each (test_targets s)
       (fun target =>
          out ← run_cmd_no_check h ("make " +:+ target);
          lift (check_test_output out (test_suite_max_failed (cfg s))))).

(** ** install_step: Install stage 3 binaries *)

(** [s.split('.')[0]] *)
Fixpoint before_dot (s : string) : string :=
  match s with
  | EmptyString => EmptyString
  | String c s' => if Ascii.eqb c "." then EmptyString else String c (before_dot s')
  end.

Definition install_step (h : Host) : M unit :=
  s ← get_self;
  dir ← need_str "change_dir"
          (if bootstrap (cfg s) then llvm_obj_dir_stage3 s else llvm_obj_dir_stage1 s);
  change_dir h dir;;
  w ← get_world;
  emit EvInstall;;
  (if super_install_ok h w then mret tt else raise (FrameworkError "install_step"));;
  when (String.eqb (project_name s) "clang")
    (compiler_rt_root ← need_str "os.path.join" (get_software_root h "compiler-rt");
     let major_version := before_dot (version (eb s)) in
     let lib_path_src := Py.path_join compiler_rt_root "lib" in
     let lib_path_dst :=
       Py.path_join
         (Py.path_join (Py.path_join (Py.path_join (installdir (eb s)) "lib") "clang")
            major_version) "lib" in
     symlink h lib_path_src lib_path_dst).

(** ** sanity_check_step: Custom sanity check *)

(** The expected files on a platform whose shared libraries do not end in
    [so]:
    [[f.replace('.so', '.%s' % shlib_ext) for f in files if f.endswith('.so')]] *)
Definition adapt_shlib_ext (shlib_ext : string) (files : list string) : list string :=
  map (fun f => Py.replace f ".so" ("." +:+ shlib_ext))
    (List.filter (fun f => Py.endswith f ".so") files).

(** [custom_paths.setdefault(key, []).extend(l)] *)
Definition setdefault_extend (key : string) (l : list string)
    (d : gmap string (list string)) : gmap string (list string) :=
  <[key := default [] (d !! key) ++ l]> d.

(** The paths handed to the generic check. [custom_paths] is the easyconfig's
    own dictionary, so the easyconfig sees every change made to it. *)
Definition checked_paths (shlib_ext : string) (s : Self) : gmap string (list string) :=
  let custom_paths := sanity_check_paths (cfg s) in
  let custom_paths := setdefault_extend "files" (check_files s) custom_paths in
  let custom_paths := setdefault_extend "dirs" (check_dirs s) custom_paths in
  if negb (String.eqb shlib_ext "so") then
    let files := default [] (custom_paths !! "files") in
    <["files" := adapt_shlib_ext shlib_ext files]> custom_paths
  else custom_paths.

Definition sanity_check_step (h : Host) : M unit :=
  let custom_commands : list string := [] in
  let shlib_ext := get_shared_lib_ext h in
  let arch := get_cpu_architecture h in
  when (negb (bool_decide (arch = X86_64)) && negb (bool_decide (arch = POWER))
          && negb (bool_decide (arch = AARCH64)))
    (print_warning ("Unknown CPU architecture (" +:+ arch_name h arch
                      +:+ ") for OpenMP and runtime libraries check!"));;
  s ← get_self;
  let custom_paths := checked_paths shlib_ext s in
  let custom_commands := custom_commands ++ check_commands s in
  modify (fun s => set_cfg (set_sanity_check_paths custom_paths (cfg s)) s);;
  w ← get_world;
  let files := default [] (custom_paths !! "files") in
  let dirs := default [] (custom_paths !! "dirs") in
  emit (EvSanityCheck files dirs custom_commands);;
  if super_sanity_ok h w files dirs custom_commands then mret tt
  else raise (FrameworkError "sanity_check_step").

(** ** make_module_req_guess

    Clang can find its own headers and libraries but the .so's need to be
    in LD_LIBRARY_PATH. [guesses] is what the generic easyblock returns;
    [guesses.update] overwrites three of its keys. *)
Definition make_module_req_guess (guesses : gmap string (list string)) (s : Self)
  : gmap string (list string) :=
  <["LD_LIBRARY_PATH" := ["lib"; "lib64"; "lib/linux"; runtime_lib_path s] ]>
    (<["LIBRARY_PATH" := ["lib"; "lib64"; "lib/linux"; runtime_lib_path s] ]>
       (<["CPATH" := ["include"] ]> guesses)).

(** ** The run of one easyblock

    The framework creates the object, then calls its steps in this order;
    a raise ends the run. *)
Definition run_steps (h : Host) : M unit :=
  configure_step h;;
  build_step h;;
  test_step h;;
  install_step h;;
  sanity_check_step h.

Definition run_easyblock (h : Host) (b : EasyBlock) (c : EasyConfig) (w : World)
  : result unit * World :=
  match __init__ h b c with
  | Raise e => (Raise e, w)
  | Ok s => let '(r, st) := run_steps h (mkState s w) in (r, world st)
  end.

(** ** A concrete host and easyconfigs, for running the model *)

Module Example.

(** The numeric components of a version, in order. *)
Fixpoint components (cur : option Z) (s : string) : list Z :=
  match s with
  | EmptyString => match cur with Some n => [n] | None => [] end
  | String c s' =>
      if Py.is_digit c
      then components (Some (10 * default 0 cur + Py.digit_value c)) s'
      else match cur with
           | Some n => n :: components None s'
           | None => components None s'
           end
  end.

Fixpoint components_lt (a b : list Z) : bool :=
  match a, b with
  | _, [] => false
  | [], _ :: _ => true
  | x :: a', y :: b' => (x <? y) || ((x =? y) && components_lt a' b')
  end.

(** A version order that agrees with the framework's on dotted numbers. *)
Definition version_lt (a b : string) : bool :=
  components_lt (components None a) (components None b).

Definition installed : list string :=
  ["LLVM"; "lld"; "compiler-rt"; "LLVMruntimes"; "GCCcore"].

(** A Linux x86_64 host on which every framework call succeeds and the
    test suites report no failure. *)
Definition host_on (shlib_ext : string) (rpath : bool) (cmake_exit : Z) : Host := {|
  get_cpu_architecture := X86_64;
  arch_name := fun a =>
    match a with
    | AARCH32 => "AArch32" | AARCH64 => "AArch64" | POWER => "POWER"
    | RISCV64 => "RISC-V-64" | X86_64 => "x86_64" | OTHER_ARCH n => n
    end;
  get_shared_lib_ext := shlib_ext;
  loose_lt := version_lt;
  get_software_root := fun dep =>
    if Py.mem dep installed then Some ("/sw/" +:+ dep) else None;
  path_exists := fun _ => false;
  which := fun _ prog => Some ("/wrappers/" +:+ prog);
  build_option_rpath := rpath;
  build_option_cuda_compute_capabilities := None;
  mkdir_ok := fun _ _ => true;
  change_dir_ok := fun _ _ => true;
  symlink_ok := fun _ _ _ => true;
  prepare_rpath_wrappers := fun w => Some (environ w);
  run_cmd := fun _ cmd =>
    if Py.startswith cmd "cmake" then (EmptyString, cmake_exit)
    else ("  Passed   : 10", 0);
  super_configure_ok := fun _ _ _ => true;
  super_build_ok := fun _ => true;
  super_install_ok := fun _ => true;
  super_sanity_ok := fun _ _ _ _ => true;
|}.

Definition host : bool -> Z -> Host := host_on "so".

Definition easyblock (name version : string) : EasyBlock := {|
  name := name;
  version := version;
  builddir := "/build";
  installdir := "/install";
  build_type := "Release";
  toolchain_cuda_family := false;
|}.

Definition easyconfig (bootstrap : bool) (targets : option (list string))
    (deps : list string) : EasyConfig := {|
  amd_gfx_list := None;
  assertions := true;
  bootstrap := bootstrap;
  build_targets := targets;
  default_cuda_capability := None;
  default_openmp_runtime := None;
  enable_rtti := false;
  python_bindings := false;
  skip_all_tests := false;
  test_suite_max_failed := 0;
  cuda_compute_capabilities := None;
  parallel := Some 8%nat;
  dependencies := deps;
  configopts := [];
  sanity_check_paths := ∅;
|}.

(** A Clang easyconfig that builds for the host and for NVPTX. *)
Definition cuda_easyconfig (cuda_cc : list string) : EasyConfig := {|
  amd_gfx_list := None;
  assertions := true;
  bootstrap := false;
  build_targets := Some ["X86"; "NVPTX"];
  default_cuda_capability := None;
  default_openmp_runtime := None;
  enable_rtti := false;
  python_bindings := false;
  skip_all_tests := false;
  test_suite_max_failed := 0;
  cuda_compute_capabilities := Some cuda_cc;
  parallel := Some 8%nat;
  dependencies := ["CUDA"];
  configopts := [];
  sanity_check_paths := ∅;
|}.

Definition world : World := {|
  environ := {[ "PATH" := "/usr/bin"; "CFLAGS" := "-O2"; "CXXFLAGS" := "-O2" ]};
  trace := [];
|}.

(** The state after [__init__] and [configure_step], when both return. *)
Definition configured (h : Host) (b : EasyBlock) (c : EasyConfig) (w : World)
  : option State :=
  match __init__ h b c with
  | Ok s =>
      match configure_step h (mkState s w) with
      | (Ok _, st) => Some st
      | (Raise _, _) => None
      end
  | Raise _ => None
  end.

(** An object in the middle of a bootstrap, with its source tree known. *)
Definition stage_self : Self := {|
  eb := easyblock "Clang" "18.1.8";
  cfg := easyconfig true (Some ["X86"]) [];
  llvm_src_dir := Some "/build/llvm-project";
  llvm_obj_dir_stage1 := Some "/build/llvm.obj.1";
  llvm_obj_dir_stage2 := Some "/build/llvm.obj.2";
  llvm_obj_dir_stage3 := Some "/build/llvm.obj.3";
  test_targets := ["check-clang"];
  check_files := [];
  check_dirs := [];
  check_commands := [];
  make_parallel_opts := "-j 8";
  runtime_lib_path := "lib";
  project_name := "clang";
  srcdir := "/build/clang";
|}.

End Example.

(** * The vocabulary of the properties *)

(** ** Initialisation *)

Definition msg_unsupported_version (v : string) : string :=
  "LLVM version " +:+ v +:+ " is not supported, please use version 18.1.6 or newer".

Definition msg_bootstrap : string := "Bootstrapping only supported for Clang".

Definition msg_no_default_targets (arch : string) : string :=
  "No default build targets defined for CPU architecture " +:+ arch +:+ ".".

Definition msg_unknown_targets (unknown : list string) : string :=
  "Some of the chosen build targets (" +:+ Py.join ", " unknown
    +:+ ") are not in " +:+ Py.join ", " CLANG_TARGETS +:+ ".".

(** [text] lists [names] in their order, with a comma and a blank between
    one name and the next. *)
Inductive lists_names : list string -> string -> Prop :=
  | lists_nothing : lists_names [] EmptyString
  | lists_one name : lists_names [name] name
  | lists_more name names text :
      names <> [] -> lists_names names text ->
      lists_names (name :: names) (name +:+ ", " +:+ text).

(** The lengths of the names, with two more for each of them: the length
    of a text that lists them, and two. *)
Fixpoint listing_size (l : list string) : nat :=
  match l with
  | [] => 0
  | name :: l' => String.length name + 2 + listing_size l'
  end.

Definition msg_mblaze : string :=
  "Build target MBlaze is not supported anymore in > Clang-3.3".

(** The two gates at the head of [__init__]. *)
Definition version_supported (h : Host) (b : EasyBlock) : Prop :=
  loose_lt h (version b) "18.1.6" = false.

Definition is_clang (b : EasyBlock) : Prop := Py.lower (name b) = "clang".

Definition bootstrap_allowed (b : EasyBlock) (c : EasyConfig) : Prop :=
  bootstrap c = false \/ is_clang b.

Definition supported_archs : list cpu_arch := map fst DEFAULT_TARGETS_MAP.

(** The accelerator dependencies, as [__init__] detects them. *)
Definition has_cuda (b : EasyBlock) (c : EasyConfig) : bool :=
  Py.mem "cuda" (map Py.lower (dependencies c)) || toolchain_cuda_family b.

Definition has_rocr (c : EasyConfig) : bool :=
  Py.mem "rocr-runtime" (map Py.lower (dependencies c)).

(** ** Test summaries *)

Module Summary.

Fixpoint all (p : ascii -> bool) (s : string) : bool :=
  match s with
  | EmptyString => true
  | String c s' => p c && all p s'
  end.

(** A run of one character or more, all of the class [p]. *)
Definition run1 (p : ascii -> bool) (s : string) : Prop :=
  s <> EmptyString /\ all p s = true.

(** [s] does not go on with a character of the class [p]. *)
Definition stops (p : ascii -> bool) (s : string) : Prop :=
  match s with
  | EmptyString => True
  | String c _ => p c = false
  end.

Fixpoint last_char (s : string) : option ascii :=
  match s with
  | EmptyString => None
  | String c s' => match last_char s' with None => Some c | r => r end
  end.

(** A line starts after the text [pre]: nothing comes before, or a
    newline does. [bol] tells whether a line starts where [pre] does. *)
Definition starts_line (bol : bool) (pre : string) : Prop :=
  match last_char pre with
  | None => bol = true
  | Some c => Rgx.is_newline c = true
  end.

Definition line_start (pre : string) : Prop := starts_line true pre.

(** The summary pattern read at the start of [s]: one space or more,
    the word, one space or more, a colon, one space or more, then the
    longest run of digits [d]. *)
Definition summary (word s d : string) : Prop :=
  exists sp1 sp2 sp3 rest,
    s = sp1 +:+ word +:+ sp2 +:+ ":" +:+ sp3 +:+ d +:+ rest
    /\ run1 Rgx.is_space sp1 /\ run1 Rgx.is_space sp2 /\ run1 Rgx.is_space sp3
    /\ run1 Py.is_digit d /\ stops Py.is_digit rest.

(** [out] has a summary line for [word] that starts after [pre] and
    reads [d]. *)
Definition line_at (word out pre d : string) : Prop :=
  line_start pre /\ exists s, out = pre +:+ s /\ summary word s d.

(** The first such line of [out]. *)
Definition first_line (word out pre d : string) : Prop :=
  line_at word out pre d
  /\ forall pre' d', line_at word out pre' d' ->
                     (String.length pre <= String.length pre')%nat.

Definition no_line (word out : string) : Prop :=
  forall pre d, ~ line_at word out pre d.

(** The pattern as the specification words it, with the leading blanks
    optional. *)
Definition claimed_summary (word s d : string) : Prop :=
  exists sp1 sp2 sp3 rest,
    s = sp1 +:+ word +:+ sp2 +:+ ":" +:+ sp3 +:+ d +:+ rest
    /\ all Rgx.is_space sp1 = true /\ run1 Rgx.is_space sp2
    /\ run1 Rgx.is_space sp3 /\ run1 Py.is_digit d /\ stops Py.is_digit rest.

Definition claimed_line_at (word out pre d : string) : Prop :=
  line_start pre /\ exists s, out = pre +:+ s /\ claimed_summary word s d.

End Summary.

Import Summary.

(** The word of a summary line does not begin with a space. *)
Definition solid (word : string) : Prop :=
  match word with
  | EmptyString => False
  | String c _ => Rgx.is_space c = false
  end.

Definition msg_no_results : string := "Failed to extract test results from output".

Definition msg_too_many (n : Z) : string := "Too many failed tests: " +:+ pretty n.

(** ** Steps *)

(** [frames R m]: whatever its outcome, the step [m] takes a state to a
    state related to it by [R]. *)
Definition frames (R : relation State) {A} (m : M A) : Prop :=
  forall st, R st (m st).2.

(** [wp m st Q]: if the step [m] run from [st] returns, [Q] holds of what it
    returns and of the state it leaves. *)
Definition wp {A} (m : M A) (st : State) (Q : A -> State -> Prop) : Prop :=
  match m st with
  | (Ok a, st') => Q a st'
  | (Raise _, _) => True
  end.

(** The easyconfig without the two entries that steps write to. *)
Definition static_cfg (c : EasyConfig) : EasyConfig :=
  set_sanity_check_paths ∅ (set_configopts [] c).

Record stable (st st' : State) : Prop := mk_stable {
  stable_eb : eb (self st') = eb (self st);
  stable_cfg : static_cfg (cfg (self st')) = static_cfg (cfg (self st));
  stable_src : llvm_src_dir (self st') = llvm_src_dir (self st);
  stable_project : project_name (self st') = project_name (self st);
  stable_srcdir : srcdir (self st') = srcdir (self st);
  stable_configopts :
    configopts (cfg (self st)) `prefix_of` configopts (cfg (self st'));
  stable_trace : trace (world st) `prefix_of` trace (world st');
}.

(** [stable], and the expectations, the test targets and the stage
    directories are left alone. *)
Record quiet (st st' : State) : Prop := mk_quiet {
  quiet_stable : stable st st';
  quiet_stage1 : llvm_obj_dir_stage1 (self st') = llvm_obj_dir_stage1 (self st);
  quiet_stage2 : llvm_obj_dir_stage2 (self st') = llvm_obj_dir_stage2 (self st);
  quiet_stage3 : llvm_obj_dir_stage3 (self st') = llvm_obj_dir_stage3 (self st);
  quiet_files : check_files (self st') = check_files (self st);
  quiet_dirs : check_dirs (self st') = check_dirs (self st);
  quiet_commands : check_commands (self st') = check_commands (self st);
  quiet_tests : test_targets (self st') = test_targets (self st);
}.

(** ** Profiles and CUDA capabilities *)

Definition polly_files : list string :=
  ["lib/LLVMPolly.so"; "lib/libPolly.a"; "lib/libPollyISL.a"].

Definition polly_dirs : list string := ["lib/cmake/polly"; "include/polly"].

Definition msg_no_cuda_cc : string :=
  "Can't build Clang with CUDA support without specifying 'cuda-compute-capabilities'".

Definition msg_default_cc (default_cc : string) : string :=
  "No default CUDA capability defined! Using '" +:+ default_cc
    +:+ "' taken as minimum from 'cuda_compute_capabilities'".

Definition default_arch_flag (default_cc : string) : string :=
  "-DCLANG_OPENMP_NVPTX_DEFAULT_ARCH=sm_" +:+ Py.replace default_cc "." EmptyString.

Definition capabilities_flag (cuda_cc : list string) : string :=
  "-DLIBOMPTARGET_NVPTX_COMPUTE_CAPABILITIES="
    +:+ Py.join "," (map (fun cc => Py.replace cc "." EmptyString) cuda_cc).

(** [a] is a lower capability than [b]: the numbers they spell compare
    so, [9.0] below [10.0]. *)
Definition lower_capability (a b : string) : bool :=
  Example.components_lt (Example.components None a) (Example.components None b).

(** The capabilities asked for: those of the EasyBuild configuration if
    any, else those of the easyconfig. *)
Definition requested_cuda_cc (h : Host) (st : State) : list string :=
  first_truthy (build_option_cuda_compute_capabilities h)
    (cuda_compute_capabilities (cfg (self st))).

(** ** The environment of a stage *)

Definition any_state : relation State := fun _ _ => True.

Definition same_environ : relation State :=
  fun st st' => environ (world st') = environ (world st).

(** The compiler-flag variables are as they were. *)
Definition same_flags : relation State :=
  fun st st' =>
    environ (world st') !! "CFLAGS" = environ (world st) !! "CFLAGS"
    /\ environ (world st') !! "CXXFLAGS" = environ (world st) !! "CXXFLAGS".

Definition no_unused_warning : string := "-Wno-unused-command-line-argument".

(** The end of [build_with_prev_stage], from the lookup of the compilers
    on: the part of a stage after the compiler wrappers are set up. *)
Definition configure_and_build (h : Host) (orig_path : string) : M unit :=
  w ← get_world;
  let clang := which h w "clang" in
  let clangxx := which h w "clang++" in
  s ← get_self;
  let options :=
    [ "-DCMAKE_INSTALL_PREFIX=" +:+ installdir (eb s) +:+ " ";
      "-DCMAKE_C_COMPILER='" +:+ Py.fmt clang +:+ "' ";
      "-DCMAKE_CXX_COMPILER='" +:+ Py.fmt clangxx +:+ "' ";
      Py.join " " (configopts (cfg s));
      "-DCMAKE_BUILD_TYPE=" +:+ build_type (eb s) +:+ " " ] in
  let options :=
    if build_option_rpath h
    then options ++ ["-DLIBOMPTARGET_NVPTX_BC_LINKER=" +:+ Py.fmt (which h w "llvm-link")]
    else options in
  (if loose_ge h (version (eb s)) "14" then
     src ← need_str "os.path.join" (llvm_src_dir s);
     run_cmd_log_all h ("cmake " +:+ Py.join " " options +:+ " " +:+ Py.path_join src "llvm")
   else
     run_cmd_log_all h ("cmake " +:+ Py.join " " options +:+ " " +:+ Py.fmt (llvm_src_dir s)));;
  run_cmd_log_all h ("make " +:+ make_parallel_opts s +:+ " VERBOSE=1");;
  setvar "PATH" orig_path.

(** [PATH] during a stage: the [bin] of the previous stage in front. *)
Definition stage_path (prev_obj orig_path : string) : string :=
  Py.path_join prev_obj "bin" +:+ ":" +:+ orig_path.

(** The world of a stage once it has made and entered its directory and
    put the previous stage in front of [PATH]. *)
Definition stage_world (prev next orig_path : string) (w : World) : World :=
  mkWorld (<["PATH" := stage_path prev orig_path]> (environ w))
    (trace w ++ [EvMkdir next; EvChangeDir next]).

(** The environment that the rpath wrappers set up for a stage, when the
    stage has what it needs to ask for them. *)
Definition wrappers_environ (h : Host) (prev_obj next_obj : option string) (st : State)
  : option (gmap string string) :=
  prev ← prev_obj;
  next ← next_obj;
  orig_path ← environ (world st) !! "PATH";
  prepare_rpath_wrappers h (stage_world prev next orig_path (world st)).

(** A flag variable with the flag against unused arguments added. *)
Definition with_no_unused_warning (flags : option string) : string :=
  Py.fmt flags +:+ " " +:+ no_unused_warning.

(** The source directory that a stage hands to CMake: from version 14 on
    [llvm] under the source directory of the object, which has to be known;
    before, the source directory itself. *)
Definition stage_source (h : Host) (s : Self) : option string :=
  if loose_ge h (version (eb s)) "14"
  then (fun src => Py.path_join src "llvm") <$> llvm_src_dir s
  else Some (Py.fmt (llvm_src_dir s)).

(** The CMake command of a stage: the installation prefix, the two
    compilers, the text of the configure options, the build type, and
    [rest]. *)
Definition stage_cmake (b : EasyBlock) (clang clangxx : option string)
    (opts rest : string) : string :=
  "cmake -DCMAKE_INSTALL_PREFIX=" +:+ installdir b
    +:+ "  -DCMAKE_C_COMPILER='" +:+ Py.fmt clang
    +:+ "'  -DCMAKE_CXX_COMPILER='" +:+ Py.fmt clangxx
    +:+ "'  " +:+ opts
    +:+ " -DCMAKE_BUILD_TYPE=" +:+ build_type b +:+ "  " +:+ rest.

(** What comes last in the CMake command of a stage with rpath wrappers:
    the linker of the NVPTX bitcode, then the source directory. *)
Definition linker_and_source (llvm_link : option string) (src : string) : string :=
  "-DLIBOMPTARGET_NVPTX_BC_LINKER=" +:+ Py.fmt llvm_link +:+ " " +:+ src.

Definition stage_make (s : Self) : Event :=
  EvRunCmd ("make " +:+ make_parallel_opts s +:+ " VERBOSE=1").

(** [part] occurs in [text]. *)
Definition occurs_in (part text : string) : Prop :=
  exists before after, text = before +:+ part +:+ after.

(** ** Relations between the states before and after a step *)

(** The step leaves the view [f] of the state as it was. *)
Definition keeps {T} (f : State -> T) : relation State :=
  fun st st' => f st' = f st.

(** Both relations hold. *)
Definition both (R1 R2 : relation State) : relation State :=
  fun st st' => R1 st st' /\ R2 st st'.

(** Every variable of the environment but [key] is as it was. *)
Definition environ_but (key : string) : relation State :=
  fun st st' =>
    forall k, k <> key -> environ (world st') !! k = environ (world st) !! k.

(** The expectations and the test targets of the object. *)
Definition checks (st : State) : list string * list string * list string * list string :=
  (check_files (self st), check_dirs (self st), check_commands (self st),
   test_targets (self st)).

(** The three stage directories of the object. *)
Definition stage_dirs (st : State) : option string * option string * option string :=
  (llvm_obj_dir_stage1 (self st), llvm_obj_dir_stage2 (self st),
   llvm_obj_dir_stage3 (self st)).

(** ** The events of a step *)

(** The step appended to the trace only events that satisfy [P]. *)
Definition appends (P : Event -> Prop) : relation State :=
  fun st st' =>
    exists evs, trace (world st') = trace (world st) ++ evs /\ Forall P evs.

Definition is_warning (ev : Event) : Prop :=
  match ev with
  | EvWarning _ => True
  | _ => False
  end.

(** Making or entering a directory, or a warning. *)
Definition is_preparation (ev : Event) : Prop :=
  match ev with
  | EvMkdir _ | EvChangeDir _ | EvWarning _ => True
  | _ => False
  end.

Definition is_configure (ev : Event) : Prop :=
  match ev with
  | EvConfigure _ _ => True
  | _ => False
  end.

(** ** The outcome of a step *)

(** The step returns from every state. *)
Definition returns {A} (m : M A) : Prop :=
  forall st, exists a st', m st = (Ok a, st').

(** The first of [deps] that is not installed. *)
Definition first_missing (h : Host) (deps : list string) : option string :=
  List.find (fun dep => negb (bool_decide (is_Some (get_software_root h dep)))) deps.

(** The outcome of checks that ask for [deps] in turn, each failing with
    its name followed by [what]. *)
Definition outcome_of_dependencies (h : Host) (deps : list string) (what : string)
  : result unit :=
  match first_missing h deps with
  | Some dep => Raise (EasyBuildError (dep +:+ what))
  | None => Ok tt
  end.

(** The outcome of the Clang profile: its three dependencies in turn, then
    a GCC to take the installation prefix from. *)
Definition outcome_of_clang_config (h : Host) : result unit :=
  match first_missing h ["LLVMruntimes"; "lld"; "compiler-rt"] with
  | Some dep => Raise (EasyBuildError (dep +:+ " is required to build Clang"))
  | None =>
      match get_software_root h "GCCcore", get_software_root h "GCC" with
      | None, None => Raise (EasyBuildError "Can't find GCC or GCCcore to use")
      | _, _ => Ok tt
      end
  end.

(** ** The offload blocks *)

Definition msg_no_rocr : string :=
  "Can't build Clang with AMDGPU support without dependency 'ROCR-Runtime'".

Definition msg_no_gfx_list : string :=
  "Can't build Clang with AMDGPU support without specifying 'amd_gfx_list'".

Definition gfx_list_flag (gfx : list string) : string :=
  "-DLIBOMPTARGET_AMDGCN_GFXLIST=" +:+ Py.join " " gfx.

(** [s] with every dot taken out. *)
Fixpoint without_dots (s : string) : string :=
  match s with
  | EmptyString => EmptyString
  | String c s' => if Ascii.eqb c "." then without_dots s' else String c (without_dots s')
  end.

(** ** Running the tests *)

(** The directory of the final stage. *)
Definition final_stage_dir (s : Self) : option string :=
  if bootstrap (cfg s) then llvm_obj_dir_stage3 s else llvm_obj_dir_stage1 s.

Definition make_target (target : string) : Event := EvRunCmd ("make " +:+ target).

(** The host [h], but every command exits with the code [ec]. *)
Definition with_exit_code (h : Host) (ec : Z) : Host := {|
  get_cpu_architecture := get_cpu_architecture h;
  arch_name := arch_name h;
  get_shared_lib_ext := get_shared_lib_ext h;
  loose_lt := loose_lt h;
  get_software_root := get_software_root h;
  path_exists := path_exists h;
  which := which h;
  build_option_rpath := build_option_rpath h;
  build_option_cuda_compute_capabilities := build_option_cuda_compute_capabilities h;
  mkdir_ok := mkdir_ok h;
  change_dir_ok := change_dir_ok h;
  symlink_ok := symlink_ok h;
  prepare_rpath_wrappers := prepare_rpath_wrappers h;
  run_cmd := fun w cmd => ((run_cmd h w cmd).1, ec);
  super_configure_ok := super_configure_ok h;
  super_build_ok := super_build_ok h;
  super_install_ok := super_install_ok h;
  super_sanity_ok := super_sanity_ok h;
|}.

(** The errors [test_step] can end in. *)
Definition test_step_error (max_failed : Z) (e : exn) : Prop :=
  e = TypeError "change_dir" \/ e = FrameworkError "change_dir"
  \/ e = EasyBuildError msg_no_results
  \/ exists n, (n > max_failed)%Z /\ e = EasyBuildError (msg_too_many n).

(** ** The sanity check *)

(** The expected files and directories: those of the easyconfig, then
    those of the object. *)
Definition all_expected_files (s : Self) : list string :=
  default [] (sanity_check_paths (cfg s) !! "files") ++ check_files s.

Definition all_expected_dirs (s : Self) : list string :=
  default [] (sanity_check_paths (cfg s) !! "dirs") ++ check_dirs s.

(** The warning about an architecture that is none of the three known to
    the sanity check. *)
Definition arch_warning (h : Host) : list Event :=
  match get_cpu_architecture h with
  | X86_64 | POWER | AARCH64 => []
  | arch =>
      [EvWarning ("Unknown CPU architecture (" +:+ arch_name h arch
                    +:+ ") for OpenMP and runtime libraries check!")]
  end.

(** ** The installation *)

(** [m] is [v] up to its first dot. *)
Definition major_of (v m : string) : Prop :=
  without_dots m = m /\ (v = m \/ exists rest, v = m +:+ "." +:+ rest).

(** The link [install_step] makes for Clang: from the libraries of
    compiler-rt to the resource directory of the installed Clang. *)
Definition runtime_link (compiler_rt_root : string) (b : EasyBlock) (major : string)
  : Event :=
  EvSymlink (Py.path_join compiler_rt_root "lib")
    (Py.path_join
       (Py.path_join (Py.path_join (Py.path_join (installdir b) "lib") "clang") major)
       "lib").

(** ** The hints to the sibling components *)

Definition siblings : list string :=
  ["LLVM"; "lld"; "lldb"; "clang-tools-extra"; "clang"; "flang"; "mlir"].

(** [-D<NAME>_DIR=<root>/lib/cmake/<name>] *)
Definition sibling_hint (h : Host) (sibling : string) : string :=
  "-D" +:+ Py.upper sibling +:+ "_DIR="
    +:+ Py.path_join
          (Py.path_join (Py.path_join (Py.fmt (get_software_root h sibling)) "lib")
             "cmake")
          (Py.lower sibling).

(** One hint for each sibling that is installed, in the order of the
    siblings. *)
Definition sibling_hints (h : Host) : list string :=
  map (sibling_hint h)
    (List.filter (fun sibling => Py.truthy (get_software_root h sibling)) siblings).

(** ** The test targets of a project *)

(** The test targets a profile other than Clang's leaves, from those that
    were there: four profiles set their own, the others set none. *)
Definition profile_test_targets (project : string) (before : list string)
  : list string :=
  let key := Py.replace project "-" "_" in
  if String.eqb key "polly" then ["check-polly"]
  else if String.eqb key "mlir" then ["check-mlir"]
  else if String.eqb key "runtimes"
  then ["check-runtimes"; "check-unwind"; "check-cxx"; "check-cxxabi"]
  else if String.eqb key "lld" then ["check-lld"]
  else before.

(** ** The calls of a run *)

(** What the easyblock asks for on its own account: anything but a call to
    one of the four steps of the generic easyblock. *)
Definition is_own (ev : Event) : Prop :=
  match ev with
  | EvConfigure _ _ | EvBuild | EvInstall | EvSanityCheck _ _ _ => False
  | _ => True
  end.

(** ** The project of a name *)

(** [c] occurs in [s]. *)
Fixpoint has_char (c : ascii) (s : string) : bool :=
  match s with
  | EmptyString => false
  | String c' s' => Ascii.eqb c' c || has_char c s'
  end.

(** The project is dispatched to the Clang profile. *)
Definition clang_profile (project : string) : Prop :=
  Py.replace project "-" "_" = "clang".

(** * Properties *)

(** ** Python primitives at work *)

Example replace_all_occurrences :
  Py.replace "lib/x.so.so" ".so" ".dylib" = "lib/x.dylib.dylib".
Proof. reflexivity. Qed.

Example endswith_so : Py.endswith "lib/libclang.so" ".so" = true.
Proof. reflexivity. Qed.

Example path_join_abs : Py.path_join "/build" "llvm.obj.1" = "/build/llvm.obj.1".
Proof. reflexivity. Qed.


(** ** Strings and lists *)

(** A closed decidable proposition, settled by evaluation. *)
Ltac by_compute := apply (bool_decide_unpack _); vm_compute; exact I.

Lemma app_cons c (s t : string) : String c s +:+ t = String c (s +:+ t).
Proof. reflexivity. Qed.

Lemma app_empty_l (s : string) : EmptyString +:+ s = s.
Proof. reflexivity. Qed.

Lemma str_app_assoc (a b c : string) : (a +:+ b) +:+ c = a +:+ (b +:+ c).
Proof. induction a as [|x a IH]; [done|]. by rewrite !app_cons, IH. Qed.

Lemma str_app_length (s t : string) :
  String.length (s +:+ t) = (String.length s + String.length t)%nat.
Proof. induction s as [|c s IH]; [done|]. rewrite app_cons. cbn. by rewrite IH. Qed.

(** A text is not itself with something added at its end. *)
Lemma str_app_neq (s t : string) : t <> EmptyString -> s +:+ t <> s.
Proof.
  intros Ht Heq. apply (f_equal String.length) in Heq. rewrite str_app_length in Heq.
  destruct t; [done|]. cbn in Heq. lia.
Qed.

Lemma mem_elem_of x l : Py.mem x l = true <-> x ∈ l.
Proof.
  unfold Py.mem. rewrite existsb_exists. split.
  - intros (y & Hy & Heq). apply String.eqb_eq in Heq. subst.
    by apply list_elem_of_In.
  - intros Hin. exists x. split; [by apply list_elem_of_In | apply String.eqb_refl].
Qed.

Lemma mem_not_elem_of x l : Py.mem x l = false <-> x ∉ l.
Proof.
  rewrite <- mem_elem_of. destruct (Py.mem x l); split; congruence.
Qed.

Lemma unknown_targets_spec targets t :
  t ∈ unknown_targets targets <-> t ∈ targets /\ t ∉ CLANG_TARGETS.
Proof.
  unfold unknown_targets. rewrite !list_elem_of_In, filter_In.
  rewrite negb_true_iff, mem_not_elem_of, list_elem_of_In. tauto.
Qed.

Lemma unknown_targets_sublist targets : sublist (unknown_targets targets) targets.
Proof.
  unfold unknown_targets. induction targets as [|t l IH]; simpl; [constructor|].
  destruct (negb _); by constructor.
Qed.

(** ** Initialisation *)

Lemma bootstrap_gate_open b c :
  bootstrap_allowed b c ->
  bootstrap c && negb (String.eqb (Py.lower (name b)) "clang") = false.
Proof.
  intros [-> | Hc]; [done|]. unfold is_clang in Hc. rewrite Hc.
  by rewrite andb_false_r.
Qed.

Lemma bootstrap_gate_closed b c :
  bootstrap c = true -> ~ is_clang b ->
  bootstrap c && negb (String.eqb (Py.lower (name b)) "clang") = true.
Proof.
  intros -> Hn. simpl. apply negb_true_iff, String.eqb_neq. exact Hn.
Qed.

(** What [__init__] does once both gates are passed. *)
Lemma init_after_gates h b c :
  version_supported h b -> bootstrap_allowed b c ->
  __init__ h b c =
    (let c := cfg_update_configopts "-DPython3_FIND_VIRTUALENV=STANDARD" c in
     targets ← match build_targets c with
               | None => default_build_targets h b c
               | Some targets => Ok targets
               end;
     let c := set_build_targets (Some targets) c in
     if negb (bool_decide (unknown_targets targets = [])) then
       Raise (EasyBuildError (msg_unknown_targets (unknown_targets targets)))
     else if Py.mem "MBlaze" targets then Raise (EasyBuildError msg_mblaze)
     else
       let name := Py.lower (name b) in
       let name := if Py.startswith name "llvm" then Py.drop 4 name else name in
       Ok (mkSelf b c None None None None [] [] [] [] EmptyString "lib"
             name (Py.path_join (builddir b) name))).
Proof.
  intros Hv Hb. unfold __init__. rewrite Hv, (bootstrap_gate_open _ _ Hb). reflexivity.
Qed.

(** C10. [__init__] raises the unsupported-version error, naming the version,
    exactly when the version compares below 18.1.6 in the framework's loose
    version order; for any other version no such error is raised. *)
Theorem init_version_gate (h : Host) (b : EasyBlock) (c : EasyConfig) :
  if loose_lt h (version b) "18.1.6"
  then __init__ h b c = Raise (EasyBuildError (msg_unsupported_version (version b)))
  else forall v, __init__ h b c <> Raise (EasyBuildError (msg_unsupported_version v)).
Proof.
  destruct (loose_lt h (version b) "18.1.6") eqn:Hv.
  - unfold __init__. by rewrite Hv.
  - intros v. unfold __init__. rewrite Hv.
    destruct (bootstrap c && _); [discriminate|].
    simpl. destruct (build_targets _) as [targets|]; simpl.
    + repeat case_match; discriminate.
    + unfold default_build_targets. repeat case_match; simpl; try discriminate.
      all: repeat case_match; discriminate.
Qed.

Lemma init_version_gate_witness :
  __init__ (Example.host false 0) (Example.easyblock "Clang" "17.0.6")
    (Example.easyconfig false None [])
  = Raise (EasyBuildError (msg_unsupported_version "17.0.6")).
Proof.
  exact (init_version_gate (Example.host false 0) (Example.easyblock "Clang" "17.0.6")
           (Example.easyconfig false None [])).
Defined.

(** C6, amended. The bootstrap gate reads the name of the easyblock, not
    its project: with the bootstrap flag set for a name that is not [clang]
    in lower case, [__init__] raises, and the run of the easyblock ends
    there with the world as it was: no directory made, no command run, no
    stage configured or built. Once the version gate is passed the error is
    the bootstrap one. With the flag unset, or set for a name that is
    [clang] in lower case, [__init__] never raises it. *)
Theorem bootstrap_only_for_clang (h : Host) (b : EasyBlock) (c : EasyConfig) (w : World) :
  (bootstrap c = true -> ~ is_clang b ->
     exists e, __init__ h b c = Raise e
       /\ run_easyblock h b c w = (Raise e, w)
       /\ (version_supported h b -> e = EasyBuildError msg_bootstrap))
  /\ (bootstrap_allowed b c -> __init__ h b c <> Raise (EasyBuildError msg_bootstrap)).
Proof.
  split.
  - intros Hb Hn. pose proof (bootstrap_gate_closed _ _ Hb Hn) as Hg.
    unfold run_easyblock, __init__, version_supported. rewrite Hg.
    destruct (loose_lt h (version b) "18.1.6"); eexists; repeat split; congruence.
  - intros Ha. unfold __init__. rewrite (bootstrap_gate_open _ _ Ha).
    destruct (loose_lt h (version b) "18.1.6"); [discriminate|].
    simpl. destruct (build_targets _) as [targets|]; simpl.
    + repeat case_match; discriminate.
    + unfold default_build_targets. repeat case_match; simpl; try discriminate.
      all: repeat case_match; discriminate.
Qed.

Lemma bootstrap_only_for_clang_witness :
  __init__ (Example.host false 0) (Example.easyblock "polly" "18.1.8")
    (Example.easyconfig true None []) = Raise (EasyBuildError msg_bootstrap)
  /\ run_easyblock (Example.host false 0) (Example.easyblock "polly" "18.1.8")
       (Example.easyconfig true None []) Example.world
     = (Raise (EasyBuildError msg_bootstrap), Example.world)
  /\ __init__ (Example.host false 0) (Example.easyblock "Clang" "18.1.8")
       (Example.easyconfig true None []) <> Raise (EasyBuildError msg_bootstrap).
Proof.
  destruct (bootstrap_only_for_clang (Example.host false 0)
              (Example.easyblock "polly" "18.1.8")
              (Example.easyconfig true None []) Example.world) as [Hraise _].
  destruct Hraise as (e & Hi & Hr & He); [reflexivity | discriminate |].
  rewrite (He eq_refl) in Hi, Hr.
  split; [exact Hi | split; [exact Hr |]].
  apply (bootstrap_only_for_clang (Example.host false 0)
           (Example.easyblock "Clang" "18.1.8")
           (Example.easyconfig true None []) Example.world).
  right. reflexivity.
Defined.

(** C6 as stated fails for the name [LLVMclang]. Its project is [clang],
    the one the Clang profile configures, and without the bootstrap flag
    [__init__] returns the object; with the flag it raises the bootstrap
    error, and the run ends there. *)
Lemma bootstrap_refused_for_llvmclang :
  (exists s,
     __init__ (Example.host false 0) (Example.easyblock "LLVMclang" "18.1.8")
       (Example.easyconfig false None []) = Ok s
     /\ project_name s = "clang"
     /\ configure_func (project_name s) = Some _clang_config)
  /\ __init__ (Example.host false 0) (Example.easyblock "LLVMclang" "18.1.8")
       (Example.easyconfig true None [])
     = Raise (EasyBuildError "Bootstrapping only supported for Clang")
  /\ run_easyblock (Example.host false 0) (Example.easyblock "LLVMclang" "18.1.8")
       (Example.easyconfig true None []) Example.world
     = (Raise (EasyBuildError "Bootstrapping only supported for Clang"), Example.world).
Proof.
  split; [|split; reflexivity].
  eexists. split; [reflexivity|]. split; reflexivity.
Qed.

(** *** Default target selection *)

Lemma dict_get_supported a :
  is_Some (dict_get DEFAULT_TARGETS_MAP a) <-> a ∈ supported_archs.
Proof.
  unfold supported_archs. simpl. split.
  - intros [ts Hts]. destruct a; try by_compute. discriminate.
  - intros Hin. destruct a; simpl; eauto.
    apply (bool_decide_pack _) in Hin. by vm_compute in Hin.
Qed.

Lemma default_build_targets_spec h b c :
  default_build_targets h b c =
    match dict_get DEFAULT_TARGETS_MAP (get_cpu_architecture h) with
    | Some cpu =>
        Ok (cpu ++ (if has_cuda b c then ["NVPTX"] else [])
                ++ (if has_rocr c then ["AMDGPU"] else []))
    | None =>
        Raise (EasyBuildError
                 (msg_no_default_targets (arch_name h (get_cpu_architecture h))))
    end.
Proof.
  unfold default_build_targets, has_cuda, has_rocr.
  destruct (dict_get _ _) as [cpu|]; [|reflexivity].
  destruct (_ || _), (Py.mem "rocr-runtime" _); f_equal; simpl;
    by rewrite <- ?app_assoc, ?app_nil_r.
Qed.

(** Every default selection passes the validation of [__init__]. *)
Lemma default_selection_valid a cpu (cuda rocr : bool) :
  dict_get DEFAULT_TARGETS_MAP a = Some cpu ->
  let targets := cpu ++ (if cuda then ["NVPTX"] else [])
                     ++ (if rocr then ["AMDGPU"] else []) in
  unknown_targets targets = [] /\ Py.mem "MBlaze" targets = false
  /\ NoDup targets /\ exists t, cpu = [t].
Proof.
  intros Hget.
  destruct a; simpl in Hget; try discriminate; injection Hget as <-;
    destruct cuda, rocr; simpl; (split; [reflexivity|]); (split; [reflexivity|]);
    (split; [| eauto]); by_compute.
Qed.

(** C3, amended. With no explicit target list and no CUDA or ROCR-Runtime
    dependency, once both gates of [__init__] are passed the build targets
    are exactly the one default backend mapped from the host CPU
    architecture; an architecture outside the mapping is the fatal
    no-default-targets error; and the mapping supports five architectures
    (AArch32, AArch64, POWER, RISC-V 64 and x86_64). *)
Theorem default_targets_cpu_only (h : Host) (b : EasyBlock) (c : EasyConfig) :
  version_supported h b -> bootstrap_allowed b c ->
  build_targets c = None -> has_cuda b c = false -> has_rocr c = false ->
  match dict_get DEFAULT_TARGETS_MAP (get_cpu_architecture h) with
  | Some cpu =>
      (exists t, cpu = [t])
      /\ exists s, __init__ h b c = Ok s /\ build_targets (cfg s) = Some cpu
  | None =>
      __init__ h b c = Raise (EasyBuildError
                            (msg_no_default_targets (arch_name h (get_cpu_architecture h))))
  end
  /\ supported_archs = [AARCH32; AARCH64; POWER; RISCV64; X86_64]
  /\ NoDup supported_archs
  /\ (forall a, is_Some (dict_get DEFAULT_TARGETS_MAP a) <-> a ∈ supported_archs).
Proof.
  intros Hv Hb Hnone Hcuda Hrocr.
  split; [| split; [reflexivity | split; [| apply dict_get_supported]]].
  - rewrite (init_after_gates _ _ _ Hv Hb). cbv zeta.
    change (build_targets (cfg_update_configopts _ c)) with (build_targets c).
    rewrite Hnone, default_build_targets_spec.
    change (has_cuda b (cfg_update_configopts _ c)) with (has_cuda b c).
    change (has_rocr (cfg_update_configopts _ c)) with (has_rocr c).
    rewrite Hcuda, Hrocr.
    destruct (dict_get _ _) as [cpu|] eqn:Hget; [|reflexivity].
    destruct (default_selection_valid _ _ false false Hget) as (Hu & Hm & _ & Ht).
    simpl in Hu, Hm. rewrite app_nil_r in Hu, Hm.
    split; [exact Ht|]. simpl. rewrite app_nil_r, Hu, Hm. simpl. eauto.
  - by_compute.
Qed.

Lemma default_targets_cpu_only_witness :
  exists s, __init__ (Example.host false 0) (Example.easyblock "polly" "18.1.8")
              (Example.easyconfig false None ["zlib"]) = Ok s
            /\ build_targets (cfg s) = Some ["X86"].
Proof.
  pose proof (default_targets_cpu_only (Example.host false 0)
                (Example.easyblock "polly" "18.1.8")
                (Example.easyconfig false None ["zlib"])
                eq_refl (or_introl eq_refl) eq_refl eq_refl eq_refl) as [H _].
  simpl in H. destruct H as [_ H]. exact H.
Defined.

(** C3 as stated fails: the mapping has five architectures, not four. *)
Lemma default_targets_map_not_four :
  length supported_archs = 5%nat /\ length supported_archs <> 4%nat
  /\ NoDup supported_archs
  /\ Forall (fun a => is_Some (dict_get DEFAULT_TARGETS_MAP a)) supported_archs.
Proof.
  split; [reflexivity | split; [discriminate | split]].
  - by_compute.
  - unfold supported_archs. simpl. repeat constructor; simpl; eauto.
Qed.

(** *** Explicit target lists *)

Lemma init_explicit h b c targets :
  version_supported h b -> bootstrap_allowed b c ->
  build_targets c = Some targets ->
  __init__ h b c =
    if negb (bool_decide (unknown_targets targets = [])) then
      Raise (EasyBuildError (msg_unknown_targets (unknown_targets targets)))
    else if Py.mem "MBlaze" targets then Raise (EasyBuildError msg_mblaze)
    else
      let name := Py.lower (name b) in
      let name := if Py.startswith name "llvm" then Py.drop 4 name else name in
      Ok (mkSelf b
            (set_build_targets (Some targets)
               (cfg_update_configopts "-DPython3_FIND_VIRTUALENV=STANDARD" c))
            None None None None [] [] [] [] EmptyString "lib"
            name (Py.path_join (builddir b) name)).
Proof.
  intros Hv Hb Ht. rewrite (init_after_gates _ _ _ Hv Hb). cbv zeta.
  change (build_targets (cfg_update_configopts _ c)) with (build_targets c).
  by rewrite Ht.
Qed.

Lemma join_lists_names l : lists_names l (Py.join ", " l).
Proof.
  induction l as [|x [|y l] IH]; [constructor..|].
  change (Py.join ", " (x :: y :: l)) with (x +:+ ", " +:+ Py.join ", " (y :: l)).
  by constructor.
Qed.

Lemma lists_names_join l text : lists_names l text -> text = Py.join ", " l.
Proof.
  induction 1 as [|x|x l text Hl _ ->]; [done..|]. by destruct l.
Qed.

Lemma lists_names_length l text :
  lists_names l text -> l <> [] -> (String.length text + 2 = listing_size l)%nat.
Proof.
  induction 1 as [|x|x l text Hl _ IH]; intros Hne; [done|cbn; lia|].
  rewrite !str_app_length. cbn [listing_size String.length]. specialize (IH Hl). lia.
Qed.

Lemma sublist_listing_size l1 l2 :
  sublist l1 l2 -> (listing_size l1 <= listing_size l2)%nat.
Proof. induction 1; cbn; lia. Qed.

Lemma strict_sublist_listing_size l1 l2 :
  sublist l1 l2 -> l1 <> l2 -> (listing_size l1 + 2 <= listing_size l2)%nat.
Proof.
  induction 1 as [|x l1 l2 Hsub IH|x l1 l2 Hsub IH]; intros Hne; [done|..].
  - assert (l1 <> l2) as Hne' by congruence. specialize (IH Hne'). cbn. lia.
  - apply sublist_listing_size in Hsub. cbn. lia.
Qed.

(** A list of names and a part of it are not listed by the same text. *)
Lemma part_listed_apart part whole listed listed' :
  sublist part whole -> part <> [] -> part <> whole ->
  lists_names part listed -> lists_names whole listed' -> listed <> listed'.
Proof.
  intros Hsub Hnil Hne Hpart Hwhole Heq.
  assert (whole <> []) as Hnil'.
  { intros ->. by apply sublist_nil_r in Hsub. }
  apply lists_names_length in Hpart; [|done].
  apply lists_names_length in Hwhole; [|done].
  apply strict_sublist_listing_size in Hsub; [|done].
  apply (f_equal String.length) in Heq. lia.
Qed.

(** C4. For an explicit target list that reaches the validation of
    [__init__]: the entries reported are exactly those of the list that are
    not in [CLANG_TARGETS], in the order of the list. When there is one,
    the error raised lists them between its brackets, by name, in that
    order and with a comma and a blank between two of them, and then the
    known targets; when the list also holds a known target, it is not the
    whole list that stands between the brackets. A list of known targets
    that contains [MBlaze] is rejected as not supported any more, although
    [MBlaze] is in [CLANG_TARGETS]; any other list is accepted as it is. *)
Theorem explicit_targets_validated (h : Host) (b : EasyBlock) (c : EasyConfig)
    (targets : list string) :
  version_supported h b -> bootstrap_allowed b c ->
  build_targets c = Some targets ->
  let unknown := unknown_targets targets in
  (forall t, t ∈ unknown <-> t ∈ targets /\ t ∉ CLANG_TARGETS)
  /\ sublist unknown targets
  /\ (unknown <> [] ->
        exists listed,
          lists_names unknown listed
          /\ __init__ h b c
             = Raise (EasyBuildError
                        ("Some of the chosen build targets (" +:+ listed
                           +:+ ") are not in all, AArch64, AMDGPU, ARM, CppBackend, "
                           +:+ "Hexagon, Mips, MBlaze, MSP430, NVPTX, PowerPC, R600, "
                           +:+ "RISCV, Sparc, SystemZ, X86, XCore."))
          /\ (unknown <> targets ->
                forall whole, lists_names targets whole -> listed <> whole))
  /\ "MBlaze" ∈ CLANG_TARGETS
  /\ (unknown = [] -> "MBlaze" ∈ targets ->
        __init__ h b c = Raise (EasyBuildError msg_mblaze))
  /\ (unknown = [] -> "MBlaze" ∉ targets ->
        exists s, __init__ h b c = Ok s /\ build_targets (cfg s) = Some targets).
Proof.
  intros Hv Hb Ht unknown. subst unknown.
  rewrite (init_explicit _ _ _ _ Hv Hb Ht).
  split; [apply unknown_targets_spec|].
  split; [apply unknown_targets_sublist|].
  split; [| split; [by_compute | split]].
  - intros Hne. rewrite bool_decide_eq_false_2 by done. cbn [negb].
    exists (Py.join ", " (unknown_targets targets)).
    split; [apply join_lists_names|]. split.
    + reflexivity.
    + intros Hall whole Hwhole.
      by apply (part_listed_apart (unknown_targets targets) targets);
        [apply unknown_targets_sublist | | | apply join_lists_names |].
  - intros -> Hin. simpl. apply mem_elem_of in Hin. by rewrite Hin.
  - intros -> Hnin. simpl. apply mem_not_elem_of in Hnin. rewrite Hnin.
    eexists. split; reflexivity.
Qed.

Lemma explicit_targets_validated_witness :
  __init__ (Example.host false 0) (Example.easyblock "polly" "18.1.8")
    (Example.easyconfig false (Some ["X86"; "Itanium"; "NVPTX"; "Alpha"]) [])
  = Raise (EasyBuildError
             ("Some of the chosen build targets (Itanium, Alpha) are not in all, "
                +:+ "AArch64, AMDGPU, ARM, CppBackend, Hexagon, Mips, MBlaze, MSP430, "
                +:+ "NVPTX, PowerPC, R600, RISCV, Sparc, SystemZ, X86, XCore."))
  /\ __init__ (Example.host false 0) (Example.easyblock "polly" "18.1.8")
       (Example.easyconfig false (Some ["X86"; "MBlaze"]) [])
     = Raise (EasyBuildError
                "Build target MBlaze is not supported anymore in > Clang-3.3").
Proof.
  split.
  - destruct (explicit_targets_validated (Example.host false 0)
                (Example.easyblock "polly" "18.1.8")
                (Example.easyconfig false (Some ["X86"; "Itanium"; "NVPTX"; "Alpha"]) [])
                ["X86"; "Itanium"; "NVPTX"; "Alpha"] eq_refl (or_introl eq_refl) eq_refl)
      as (_ & _ & Hraise & _).
    destruct Hraise as (listed & Hlisted & Hinit & _); [discriminate|].
    apply lists_names_join in Hlisted. rewrite Hinit, Hlisted. reflexivity.
  - apply (explicit_targets_validated (Example.host false 0)
             (Example.easyblock "polly" "18.1.8")
             (Example.easyconfig false (Some ["X86"; "MBlaze"]) [])
             ["X86"; "MBlaze"] eq_refl (or_introl eq_refl) eq_refl).
    + reflexivity.
    + by_compute.
Defined.

(** *** What [__init__] leaves in [build_targets] *)

Lemma init_build_targets h b c s :
  __init__ h b c = Ok s ->
  exists targets,
    build_targets (cfg s) = Some targets
    /\ eb s = b
    /\ check_files s = [] /\ check_dirs s = [] /\ check_commands s = []
    /\ test_targets s = [] /\ llvm_src_dir s = None
    /\ bootstrap (cfg s) = bootstrap c
    /\ match build_targets c with
       | Some explicit => targets = explicit
       | None =>
           exists t, dict_get DEFAULT_TARGETS_MAP (get_cpu_architecture h) = Some [t]
             /\ targets = [t] ++ (if has_cuda b c then ["NVPTX"] else [])
                              ++ (if has_rocr c then ["AMDGPU"] else [])
       end.
Proof.
  unfold __init__.
  destruct (loose_lt _ _ _); [discriminate|].
  destruct (bootstrap c && _); [discriminate|].
  change (build_targets (cfg_update_configopts _ c)) with (build_targets c).
  destruct (build_targets c) as [explicit|] eqn:Ht.
  - unfold mbind, result_bind. cbv beta iota zeta.
    destruct (negb _); [discriminate|]. destruct (Py.mem _ _); [discriminate|].
    intros [= <-]. cbn [build_targets cfg set_build_targets eb check_files
      check_dirs check_commands test_targets llvm_src_dir bootstrap
      cfg_update_configopts set_configopts].
    eexists; repeat split; reflexivity.
  - rewrite default_build_targets_spec.
    change (has_cuda b (cfg_update_configopts _ c)) with (has_cuda b c).
    change (has_rocr (cfg_update_configopts _ c)) with (has_rocr c).
    destruct (dict_get _ _) as [cpu|] eqn:Hget; [|discriminate].
    destruct (default_selection_valid _ _ (has_cuda b c) (has_rocr c) Hget)
      as (_ & _ & _ & t & ->).
    unfold mbind, result_bind. cbv beta iota zeta.
    destruct (negb _); [discriminate|]. destruct (Py.mem _ _); [discriminate|].
    intros [= <-]. cbn [build_targets cfg set_build_targets eb check_files
      check_dirs check_commands test_targets llvm_src_dir bootstrap
      cfg_update_configopts set_configopts].
    eexists; repeat split; try reflexivity. eauto.
Qed.

(** ** The sanity check on a platform without [.so] libraries *)

Lemma adapt_shlib_ext_spec shlib_ext files f :
  f ∈ adapt_shlib_ext shlib_ext files <->
  exists g, g ∈ files /\ Py.endswith g ".so" = true
            /\ f = Py.replace g ".so" ("." +:+ shlib_ext).
Proof.
  unfold adapt_shlib_ext. rewrite list_elem_of_In, in_map_iff. split.
  - intros (g & <- & Hg). apply filter_In in Hg as [Hin Hso].
    exists g. by rewrite list_elem_of_In.
  - intros (g & Hin & Hso & ->). exists g. split; [done|].
    apply filter_In. by rewrite <- list_elem_of_In.
Qed.

(** C2. On a platform whose shared libraries end in [dylib], the list of
    expected files handed to the generic check holds the rewritten [.so]
    entries and nothing else: an expected static library or binary is not
    kept unchanged, it is dropped (on a [so] platform the list is kept
    whole). So a run for Polly on such a platform checks the one file
    [lib/LLVMPolly.dylib]. In general the files checked are the images of
    the accumulated files ending in [.so], and only those. *)
Theorem sanity_check_drops_other_files :
  adapt_shlib_ext "dylib" ["bin/clang"; "lib/libclang.so"; "lib/libclangAST.a"]
    = ["lib/libclang.dylib"]
  /\ checked_paths "dylib"
       (set_check_files ["lib/LLVMPolly.so"; "lib/libPolly.a"; "lib/libPollyISL.a"]
          Example.stage_self) !! "files"
     = Some ["lib/LLVMPolly.dylib"]
  /\ checked_paths "so"
       (set_check_files ["lib/LLVMPolly.so"; "lib/libPolly.a"; "lib/libPollyISL.a"]
          Example.stage_self) !! "files"
     = Some ["lib/LLVMPolly.so"; "lib/libPolly.a"; "lib/libPollyISL.a"]
  /\ last (trace (run_easyblock (Example.host_on "dylib" false 0)
                    (Example.easyblock "polly" "18.1.8")
                    (Example.easyconfig false None []) Example.world).2)
     = Some (EvSanityCheck ["lib/LLVMPolly.dylib"]
               ["lib/cmake/polly"; "include/polly"] [])
  /\ (forall shlib_ext files f,
        f ∈ adapt_shlib_ext shlib_ext files ->
        exists g, g ∈ files /\ Py.endswith g ".so" = true
                  /\ f = Py.replace g ".so" ("." +:+ shlib_ext)).
Proof.
  split; [reflexivity|]. split; [by vm_compute|]. split; [by vm_compute|].
  split; [by vm_compute|].
  intros shlib_ext files f. apply adapt_shlib_ext_spec.
Qed.

(** ** Reading the test summary *)

(** Two splits of one text at the same position are the same split. *)
Lemma app_eq_length (p q s t : string) :
  p +:+ s = q +:+ t -> String.length p = String.length q -> p = q /\ s = t.
Proof.
  revert q. induction p as [|x p IH]; intros [|y q] Heq Hlen; try discriminate.
  - done.
  - rewrite !app_cons in Heq. injection Heq as -> Heq. injection Hlen as Hlen.
    destruct (IH _ Heq Hlen) as [-> ->]. done.
Qed.

Lemma skip_spaces_split s :
  exists sp, s = sp +:+ Rgx.skip_spaces s /\ all Rgx.is_space sp = true
             /\ stops Rgx.is_space (Rgx.skip_spaces s).
Proof.
  induction s as [|c s (sp & Hs & Hall & Hstop)]; simpl.
  - by exists EmptyString.
  - destruct (Rgx.is_space c) eqn:Hc.
    + exists (String c sp). rewrite app_cons, <- Hs. simpl. by rewrite Hc.
    + by exists EmptyString.
Qed.

Lemma skip_spaces_app sp r :
  all Rgx.is_space sp = true -> stops Rgx.is_space r ->
  Rgx.skip_spaces (sp +:+ r) = r.
Proof.
  intros Hall Hstop. induction sp as [|c sp IH].
  - rewrite app_empty_l. destruct r as [|c r]; simpl in *; [done|]. by rewrite Hstop.
  - simpl in Hall. apply andb_true_iff in Hall as [Hc Hall].
    rewrite app_cons. simpl. rewrite Hc. auto.
Qed.

Lemma spaces1_spec s r :
  Rgx.spaces1 s = Some r <->
  exists sp, s = sp +:+ r /\ run1 Rgx.is_space sp /\ stops Rgx.is_space r.
Proof.
  split.
  - destruct s as [|c s]; simpl; [done|].
    destruct (Rgx.is_space c) eqn:Hc; [|done]. intros [= <-].
    destruct (skip_spaces_split s) as (sp & Hs & Hall & Hstop).
    exists (String c sp). rewrite app_cons, <- Hs.
    repeat split; [done | simpl; by rewrite Hc | done].
  - intros (sp & -> & [Hne Hall] & Hstop).
    destruct sp as [|c sp]; [done|]. simpl in Hall.
    apply andb_true_iff in Hall as [Hc Hall].
    rewrite app_cons. simpl. rewrite Hc. f_equal. by apply skip_spaces_app.
Qed.

Lemma literal_spec word s r : Rgx.literal word s = Some r <-> s = word +:+ r.
Proof.
  revert s. induction word as [|a word IH]; intros s; simpl.
  - rewrite app_empty_l. split; congruence.
  - destruct s as [|b s]; [split; discriminate|].
    rewrite app_cons. destruct (Ascii.eqb_spec a b) as [->|Hne].
    + rewrite IH. split; congruence.
    + split; [discriminate | congruence].
Qed.

Lemma take_digits_split s :
  exists rest, s = Rgx.take_digits s +:+ rest
               /\ all Py.is_digit (Rgx.take_digits s) = true
               /\ stops Py.is_digit rest.
Proof.
  induction s as [|c s (rest & Hs & Hall & Hstop)]; simpl.
  - by exists EmptyString.
  - destruct (Py.is_digit c) eqn:Hc.
    + exists rest. rewrite app_cons, <- Hs. simpl. by rewrite Hc.
    + by exists (String c s).
Qed.

Lemma take_digits_app d rest :
  all Py.is_digit d = true -> stops Py.is_digit rest ->
  Rgx.take_digits (d +:+ rest) = d.
Proof.
  intros Hall Hstop. induction d as [|c d IH].
  - rewrite app_empty_l. destruct rest as [|c r]; simpl in *; [done|]. by rewrite Hstop.
  - simpl in Hall. apply andb_true_iff in Hall as [Hc Hall].
    rewrite app_cons. simpl. rewrite Hc. f_equal. auto.
Qed.

Lemma digits1_spec s d :
  Rgx.digits1 s = Some d <->
  exists rest, s = d +:+ rest /\ run1 Py.is_digit d /\ stops Py.is_digit rest.
Proof.
  unfold Rgx.digits1. split.
  - destruct (take_digits_split s) as (rest & Hs & Hall & Hstop).
    destruct (Rgx.take_digits s) as [|c d'] eqn:Hd; [done|].
    intros [= <-]. exists rest. by repeat split.
  - intros (rest & -> & [Hne Hall] & Hstop).
    rewrite (take_digits_app _ _ Hall Hstop). by destruct d.
Qed.

Lemma digit_not_space c : Py.is_digit c = true -> Rgx.is_space c = false.
Proof.
  intros Hd. unfold Rgx.is_space. destruct (Ascii.eqb_spec c " ") as [->|]; [|done].
  by vm_compute in Hd.
Qed.

Lemma solid_stops word r : solid word -> stops Rgx.is_space (word +:+ r).
Proof. by destruct word. Qed.

(** The matcher reads the summary pattern, and nothing else. *)
Lemma match_summary_spec word s d :
  solid word ->
  Rgx.match_summary word s = Some d <-> summary word s d.
Proof.
  intros Hw. unfold Rgx.match_summary, summary. split.
  - intros H.
    apply bind_Some in H as (s1 & H1 & H). apply spaces1_spec in H1 as (sp1 & -> & R1 & _).
    apply bind_Some in H as (s2 & H2 & H). apply literal_spec in H2 as ->.
    apply bind_Some in H as (s3 & H3 & H). apply spaces1_spec in H3 as (sp2 & -> & R2 & _).
    apply bind_Some in H as (s4 & H4 & H). apply literal_spec in H4 as ->.
    apply bind_Some in H as (s5 & H5 & H). apply spaces1_spec in H5 as (sp3 & -> & R3 & _).
    apply digits1_spec in H as (rest & -> & Rd & Hstop).
    exists sp1, sp2, sp3, rest. split; [reflexivity | tauto].
  - intros (sp1 & sp2 & sp3 & rest & -> & R1 & R2 & R3 & Rd & Hstop).
    apply bind_Some. exists (word +:+ sp2 +:+ ":" +:+ sp3 +:+ d +:+ rest). split.
    { apply spaces1_spec. exists sp1. repeat split; [apply R1.. | by apply solid_stops]. }
    apply bind_Some. exists (sp2 +:+ ":" +:+ sp3 +:+ d +:+ rest). split.
    { by apply literal_spec. }
    apply bind_Some. exists (":" +:+ sp3 +:+ d +:+ rest). split.
    { apply spaces1_spec. exists sp2. repeat split; apply R2. }
    apply bind_Some. exists (sp3 +:+ d +:+ rest). split.
    { by apply literal_spec. }
    apply bind_Some. exists (d +:+ rest). split.
    { apply spaces1_spec. exists sp3. repeat split; [apply R3.. |].
      destruct Rd as [Hne Hall]. destruct d as [|c d]; [done|].
      simpl in Hall. apply andb_true_iff in Hall as [Hc _].
      rewrite app_cons. simpl. by apply digit_not_space. }
    apply digits1_spec. exists rest. auto.
Qed.

Lemma starts_line_cons bol c p :
  starts_line bol (String c p) <-> starts_line (Rgx.is_newline c) p.
Proof. unfold starts_line. simpl. by destruct (last_char p). Qed.

Lemma search_from_unfold word s bol :
  Rgx.search_from word s bol =
    match (if bol then Rgx.match_summary word s else None) with
    | Some d => Some d
    | None =>
        match s with
        | EmptyString => None
        | String c s' => Rgx.search_from word s' (Rgx.is_newline c)
        end
    end.
Proof. by destruct s. Qed.

(** The search returns the match at the first line start that has one. *)
Lemma search_from_spec word s bol :
  match Rgx.search_from word s bol with
  | Some d =>
      exists p r, s = p +:+ r /\ starts_line bol p
        /\ Rgx.match_summary word r = Some d
        /\ forall q t, s = q +:+ t -> starts_line bol q ->
                       (String.length q < String.length p)%nat ->
                       Rgx.match_summary word t = None
  | None =>
      forall q t, s = q +:+ t -> starts_line bol q ->
                  Rgx.match_summary word t = None
  end.
Proof.
  revert bol. induction s as [|c s IH]; intros bol; rewrite search_from_unfold.
  - destruct (if bol then _ else _) as [d|] eqn:Hhead.
    + destruct bol; [|done]. exists EmptyString, EmptyString.
      repeat split; [done.. |]. simpl. lia.
    + intros [|y q] t Heq Hq; [|done]. rewrite app_empty_l in Heq. subst t.
      unfold starts_line in Hq. simpl in Hq. by subst bol.
  - destruct (if bol then _ else _) as [d|] eqn:Hhead.
    + destruct bol; [|done]. exists EmptyString, (String c s).
      repeat split; [done.. |]. simpl. lia.
    + assert (Hempty : forall t, String c s = EmptyString +:+ t ->
                starts_line bol EmptyString -> Rgx.match_summary word t = None).
      { intros t Heq Hq. rewrite app_empty_l in Heq. subst t.
        unfold starts_line in Hq. simpl in Hq. by subst bol. }
      specialize (IH (Rgx.is_newline c)).
      destruct (Rgx.search_from word s (Rgx.is_newline c)) as [d|].
      * destruct IH as (p & r & -> & Hp & Hm & Hmin).
        exists (String c p), r. split; [done|]. split; [by apply starts_line_cons|].
        split; [done|]. intros [|y q] t Heq Hq Hlen; [by apply Hempty|].
        rewrite app_cons in Heq. injection Heq as <- Heq.
        apply (Hmin q t Heq); [by apply starts_line_cons in Hq | simpl in Hlen; lia].
      * intros [|y q] t Heq Hq; [by apply Hempty|].
        rewrite app_cons in Heq. injection Heq as <- Heq.
        apply (IH q t Heq). by apply starts_line_cons in Hq.
Qed.

Lemma search_first word out d :
  solid word ->
  Rgx.search word out = Some d <-> exists pre, first_line word out pre d.
Proof.
  intros Hw. unfold Rgx.search.
  pose proof (search_from_spec word out true) as Hspec.
  assert (Hfound : forall d0, Rgx.search_from word out true = Some d0 ->
            exists pre, first_line word out pre d0
              /\ forall q t, out = q +:+ t -> starts_line true q ->
                             (String.length q < String.length pre)%nat ->
                             Rgx.match_summary word t = None).
  { intros d0 Hs. rewrite Hs in Hspec. destruct Hspec as (p & r & -> & Hp & Hm & Hmin).
    exists p. split; [|exact Hmin]. split.
    - split; [exact Hp|]. exists r. split; [done|]. by apply match_summary_spec.
    - intros pre' d' [Hl (s' & Heq & Hsum)].
      destruct (decide (String.length pre' < String.length p)%nat) as [Hlt|]; [|lia].
      apply match_summary_spec in Hsum; [|done].
      rewrite (Hmin pre' s' Heq Hl Hlt) in Hsum. discriminate. }
  split.
  - intros Hs. destruct (Hfound d Hs) as (pre & Hfirst & _). by exists pre.
  - intros (pre & [Hl (s & Heq & Hsum)] & Hfst).
    apply match_summary_spec in Hsum; [|done].
    destruct (Rgx.search_from word out true) as [d0|] eqn:Hs.
    + destruct (Hfound d0 eq_refl) as (p0 & [[Hl0 (s0 & Heq0 & Hsum0)] Hfst0] & _).
      apply match_summary_spec in Hsum0; [|done].
      assert (String.length pre = String.length p0) as Hlen.
      { apply Nat.le_antisymm.
        - apply (Hfst p0 d0). split; [done|]. exists s0. split; [done|].
          by apply match_summary_spec.
        - apply (Hfst0 pre d). split; [done|]. exists s. split; [done|].
          by apply match_summary_spec. }
      rewrite Heq0 in Heq. symmetry in Heq.
      destruct (app_eq_length _ _ _ _ Heq Hlen) as [-> ->]. congruence.
    + rewrite (Hspec pre s Heq Hl) in Hsum. discriminate.
Qed.

Lemma search_none word out :
  solid word -> Rgx.search word out = None <-> no_line word out.
Proof.
  intros Hw. unfold Rgx.search.
  pose proof (search_from_spec word out true) as Hspec. split.
  - intros Hs pre d [Hl (s & Heq & Hsum)]. rewrite Hs in Hspec.
    apply match_summary_spec in Hsum; [|done].
    rewrite (Hspec pre s Heq Hl) in Hsum. discriminate.
  - intros Hno. destruct (Rgx.search_from word out true) as [d|]; [|done].
    destruct Hspec as (p & r & Heq & Hp & Hm & _). exfalso.
    apply (Hno p d). split; [done|]. exists r. split; [done|].
    by apply match_summary_spec.
Qed.

Lemma solid_Failed : solid "Failed".
Proof. reflexivity. Qed.

Lemma solid_Passed : solid "Passed".
Proof. reflexivity. Qed.

(** C5, amended. A summary line starts a line with one space or more (the
    leading blanks are not optional, and only spaces count), then the word,
    spaces, a colon, spaces and a number. If the output has such a line for
    [Failed], the number of failed tests is the number of the first of
    them; if it has none but has one for [Passed], it is 0; if it has
    neither, the fatal could-not-extract error is raised. The fatal
    too-many-failures error, which reports the number, is raised exactly
    when the number exceeds [test_suite_max_failed], 0 by default. *)
Theorem test_summary_interpreted (out : string) (max_failed : Z) :
  (forall pre d, first_line "Failed" out pre d ->
     num_failed_of out = Ok (Py.int d))
  /\ (no_line "Failed" out -> (exists pre d, line_at "Passed" out pre d) ->
        num_failed_of out = Ok 0)
  /\ (no_line "Failed" out -> no_line "Passed" out ->
        num_failed_of out = Raise (EasyBuildError msg_no_results))
  /\ (forall n, num_failed_of out = Ok n ->
        (n > max_failed -> check_test_output out max_failed
                           = Raise (EasyBuildError (msg_too_many n)))
        /\ (n <= max_failed -> check_test_output out max_failed = Ok tt))
  /\ (forall e, num_failed_of out = Raise e ->
        check_test_output out max_failed = Raise e)
  /\ test_suite_max_failed extra_options = 0.
Proof.
  split; [| split; [| split; [| split; [| split; [| reflexivity]]]]].
  - intros pre d Hfirst. unfold num_failed_of.
    assert (Rgx.search "Failed" out = Some d) as ->; [|done].
    apply (search_first _ _ _ solid_Failed). by exists pre.
  - intros Hno (pre & d & Hline). unfold num_failed_of.
    apply (search_none _ _ solid_Failed) in Hno. rewrite Hno.
    destruct (Rgx.search "Passed" out) eqn:Hp; [done|].
    apply (search_none _ _ solid_Passed) in Hp. by destruct (Hp pre d).
  - intros Hf Hp. unfold num_failed_of.
    apply (search_none _ _ solid_Failed) in Hf.
    apply (search_none _ _ solid_Passed) in Hp. by rewrite Hf, Hp.
  - intros n Hn. unfold check_test_output. rewrite Hn. simpl. split; intros Hcmp.
    + assert ((n >? max_failed) = true) as ->; [lia | done].
    + assert ((n >? max_failed) = false) as ->; [lia | done].
  - intros e He. unfold check_test_output. by rewrite He.
Qed.

Lemma test_summary_interpreted_witness :
  num_failed_of ("Testing Time: 7.5s" +:+ String "010" "   Failed   : 3") = Ok 3
  /\ check_test_output ("Testing Time: 7.5s" +:+ String "010" "   Failed   : 3") 0
     = Raise (EasyBuildError (msg_too_many 3)).
Proof.
  pose proof (test_summary_interpreted
                ("Testing Time: 7.5s" +:+ String "010" "   Failed   : 3") 0)
    as (Hfailed & _ & _ & Hmax & _ & _).
  assert (num_failed_of ("Testing Time: 7.5s" +:+ String "010" "   Failed   : 3")
          = Ok (Py.int "3")) as Hnum.
  { destruct (proj1 (search_first "Failed"
                        ("Testing Time: 7.5s" +:+ String "010" "   Failed   : 3")
                        "3" solid_Failed) eq_refl) as [pre Hpre].
    exact (Hfailed pre "3" Hpre). }
  split; [exact Hnum|].
  apply (Hmax 3 Hnum). reflexivity.
Defined.

(** C5 as stated fails: with no blank before the word the line is not read
    as a summary, and the run ends in the could-not-extract error although
    a line [Failed : 3] is there and the threshold would allow 3 failures. *)
Lemma unindented_summary_not_read :
  claimed_line_at "Failed" "Failed : 3" EmptyString "3"
  /\ num_failed_of "Failed : 3" = Raise (EasyBuildError msg_no_results)
  /\ check_test_output "Failed : 3" 5 = Raise (EasyBuildError msg_no_results).
Proof.
  split; [| split; reflexivity].
  split; [reflexivity|]. exists "Failed : 3". split; [reflexivity|].
  exists EmptyString, " ", " ", EmptyString.
  repeat split; try reflexivity; discriminate.
Qed.

(** ** Reasoning about steps *)

Lemma bind_run {A B} (m : M A) (f : A -> M B) (st : State) :
  (m ≫= f) st = match m st with
                 | (Ok a, st') => f a st'
                 | (Raise e, st') => (Raise e, st')
                 end.
Proof. reflexivity. Qed.

Section Rules.
Context (R : relation State) `{!PreOrder R}.

Lemma frames_bind {A B} (m : M A) (f : A -> M B) :
  frames R m -> (forall a, frames R (f a)) -> frames R (m ≫= f).
Proof.
  intros Hm Hf st. rewrite bind_run. specialize (Hm st).
  destruct (m st) as [[a|e] st1]; simpl in *; [|done].
  etrans; [exact Hm | apply Hf].
Qed.

Lemma frames_read {A} (m : M A) : (forall st, (m st).2 = st) -> frames R m.
Proof. intros Hm st. by rewrite Hm. Qed.

Lemma frames_when (b : bool) (m : M unit) : frames R m -> frames R (when b m).
Proof. intros Hm. destruct b; [done|]. by apply frames_read. Qed.

Lemma frames_for_each {A} (l : list A) (body : A -> M unit) :
  (forall x, frames R (body x)) -> frames R (for_each l body).
Proof.
  intros Hb. induction l as [|x l IH]; simpl.
  - by apply frames_read.
  - apply frames_bind; auto.
Qed.

Lemma wp_frames {A} (m : M A) (st : State) (Q : A -> State -> Prop) :
  frames R m -> (forall a st', R st st' -> Q a st') -> wp m st Q.
Proof.
  intros Hm HQ. unfold wp. specialize (Hm st).
  destruct (m st) as [[a|e] st']; [|done]. by apply HQ.
Qed.
End Rules.

Lemma wp_bind {A B} (m : M A) (f : A -> M B) (st : State) (Q : B -> State -> Prop) :
  wp m st (fun a st' => wp (f a) st' Q) -> wp (m ≫= f) st Q.
Proof. unfold wp. rewrite bind_run. by destruct (m st) as [[a|e] st']. Qed.

Lemma wp_elim {A} (m : M A) (st st' : State) (a : A) (Q : A -> State -> Prop) :
  wp m st Q -> m st = (Ok a, st') -> Q a st'.
Proof. unfold wp. intros H E. by rewrite E in H. Qed.

Lemma wp_run {A} (m : M A) (st : State) (Q : A -> State -> Prop) :
  (forall a st', m st = (Ok a, st') -> Q a st') -> wp m st Q.
Proof. unfold wp. intros H. destruct (m st) as [[a|e] st']; auto. Qed.

Lemma wp_raise {A} (e : exn) (st : State) (Q : A -> State -> Prop) : wp (raise e) st Q.
Proof. done. Qed.

Lemma wp_get_self (st : State) (Q : Self -> State -> Prop) :
  Q (self st) st -> wp get_self st Q.
Proof. done. Qed.

Lemma wp_get_world (st : State) (Q : World -> State -> Prop) :
  Q (world st) st -> wp get_world st Q.
Proof. done. Qed.

Lemma wp_getenv (k : string) (st : State) (Q : option string -> State -> Prop) :
  Q (environ (world st) !! k) st -> wp (getenv k) st Q.
Proof. done. Qed.

Lemma wp_need_str what (v : option string) (st : State) (Q : string -> State -> Prop) :
  (forall s, v = Some s -> Q s st) -> wp (need_str what v) st Q.
Proof. destruct v; [|done]. intros H. by apply H. Qed.

(** *** The runs of the framework calls *)

Lemma ret_bind {A B} (a : A) (f : A -> M B) (st : State) : (mret a ≫= f) st = f a st.
Proof. reflexivity. Qed.

Lemma when_run (b : bool) (m : M unit) st : when b m st = if b then m st else (Ok tt, st).
Proof. by destruct b. Qed.

Lemma setvar_run k v st :
  setvar k v st
  = (Ok tt, mkState (self st) (mkWorld (<[k := v]> (environ (world st)))
                                 (trace (world st)))).
Proof. reflexivity. Qed.

Lemma set_environ_run e st :
  set_environ e st = (Ok tt, mkState (self st) (mkWorld e (trace (world st)))).
Proof. reflexivity. Qed.

Lemma emit_run ev st :
  emit ev st
  = (Ok tt, mkState (self st) (mkWorld (environ (world st)) (trace (world st) ++ [ev]))).
Proof. reflexivity. Qed.

Lemma mkdir_run h dir st :
  mkdir h dir st
  = (if mkdir_ok h (world st) dir then Ok tt else Raise (FrameworkError "mkdir"),
     mkState (self st)
       (mkWorld (environ (world st)) (trace (world st) ++ [EvMkdir dir]))).
Proof.
  unfold mkdir. cbv [mbind M_bind get_world emit]. cbn [self world environ trace].
  by destruct (mkdir_ok h (world st) dir).
Qed.

Lemma change_dir_run h dir st :
  change_dir h dir st
  = (if change_dir_ok h (world st) dir then Ok tt
     else Raise (FrameworkError "change_dir"),
     mkState (self st)
       (mkWorld (environ (world st)) (trace (world st) ++ [EvChangeDir dir]))).
Proof.
  unfold change_dir. cbv [mbind M_bind get_world emit]. cbn [self world environ trace].
  by destruct (change_dir_ok h (world st) dir).
Qed.

Lemma symlink_run h src dst st :
  symlink h src dst st
  = (if symlink_ok h (world st) src dst then Ok tt
     else Raise (FrameworkError "symlink"),
     mkState (self st)
       (mkWorld (environ (world st)) (trace (world st) ++ [EvSymlink src dst]))).
Proof.
  unfold symlink. cbv [mbind M_bind get_world emit]. cbn [self world environ trace].
  by destruct (symlink_ok h (world st) src dst).
Qed.

Lemma run_cmd_log_all_run h cmd st :
  run_cmd_log_all h cmd st
  = (if ((run_cmd h (world st) cmd).2 =? 0)%Z then Ok (run_cmd h (world st) cmd).1
     else Raise (FrameworkError "run_cmd"),
     mkState (self st)
       (mkWorld (environ (world st)) (trace (world st) ++ [EvRunCmd cmd]))).
Proof.
  unfold run_cmd_log_all. cbv [mbind M_bind get_world emit].
  cbn [self world environ trace].
  destruct (run_cmd h (world st) cmd) as [out ec]. cbn [fst snd].
  by destruct (ec =? 0)%Z.
Qed.

Lemma wp_ret {A} (a : A) (st : State) (Q : A -> State -> Prop) : Q a st -> wp (mret a) st Q.
Proof. done. Qed.

Lemma wp_weaken {A} (m : M A) (st : State) (P Q : A -> State -> Prop) :
  (forall a st', P a st' -> Q a st') -> wp m st P -> wp m st Q.
Proof. unfold wp. intros HPQ. destruct (m st) as [[a|e] st']; auto. Qed.

Lemma wp_never {A} (m : M A) (st : State) :
  wp m st (fun _ _ => False) -> exists e, (m st).1 = Raise e.
Proof. unfold wp. destruct (m st) as [[a|e] st']; [done|]. by exists e. Qed.

(** One step whose run is known exactly. *)
Ltac wp_exact run_lemma :=
  apply wp_bind, wp_run;
  let Hrun := fresh "Hrun" in
  intros ? ? Hrun; rewrite run_lemma in Hrun; injection Hrun as _ <-.

(** The last step of a block, whose run is known exactly. *)
Ltac wp_last run_lemma :=
  apply wp_run;
  let Hrun := fresh "Hrun" in
  intros ? ? Hrun; rewrite run_lemma in Hrun; injection Hrun as _ <-.

(** *** What no step changes, and what steps only extend *)

Global Instance stable_preorder : PreOrder stable.
Proof.
  split.
  - intros st. by constructor.
  - intros st1 st2 st3 [] []. constructor; try congruence; by etrans.
Qed.

Global Instance quiet_preorder : PreOrder quiet.
Proof.
  split.
  - intros st. by constructor.
  - intros st1 st2 st3 [] []. constructor; try congruence; by etrans.
Qed.

Lemma stable_static {T} (f : EasyConfig -> T) st st' :
  (forall c, f c = f (static_cfg c)) ->
  stable st st' -> f (cfg (self st')) = f (cfg (self st)).
Proof. intros Hf Hs. rewrite (Hf (cfg (self st'))), (Hf (cfg (self st))). by destruct Hs as [_ -> _ _ _ _ _]. Qed.

(** The steps, unfolded to reads, raises and the four writes. *)
Create HintDb steps.
#[global] Hint Unfold mkdir change_dir symlink run_cmd_log_all run_cmd_no_check
  print_warning require_root need_str update_configopts add_check_files
  add_check_dirs add_check_commands assign_test_targets lift : steps.

Ltac frames_leaf solver :=
  lazymatch goal with
  | |- frames _ ?m =>
      lazymatch m with
      | mret _ => idtac
      | raise _ => idtac
      | get_self => idtac
      | get_world => idtac
      | getenv _ => idtac
      | emit _ => idtac
      | modify _ => idtac
      | setvar _ _ => idtac
      | set_environ _ => idtac
      end
  end;
  let st := fresh "st" in
  intros st;
  cbv [mret M_ret raise get_self get_world getenv emit modify setvar set_environ];
  cbn [fst snd self world environ trace];
  solver.

Ltac frames_go solver :=
  lazymatch goal with
  | |- frames _ (match configure_func _ with _ => _ end) => solve [auto with steps]
  | |- frames _ (mbind _ _) =>
      apply frames_bind; [tc_solve | frames_go solver | intros ?; frames_go solver]
  | |- frames _ (when _ _) => apply frames_when; [tc_solve | frames_go solver]
  | |- frames _ (for_each _ _) =>
      apply frames_for_each; [tc_solve | intros ?; frames_go solver]
  | |- frames _ (if ?b then _ else _) => destruct b; frames_go solver
  | |- frames _ (match ?x with _ => _ end) => destruct x; frames_go solver
  | |- _ => first [ solve [auto with steps] | frames_leaf solver ]
  end.

Ltac frames_with solver := autounfold with steps; cbv zeta; frames_go solver.

Ltac stable_solver :=
  constructor; cbn; repeat case_match; cbn;
  first [ reflexivity | by apply prefix_app_r ].

Ltac quiet_solver :=
  constructor; [stable_solver | cbn; repeat case_match; reflexivity ..].

(** Every profile leaves the static part alone and only extends the
    configure options and the trace. *)
Lemma profiles_stable h :
  frames stable (_clang_config h) /\ frames stable (_flang_config h)
  /\ frames stable (_polly_config h) /\ frames stable (_mlir_config h)
  /\ frames stable (_runtimes_config h) /\ frames stable (_lld_config h)
  /\ frames stable (_lldb_config h) /\ frames stable (_compiler_rt_config h).
Proof.
  repeat apply conj.
  - unfold _clang_config. frames_with stable_solver.
  - unfold _flang_config. frames_with stable_solver.
  - unfold _polly_config. frames_with stable_solver.
  - unfold _mlir_config. frames_with stable_solver.
  - unfold _runtimes_config. frames_with stable_solver.
  - unfold _lld_config. frames_with stable_solver.
  - unfold _lldb_config. frames_with stable_solver.
  - unfold _compiler_rt_config. frames_with stable_solver.
Qed.

Lemma dispatch_stable h project :
  frames stable (match configure_func project with
                 | Some func => func h
                 | None => mret tt
                 end).
Proof.
  destruct (profiles_stable h) as (? & ? & ? & ? & ? & ? & ? & ?).
  unfold configure_func.
  repeat (destruct (String.eqb _ _); [assumption|]).
  by apply frames_read; [tc_solve|].
Qed.

Lemma sibling_cmake_dirs_quiet h : frames quiet (sibling_cmake_dirs h).
Proof. unfold sibling_cmake_dirs. frames_with quiet_solver. Qed.

Lemma nvptx_offload_config_quiet h : frames quiet (nvptx_offload_config h).
Proof. unfold nvptx_offload_config. frames_with quiet_solver. Qed.

Lemma amdgpu_offload_config_quiet h : frames quiet (amdgpu_offload_config h).
Proof. unfold amdgpu_offload_config. frames_with quiet_solver. Qed.

Lemma frames_quiet_stable {A} (m : M A) : frames quiet m -> frames stable m.
Proof. intros Hm st. apply Hm. Qed.

#[global] Hint Resolve sibling_cmake_dirs_quiet nvptx_offload_config_quiet
  amdgpu_offload_config_quiet dispatch_stable : steps.
#[global] Hint Resolve frames_quiet_stable | 10 : steps.

(** One step of a chain that is only known to keep [R]; [Hrel] relates the
    state the chain started from to the current one. *)
Ltac wp_skip R solver :=
  apply wp_bind; apply (wp_frames R);
  [ frames_with solver
  | let Hnew := fresh "Hnew" in
    intros ? ? Hnew;
    first [ match goal with
            | Hold : R ?a ?b |- _ =>
                match type of Hnew with
                | R b ?c =>
                    let H := fresh in
                    pose proof (transitivity Hold Hnew : R a c) as H;
                    clear Hold Hnew; rename H into Hrel
                end
            end
          | rename Hnew into Hrel ] ].

Ltac wp_read :=
  apply wp_bind;
  lazymatch goal with
  | |- wp get_self _ _ => apply wp_get_self
  | |- wp get_world _ _ => apply wp_get_world
  | |- wp (getenv _) _ _ => apply wp_getenv
  end;
  cbv beta zeta.

Lemma update_configopts_run v st :
  update_configopts v st
  = (Ok tt, mkState (set_cfg (cfg_update_configopts v (cfg (self st))) (self st))
              (world st)).
Proof. reflexivity. Qed.

Lemma prefix_elem_of {A} (l k : list A) x : l `prefix_of` k -> x ∈ l -> x ∈ k.
Proof. intros [k' ->] Hx. apply elem_of_app. by left. Qed.

Lemma stable_build_targets st st' :
  stable st st' -> build_targets (cfg (self st')) = build_targets (cfg (self st)).
Proof. by apply (stable_static build_targets). Qed.

Lemma configure_step_injects_targets h st :
  wp (configure_step h) st (fun _ st' =>
    targets_to_build_flag (default [] (build_targets (cfg (self st))))
      ∈ configopts (cfg (self st'))).
Proof.
  unfold configure_step. destruct (negb _); [apply wp_raise|]. cbv zeta.
  wp_skip stable stable_solver. wp_read.
  do 6 wp_skip stable stable_solver.
  wp_read. rewrite (stable_build_targets _ _ Hrel).
  do 5 wp_skip stable stable_solver.
  apply wp_bind, wp_run. intros ? st1 Hrun.
  rewrite update_configopts_run in Hrun. injection Hrun as _ <-.
  apply (wp_frames stable); [frames_with stable_solver|].
  intros _ st2 Hst2. apply (prefix_elem_of _ _ _ (stable_configopts _ _ Hst2)).
  cbn. apply elem_of_app. right. by apply list_elem_of_singleton.
Qed.

(** ** The targets handed to CMake *)

(** C7, amended. The targets [__init__] leaves in the easyconfig are handed
    to CMake as they are, in their order, by [configure_step]. When they
    come from the default selection they hold no duplicate: the CPU default
    comes first, then [NVPTX] if CUDA is a dependency, then [AMDGPU] if
    ROCR-Runtime is one, so that with both the list is the CPU default,
    [NVPTX], [AMDGPU]. An explicit list is kept as given; nothing removes a
    duplicate from it. *)
Theorem target_selection_output (h : Host) (b : EasyBlock) (c : EasyConfig) (s : Self) :
  __init__ h b c = Ok s ->
  exists targets,
    build_targets (cfg s) = Some targets
    /\ (forall explicit, build_targets c = Some explicit -> targets = explicit)
    /\ (build_targets c = None ->
          NoDup targets
          /\ exists t,
               dict_get DEFAULT_TARGETS_MAP (get_cpu_architecture h) = Some [t]
               /\ targets = [t] ++ (if has_cuda b c then ["NVPTX"] else [])
                                ++ (if has_rocr c then ["AMDGPU"] else [])
               /\ (has_cuda b c = true -> has_rocr c = true ->
                     targets = [t; "NVPTX"; "AMDGPU"]))
    /\ (forall w st', configure_step h (mkState s w) = (Ok tt, st') ->
          targets_to_build_flag targets ∈ configopts (cfg (self st'))).
Proof.
  intros Hinit.
  destruct (init_build_targets _ _ _ _ Hinit) as (targets & Ht & _ & _ & _ & _ & _ & _ & _ & Hsel).
  exists targets. split; [exact Ht|]. split; [| split].
  - intros explicit He. by rewrite He in Hsel.
  - intros Hnone. rewrite Hnone in Hsel. destruct Hsel as (t & Hget & ->).
    destruct (default_selection_valid _ _ (has_cuda b c) (has_rocr c) Hget)
      as (_ & _ & Hnd & _).
    split; [exact Hnd|]. exists t. repeat split; [done|]. by intros -> ->.
  - intros w st' Hrun.
    pose proof (wp_elim _ _ _ _ _ (configure_step_injects_targets h (mkState s w)) Hrun)
      as Hflag.
    cbn in Hflag. by rewrite Ht in Hflag.
Qed.

Lemma target_selection_output_witness :
  exists s, __init__ (Example.host false 0) (Example.easyblock "Clang" "18.1.8")
              (Example.easyconfig false None ["CUDA"; "ROCR-Runtime"]) = Ok s
            /\ build_targets (cfg s) = Some ["X86"; "NVPTX"; "AMDGPU"].
Proof.
  destruct (__init__ (Example.host false 0) (Example.easyblock "Clang" "18.1.8")
              (Example.easyconfig false None ["CUDA"; "ROCR-Runtime"]))
    as [s|e] eqn:Hinit; [| by vm_compute in Hinit].
  destruct (target_selection_output _ _ _ _ Hinit) as (targets & Ht & _ & Hdef & _).
  destruct (Hdef eq_refl) as (_ & t & Hget & _ & Hboth).
  exists s. split; [reflexivity|].
  rewrite Ht, (Hboth eq_refl eq_refl). by injection Hget as <-.
Defined.

(** C7 as stated fails: an explicit list that names a target twice passes
    [__init__] and reaches CMake with the duplicate. *)
Lemma explicit_duplicates_kept :
  (fun st => (build_targets (cfg (self st)), configopts (cfg (self st))))
    <$> Example.configured (Example.host false 0) (Example.easyblock "polly" "18.1.8")
          (Example.easyconfig false (Some ["X86"; "X86"]) []) Example.world
  = Some (Some ["X86"; "X86"],
          ["-DPython3_FIND_VIRTUALENV=STANDARD";
           "-DLLVM_DIR=/sw/LLVM/lib/cmake/llvm";
           "-DLLD_DIR=/sw/lld/lib/cmake/lld";
           "-DLLVM_LINK_LLVM_DYLIB=ON";
           "-DLLVM_ENABLE_ASSERTIONS=ON";
           "-DCMAKE_EXE_LINKER_FLAGS=-fuse-ld=lld";
           "-DCMAKE_AR=/sw/LLVM/bin/llvm-ar";
           "-DCMAKE_NM=/sw/LLVM/bin/llvm-nm";
           "-DCMAKE_RANLIB=/sw/LLVM/bin/llvm-ranlib";
           "-DLLVM_TARGETS_TO_BUILD=" +:+ Py.dquote +:+ "X86;X86" +:+ Py.dquote])
  /\ (NoDup ["X86"; "X86"] -> False).
Proof.
  split; [by vm_compute|].
  intros Hnd. apply NoDup_cons in Hnd as [Hnin _]. apply Hnin. by left.
Qed.

(** ** The Polly profile and the single stage *)

(** The Polly profile always returns, and this is all it does to the
    expectations and the test targets. *)
Lemma polly_config_run h st :
  exists st',
    _polly_config h st = (Ok tt, st')
    /\ test_targets (self st') = ["check-polly"]
    /\ check_files (self st') = check_files (self st) ++ polly_files
    /\ check_dirs (self st') = check_dirs (self st) ++ polly_dirs
    /\ check_commands (self st') = check_commands (self st)
    /\ llvm_obj_dir_stage1 (self st') = llvm_obj_dir_stage1 (self st)
    /\ static_cfg (cfg (self st')) = static_cfg (cfg (self st)).
Proof.
  unfold _polly_config. autounfold with steps.
  cbv [mbind M_bind modify get_self when mret M_ret]. cbn.
  destruct (in_build_targets _ _); eexists; (split; [reflexivity|]); by cbn.
Qed.

Lemma stable_bootstrap st st' :
  stable st st' -> bootstrap (cfg (self st')) = bootstrap (cfg (self st)).
Proof. by apply (stable_static bootstrap). Qed.

Lemma modify_run f st : modify f st = (Ok tt, mkState (f (self st)) (world st)).
Proof. reflexivity. Qed.

Lemma configure_step_polly h st :
  project_name (self st) = "polly" -> bootstrap (cfg (self st)) = false ->
  wp (configure_step h) st (fun _ st' =>
    test_targets (self st') = ["check-polly"]
    /\ check_files (self st') = check_files (self st) ++ polly_files
    /\ check_dirs (self st') = check_dirs (self st) ++ polly_dirs
    /\ check_commands (self st') = check_commands (self st)
    /\ llvm_obj_dir_stage1 (self st')
       = Some (Py.path_join (builddir (eb (self st))) "llvm.obj.1")
    /\ bootstrap (cfg (self st')) = false).
Proof.
  intros Hproject Hboot.
  unfold configure_step. destruct (negb _); [apply wp_raise|]. cbv zeta.
  wp_skip quiet quiet_solver. wp_read.
  rewrite (stable_project _ _ (quiet_stable _ _ Hrel)), Hproject.
  rewrite (stable_eb _ _ (quiet_stable _ _ Hrel)).
  change (match configure_func "polly" with
          | Some func => func h
          | None => mret tt
          end) with (_polly_config h).
  do 2 wp_skip quiet quiet_solver.
  apply wp_bind, wp_run. intros ? st1 Hrun. rewrite modify_run in Hrun.
  injection Hrun as _ <-.
  rewrite (stable_bootstrap _ _ (quiet_stable _ _ Hrel)), Hboot.
  destruct Hrel as [Hst0 _ _ _ Hfiles Hdirs Hcommands _].
  apply stable_bootstrap in Hst0.
  do 2 wp_skip quiet quiet_solver.
  destruct Hrel as [Hst Hdir1 _ _ Hfiles1 Hdirs1 Hcommands1 _].
  cbn [self llvm_obj_dir_stage1 set_obj_dirs check_files check_dirs check_commands]
    in Hdir1, Hfiles1, Hdirs1, Hcommands1.
  apply stable_bootstrap in Hst. cbn [self set_obj_dirs cfg] in Hst.
  apply wp_bind, wp_run. intros ? st2 Hrun.
  match type of Hrun with
  | _polly_config h ?st0 = _ =>
      destruct (polly_config_run h st0)
        as (st2' & Hrun' & Ht2 & Hf2 & Hd2 & Hc2 & Ho2 & Hs2)
  end.
  rewrite Hrun' in Hrun. injection Hrun as _ <-.
  apply (f_equal bootstrap) in Hs2. change (bootstrap (static_cfg ?c)) with (bootstrap c) in Hs2.
  apply (wp_frames quiet); [frames_with quiet_solver|].
  intros _ st3 [Hst3 Hdir3 _ _ Hfiles3 Hdirs3 Hcommands3 Htests3].
  apply stable_bootstrap in Hst3.
  repeat split; congruence.
Qed.

(** Without bootstrap, [build_step] is the stage-1 build and nothing more:
    it enters the stage-1 directory and runs the generic build; it makes no
    directory and runs no command of its own. *)
Lemma build_step_single h st d :
  bootstrap (cfg (self st)) = false ->
  llvm_obj_dir_stage1 (self st) = Some d ->
  exists evs,
    trace (world (build_step h st).2) = trace (world st) ++ evs
    /\ evs `prefix_of` [EvChangeDir d; EvBuild]
    /\ ((build_step h st).1 = Ok tt -> evs = [EvChangeDir d; EvBuild])
    /\ self (build_step h st).2 = self st
    /\ environ (world (build_step h st).2) = environ (world st).
Proof.
  intros Hboot Hdir. unfold build_step. autounfold with steps.
  cbv [mbind M_bind get_self get_world emit when mret M_ret raise].
  cbn [self world environ trace]. rewrite Hdir, Hboot.
  destruct (change_dir_ok _ _ _); cbn [self world environ trace fst snd].
  - destruct (super_build_ok _ _); cbn [self world environ trace fst snd];
      exists [EvChangeDir d; EvBuild]; rewrite <- app_assoc; by repeat split.
  - exists [EvChangeDir d]. repeat split; [by exists [EvBuild] | done].
Qed.

(** C8. For the project [polly] without bootstrap: the profile chosen is
    the Polly one, which always returns; when [configure_step] returns, the
    expected files are exactly [lib/LLVMPolly.so], [lib/libPolly.a] and
    [lib/libPollyISL.a], the expected directories exactly [lib/cmake/polly]
    and [include/polly], no command is expected, and the test targets are
    [check-polly] alone; and [build_step] then enters the stage-1 directory
    and runs the one generic build, with no stage 2 or 3. *)
Theorem polly_profile_single_stage (h : Host) (b : EasyBlock) (c : EasyConfig) (s : Self) :
  __init__ h b c = Ok s -> project_name s = "polly" -> bootstrap c = false ->
  configure_func (project_name s) = Some _polly_config
  /\ (forall st, exists st', _polly_config h st = (Ok tt, st'))
  /\ forall w st', configure_step h (mkState s w) = (Ok tt, st') ->
       check_files (self st') = polly_files
       /\ check_dirs (self st') = polly_dirs
       /\ check_commands (self st') = []
       /\ test_targets (self st') = ["check-polly"]
       /\ exists evs,
            trace (world (build_step h st').2) = trace (world st') ++ evs
            /\ evs `prefix_of`
                 [EvChangeDir (Py.path_join (builddir b) "llvm.obj.1"); EvBuild]
            /\ ((build_step h st').1 = Ok tt ->
                  evs = [EvChangeDir (Py.path_join (builddir b) "llvm.obj.1"); EvBuild]).
Proof.
  intros Hinit Hproject Hboot.
  destruct (init_build_targets _ _ _ _ Hinit)
    as (targets & _ & Heb & Hfiles & Hdirs & Hcommands & _ & _ & Hb & _).
  split; [by rewrite Hproject|]. split.
  { intros st. destruct (polly_config_run h st) as (st' & Hrun & _). eauto. }
  intros w st' Hrun.
  assert (bootstrap (cfg (self (mkState s w))) = false) as Hboot' by (cbn; congruence).
  pose proof (wp_elim _ _ _ _ _
                (configure_step_polly h (mkState s w) Hproject Hboot') Hrun)
    as (Ht & Hf & Hd & Hc & Hdir & Hb').
  cbn [self] in Hf, Hd, Hc, Hdir. rewrite Hfiles in Hf. rewrite Hdirs in Hd.
  rewrite Hcommands in Hc. rewrite Heb in Hdir.
  repeat split; try done.
  destruct (build_step_single h st' _ Hb' Hdir) as (evs & Htrace & Hpre & Hok & _).
  exists evs. by repeat split.
Qed.

Lemma polly_profile_single_stage_witness :
  exists st,
    Example.configured (Example.host false 0) (Example.easyblock "polly" "18.1.8")
      (Example.easyconfig false (Some ["X86"]) []) Example.world = Some st
    /\ check_files (self st) = polly_files
    /\ check_dirs (self st) = polly_dirs
    /\ test_targets (self st) = ["check-polly"]
    /\ build_step (Example.host false 0) st
       = (Ok tt, mkState (self st)
                   (mkWorld (environ (world st))
                      (trace (world st) ++ [EvChangeDir "/build/llvm.obj.1"; EvBuild]))).
Proof.
  unfold Example.configured.
  destruct (__init__ (Example.host false 0) (Example.easyblock "polly" "18.1.8")
              (Example.easyconfig false (Some ["X86"]) []))
    as [s|e] eqn:Hinit; [| by vm_compute in Hinit].
  assert (project_name s = "polly") as Hproject.
  { vm_compute in Hinit. by injection Hinit as <-. }
  destruct (configure_step (Example.host false 0) (mkState s Example.world))
    as [[[]|e] st] eqn:Hrun.
  - destruct (polly_profile_single_stage _ _ _ _ Hinit Hproject eq_refl)
      as (_ & _ & Hconf).
    destruct (Hconf _ _ Hrun) as (Hf & Hd & _ & Ht & _).
    exists st. repeat split; [done..|].
    vm_compute in Hinit. injection Hinit as <-.
    vm_compute in Hrun. injection Hrun as <-. by vm_compute.
  - vm_compute in Hinit. injection Hinit as <-. by vm_compute in Hrun.
Defined.

(** ** CUDA compute capabilities *)

Lemma ltb_leb (x m : string) : String.ltb x m = false -> String.leb m x = true.
Proof.
  unfold String.ltb, String.leb. rewrite (String.compare_antisym x m).
  by destruct (String.compare m x).
Qed.

Lemma ltb_leb_strict (x m : string) : String.ltb x m = true -> String.leb x m = true.
Proof. unfold String.ltb, String.leb. by destruct (String.compare x m). Qed.

Lemma min_from_spec m l :
  Py.min_from m l ∈ m :: l
  /\ forall x, x ∈ m :: l -> (Py.min_from m l ≤ x)%string.
Proof.
  revert m. induction l as [|y l IH]; intros m; simpl.
  - split; [by left|]. intros x Hx. apply list_elem_of_singleton in Hx as ->. done.
  - destruct (IH (if String.ltb y m then y else m)) as [Hin Hle]. split.
    + destruct (String.ltb y m); apply elem_of_cons in Hin as [->|Hin];
        [ right; by left | by do 2 right | by left | by do 2 right ].
    + intros x Hx.
      assert (Hmy : ((if String.ltb y m then y else m) ≤ m)%string
                    /\ ((if String.ltb y m then y else m) ≤ y)%string).
      { destruct (String.ltb y m) eqn:Hlt.
        - split; [|done]. by apply Is_true_true, ltb_leb_strict.
        - split; [done|]. by apply Is_true_true, ltb_leb. }
      destruct Hmy as [Hm Hy].
      apply elem_of_cons in Hx as [->|Hx].
      * etrans; [|exact Hm]. apply Hle. by left.
      * apply elem_of_cons in Hx as [->|Hx].
        -- etrans; [|exact Hy]. apply Hle. by left.
        -- apply Hle. by right.
Qed.

(** [min] returns an element of the list that no element is below, in the
    order of strings. *)
Lemma min_spec l m :
  Py.min l = Some m -> m ∈ l /\ forall x, x ∈ l -> (m ≤ x)%string.
Proof.
  destruct l as [|y l]; [done|]. intros [= <-]. apply min_from_spec.
Qed.

Lemma first_truthy_empty a b :
  first_truthy a b = [] <-> list_truthy a = false /\ list_truthy b = false.
Proof.
  unfold first_truthy.
  destruct a as [[|x a]|], b as [[|y b]|]; simpl; split; try done; by intros [? ?].
Qed.

Lemma nvptx_without_capabilities h st :
  requested_cuda_cc h st = [] ->
  nvptx_offload_config h st = (Raise (EasyBuildError msg_no_cuda_cc), st).
Proof.
  intros Hcc. unfold nvptx_offload_config, requested_cuda_cc in *.
  cbv [mbind M_bind get_self]. cbv zeta. by rewrite Hcc.
Qed.

Lemma nvptx_default_from_min h st :
  requested_cuda_cc h st <> [] ->
  Py.truthy (default_cuda_capability (cfg (self st))) = false ->
  exists min_cc st',
    Py.min (requested_cuda_cc h st) = Some min_cc
    /\ nvptx_offload_config h st = (Ok tt, st')
    /\ configopts (cfg (self st'))
       = configopts (cfg (self st))
           ++ [default_arch_flag min_cc; capabilities_flag (requested_cuda_cc h st)]
    /\ trace (world st') = trace (world st) ++ [EvWarning (msg_default_cc min_cc)].
Proof.
  intros Hcc Hdef. unfold nvptx_offload_config, requested_cuda_cc in *.
  cbv [mbind M_bind get_self]. cbv zeta. rewrite Hdef.
  destruct (first_truthy _ _) as [|cc0 cc] eqn:Hfirst; [done|].
  rewrite bool_decide_eq_false_2; [|done].
  exists (Py.min_from cc0 cc). eexists. split; [reflexivity|].
  split; [reflexivity|]. cbn. rewrite <- app_assoc. done.
Qed.

Lemma stable_in_build_targets x st st' :
  stable st st' -> in_build_targets x (self st') = in_build_targets x (self st).
Proof.
  intros Hs. unfold in_build_targets. by rewrite (stable_build_targets _ _ Hs).
Qed.

Lemma stable_requested_cuda_cc h st st' :
  stable st st' -> requested_cuda_cc h st' = requested_cuda_cc h st.
Proof.
  intros Hs. unfold requested_cuda_cc.
  by rewrite (stable_static cuda_compute_capabilities _ _ (fun _ => eq_refl) Hs).
Qed.

Lemma stable_default_cuda_capability st st' :
  stable st st' ->
  default_cuda_capability (cfg (self st')) = default_cuda_capability (cfg (self st)).
Proof. by apply (stable_static default_cuda_capability). Qed.

(** [configure_step] up to the NVPTX block: what the block starts from. *)
Lemma configure_step_reaches_nvptx h st (Q : State -> Prop) :
  in_build_targets "NVPTX" (self st) = true ->
  (forall st1, stable st st1 ->
     wp (nvptx_offload_config h) st1 (fun _ st2 =>
       forall st3, stable st2 st3 -> Q st3)) ->
  wp (configure_step h) st (fun _ st' => Q st').
Proof.
  intros Hnv Hblock.
  unfold configure_step. destruct (negb _); [apply wp_raise|]. cbv zeta.
  wp_skip stable stable_solver. wp_read.
  do 6 wp_skip stable stable_solver.
  wp_read. rewrite (stable_in_build_targets "NVPTX" _ _ Hrel), Hnv.
  do 8 wp_skip stable stable_solver.
  change (when true (nvptx_offload_config h)) with (nvptx_offload_config h).
  apply wp_bind. specialize (Hblock _ Hrel). unfold wp in Hblock |- *.
  destruct (nvptx_offload_config h _) as [[[]|e] st2]; [|done].
  fold (wp (A := unit)).
  apply (wp_frames stable); [frames_with stable_solver|].
  intros _ st3 Hst3. by apply Hblock.
Qed.

(** C9, as the code has it. With [NVPTX] among the build targets: if
    neither the EasyBuild configuration nor the easyconfig gives a list of
    CUDA compute capabilities, the NVPTX block raises the fatal
    missing-capabilities error and [configure_step] cannot return; if a
    list is given and no default capability is set, the block returns, its
    only report is a warning, and the default architecture handed to CMake
    is the minimum of the list in the order of strings, character by
    character, without its dots. That is the lowest capability only while
    the capabilities compare as strings the way they do as numbers. *)
Theorem nvptx_cuda_capabilities (h : Host) (st : State) :
  in_build_targets "NVPTX" (self st) = true ->
  (list_truthy (build_option_cuda_compute_capabilities h) = false ->
   list_truthy (cuda_compute_capabilities (cfg (self st))) = false ->
     nvptx_offload_config h st = (Raise (EasyBuildError msg_no_cuda_cc), st)
     /\ exists e, (configure_step h st).1 = Raise e)
  /\ (requested_cuda_cc h st <> [] ->
      Py.truthy (default_cuda_capability (cfg (self st))) = false ->
      exists min_cc,
        Py.min (requested_cuda_cc h st) = Some min_cc
        /\ min_cc ∈ requested_cuda_cc h st
        /\ (forall cc, cc ∈ requested_cuda_cc h st -> (min_cc ≤ cc)%string)
        /\ (exists st',
              nvptx_offload_config h st = (Ok tt, st')
              /\ configopts (cfg (self st'))
                 = configopts (cfg (self st))
                     ++ [default_arch_flag min_cc;
                         capabilities_flag (requested_cuda_cc h st)]
              /\ trace (world st')
                 = trace (world st) ++ [EvWarning (msg_default_cc min_cc)])
        /\ forall st', configure_step h st = (Ok tt, st') ->
             default_arch_flag min_cc ∈ configopts (cfg (self st'))
             /\ EvWarning (msg_default_cc min_cc) ∈ trace (world st')).
Proof.
  intros Hnv. split.
  - intros Hcfg Hec.
    assert (requested_cuda_cc h st = []) as Hcc by by apply first_truthy_empty.
    split; [by apply nvptx_without_capabilities|].
    assert (wp (configure_step h) st (fun _ _ => False)) as Hwp.
    { apply configure_step_reaches_nvptx; [done|]. intros st1 Hst1.
      unfold wp. rewrite nvptx_without_capabilities; [done|].
      by rewrite (stable_requested_cuda_cc _ _ _ Hst1). }
    unfold wp in Hwp. destruct (configure_step h st) as [[[]|e] st']; [done|].
    by exists e.
  - intros Hcc Hdef.
    destruct (nvptx_default_from_min h st Hcc Hdef)
      as (min_cc & st' & Hmin & Hrun & Hopts & Htrace).
    exists min_cc. destruct (min_spec _ _ Hmin) as [Hin Hle].
    split; [done|]. split; [done|]. split; [done|]. split; [by exists st'|].
    assert (Hblock : forall st1, stable st st1 ->
              wp (nvptx_offload_config h) st1 (fun _ st2 =>
                forall st3, stable st2 st3 ->
                  default_arch_flag min_cc ∈ configopts (cfg (self st3))
                  /\ EvWarning (msg_default_cc min_cc) ∈ trace (world st3))).
    {
      intros st1 Hst1.
      assert (requested_cuda_cc h st1 <> []) as Hcc1
        by by rewrite (stable_requested_cuda_cc _ _ _ Hst1).
      assert (Py.truthy (default_cuda_capability (cfg (self st1))) = false) as Hdef1
        by by rewrite (stable_default_cuda_capability _ _ Hst1).
      destruct (nvptx_default_from_min h st1 Hcc1 Hdef1)
        as (min1 & st2 & Hmin1 & Hrun1 & Hopts1 & Htrace1).
      rewrite (stable_requested_cuda_cc _ _ _ Hst1), Hmin in Hmin1.
      injection Hmin1 as <-.
      unfold wp. rewrite Hrun1. intros st4 Hst4. split.
      + apply (prefix_elem_of _ _ _ (stable_configopts _ _ Hst4)).
        rewrite Hopts1. apply elem_of_app. right. by left.
      + apply (prefix_elem_of _ _ _ (stable_trace _ _ Hst4)).
        rewrite Htrace1. apply elem_of_app. right. by left. }
    intros st3 Hconf.
    apply (wp_elim _ _ _ _ _
             (configure_step_reaches_nvptx h st
                (fun st3 => default_arch_flag min_cc ∈ configopts (cfg (self st3))
                            /\ EvWarning (msg_default_cc min_cc) ∈ trace (world st3))
                Hnv Hblock) Hconf).
Qed.

Lemma nvptx_cuda_capabilities_witness :
  exists st',
    configure_step (Example.host false 0)
      (mkState (set_cfg (Example.cuda_easyconfig ["8.0"; "7.5"; "9.0"])
                  Example.stage_self) Example.world) = (Ok tt, st')
    /\ "-DCLANG_OPENMP_NVPTX_DEFAULT_ARCH=sm_75" ∈ configopts (cfg (self st'))
    /\ EvWarning (msg_default_cc "7.5") ∈ trace (world st').
Proof.
  destruct (configure_step (Example.host false 0)
              (mkState (set_cfg (Example.cuda_easyconfig ["8.0"; "7.5"; "9.0"])
                          Example.stage_self) Example.world))
    as [[[]|e] st'] eqn:Hrun; [| by vm_compute in Hrun].
  exists st'. split; [reflexivity|].
  destruct (nvptx_cuda_capabilities (Example.host false 0)
              (mkState (set_cfg (Example.cuda_easyconfig ["8.0"; "7.5"; "9.0"])
                          Example.stage_self) Example.world) eq_refl)
    as [_ Hmin].
  destruct Hmin as (min_cc & Hmin & _ & _ & _ & Hflags); [discriminate | reflexivity |].
  vm_compute in Hmin. injection Hmin as <-.
  exact (Hflags st' Hrun).
Defined.

(** C9 fails for the capabilities [9.0] and [10.0]: [9.0] is the lower
    one, but [min] compares the strings and [1] comes before [9], so the
    object that [__init__] returns is configured with [sm_100] as the
    default architecture, and the warning names [10.0] as the minimum. *)
Lemma default_capability_not_lowest :
  lower_capability "9.0" "10.0" = true
  /\ Py.min ["9.0"; "10.0"] = Some "10.0"
  /\ exists st',
       Example.configured (Example.host false 0) (Example.easyblock "Clang" "18.1.8")
         (Example.cuda_easyconfig ["9.0"; "10.0"]) Example.world = Some st'
       /\ "-DCLANG_OPENMP_NVPTX_DEFAULT_ARCH=sm_100" ∈ configopts (cfg (self st'))
       /\ ("-DCLANG_OPENMP_NVPTX_DEFAULT_ARCH=sm_90" ∉ configopts (cfg (self st')))
       /\ "-DLIBOMPTARGET_NVPTX_COMPUTE_CAPABILITIES=90,100" ∈ configopts (cfg (self st'))
       /\ EvWarning ("No default CUDA capability defined! Using '10.0' taken as "
                       +:+ "minimum from 'cuda_compute_capabilities'")
            ∈ trace (world st').
Proof.
  split; [reflexivity|]. split; [reflexivity|].
  eexists. split; [vm_compute; reflexivity|].
  split; [by_compute|]. split; [by_compute|]. split; [by_compute|].
  do 2 right. left.
Qed.

(** ** The environment across a bootstrap stage *)

Global Instance any_state_preorder : PreOrder any_state.
Proof. by split. Qed.

Global Instance same_environ_preorder : PreOrder same_environ.
Proof. split; [done|]. intros st1 st2 st3 H1 H2. unfold same_environ in *. congruence. Qed.

Global Instance same_flags_preorder : PreOrder same_flags.
Proof.
  split; [done|]. intros st1 st2 st3 [H1 H1'] [H2 H2']. split; congruence.
Qed.

Lemma frames_any {A} (m : M A) : frames any_state m.
Proof. by intros st. Qed.

Ltac wp_any :=
  apply wp_bind; apply (wp_frames any_state); [apply frames_any | intros ? ? _].

Ltac same_environ_solver := reflexivity.

Ltac same_flags_solver :=
  split; cbn; first [ reflexivity | by rewrite lookup_insert_ne ].

Lemma stage_cmake_text b clang clangxx opts src :
  "cmake "
    +:+ Py.join " "
          [ "-DCMAKE_INSTALL_PREFIX=" +:+ installdir b +:+ " ";
            "-DCMAKE_C_COMPILER='" +:+ Py.fmt clang +:+ "' ";
            "-DCMAKE_CXX_COMPILER='" +:+ Py.fmt clangxx +:+ "' ";
            opts;
            "-DCMAKE_BUILD_TYPE=" +:+ build_type b +:+ " " ]
    +:+ " " +:+ src
  = stage_cmake b clang clangxx opts src.
Proof.
  unfold stage_cmake. cbn [Py.join]. rewrite !str_app_assoc. reflexivity.
Qed.

Lemma stage_cmake_text_rpath b clang clangxx opts llvm_link src :
  "cmake "
    +:+ Py.join " "
          ([ "-DCMAKE_INSTALL_PREFIX=" +:+ installdir b +:+ " ";
             "-DCMAKE_C_COMPILER='" +:+ Py.fmt clang +:+ "' ";
             "-DCMAKE_CXX_COMPILER='" +:+ Py.fmt clangxx +:+ "' ";
             opts;
             "-DCMAKE_BUILD_TYPE=" +:+ build_type b +:+ " " ]
             ++ ["-DLIBOMPTARGET_NVPTX_BC_LINKER=" +:+ Py.fmt llvm_link])
    +:+ " " +:+ src
  = stage_cmake b clang clangxx opts (linker_and_source llvm_link src).
Proof.
  unfold stage_cmake, linker_and_source. cbn [Py.join app].
  rewrite !str_app_assoc. reflexivity.
Qed.

Lemma str_app_empty_r (s : string) : s +:+ EmptyString = s.
Proof. induction s as [|c s IH]; [done|]. by rewrite app_cons, IH. Qed.

Lemma join_occurs sep l part : part ∈ l -> occurs_in part (Py.join sep l).
Proof.
  induction l as [|x [|y l] IH]; intros Hin.
  - by apply elem_of_nil in Hin.
  - apply list_elem_of_singleton in Hin as ->. exists EmptyString, EmptyString.
    by rewrite str_app_empty_r.
  - change (Py.join sep (x :: y :: l)) with (x +:+ sep +:+ Py.join sep (y :: l)).
    apply elem_of_cons in Hin as [->|Hin].
    + by exists EmptyString, (sep +:+ Py.join sep (y :: l)).
    + destruct (IH Hin) as (before & after & ->).
      exists (x +:+ sep +:+ before), after. by rewrite !str_app_assoc.
Qed.

(** The run of the end of a stage, from the lookup of the compilers on. *)
Lemma configure_and_build_run h orig_path st :
  configure_and_build h orig_path st
  = match stage_source h (self st) with
    | None => (Raise (TypeError "os.path.join"), st)
    | Some src =>
        let cmake :=
          stage_cmake (eb (self st)) (which h (world st) "clang")
            (which h (world st) "clang++") (Py.join " " (configopts (cfg (self st))))
            (if build_option_rpath h
             then linker_and_source (which h (world st) "llvm-link") src
             else src) in
        let w1 := mkWorld (environ (world st)) (trace (world st) ++ [EvRunCmd cmake]) in
        let w2 := mkWorld (environ (world st))
                    (trace (world st) ++ [EvRunCmd cmake; stage_make (self st)]) in
        if ((run_cmd h (world st) cmake).2 =? 0)%Z then
          if ((run_cmd h w1 ("make " +:+ make_parallel_opts (self st) +:+ " VERBOSE=1")).2
              =? 0)%Z
          then (Ok tt,
                mkState (self st) (mkWorld (<["PATH" := orig_path]> (environ (world st)))
                                     (trace w2)))
          else (Raise (FrameworkError "run_cmd"), mkState (self st) w2)
        else (Raise (FrameworkError "run_cmd"), mkState (self st) w1)
    end.
Proof.
  unfold configure_and_build, stage_source.
  rewrite bind_run. cbn [get_world]. rewrite bind_run. cbn [get_self]. rewrite bind_run.
  destruct (build_option_rpath h), (loose_ge h (version (eb (self st))) "14");
    try (destruct (llvm_src_dir (self st)) as [src|]; [|reflexivity];
         cbn [fmap option_fmap option_map need_str]; rewrite ret_bind);
    rewrite ?stage_cmake_text, ?stage_cmake_text_rpath, run_cmd_log_all_run;
    cbv zeta;
    (destruct (_ =? 0)%Z; [|reflexivity]);
    rewrite bind_run, run_cmd_log_all_run; cbn [self world environ trace];
    (destruct (_ =? 0)%Z; rewrite <- ?app_assoc; reflexivity).
Qed.

(** The run of a stage without rpath wrappers, up to the lookup of the
    compilers. *)
Lemma stage_without_rpath_eq h prev next st :
  build_option_rpath h = false ->
  build_with_prev_stage h (Some prev) (Some next) st
  = let w1 := mkWorld (environ (world st)) (trace (world st) ++ [EvMkdir next]) in
    let w2 := mkWorld (environ (world st))
                (trace (world st) ++ [EvMkdir next; EvChangeDir next]) in
    if mkdir_ok h (world st) next then
      if change_dir_ok h w1 next then
        match environ (world st) !! "PATH" with
        | Some orig_path =>
            configure_and_build h orig_path
              (mkState (self st) (stage_world prev next orig_path (world st)))
        | None => (Raise (TypeError "str + None"), mkState (self st) w2)
        end
      else (Raise (FrameworkError "change_dir"), mkState (self st) w2)
    else (Raise (FrameworkError "mkdir"), mkState (self st) w1).
Proof.
  intros Hrpath. unfold build_with_prev_stage. rewrite Hrpath.
  cbn [need_str]. rewrite ret_bind, bind_run, mkdir_run. cbv zeta.
  destruct (mkdir_ok h (world st) next); [|reflexivity].
  rewrite bind_run, change_dir_run. cbn [self world environ trace].
  rewrite <- app_assoc. cbn [app].
  destruct (change_dir_ok h _ next); [|reflexivity].
  rewrite bind_run. cbn [getenv self world environ trace]. rewrite ret_bind.
  destruct (environ (world st) !! "PATH") as [orig_path|]; [|reflexivity].
  cbn [need_str]. rewrite ret_bind, bind_run, setvar_run. cbn [when].
  rewrite ret_bind. unfold configure_and_build. rewrite Hrpath. reflexivity.
Qed.

(** The run of a stage with rpath wrappers, up to the lookup of the
    compilers. *)
Lemma stage_with_rpath_eq h prev next st :
  build_option_rpath h = true ->
  build_with_prev_stage h (Some prev) (Some next) st
  = let w1 := mkWorld (environ (world st)) (trace (world st) ++ [EvMkdir next]) in
    let w2 := mkWorld (environ (world st))
                (trace (world st) ++ [EvMkdir next; EvChangeDir next]) in
    if mkdir_ok h (world st) next then
      if change_dir_ok h w1 next then
        match environ (world st) !! "PATH" with
        | Some orig_path =>
            let w3 := stage_world prev next orig_path (world st) in
            let asked := trace (world st)
                           ++ [EvMkdir next; EvChangeDir next; EvRpathWrappers] in
            match prepare_rpath_wrappers h w3 with
            | Some wrapped =>
                match which h (mkWorld wrapped asked) "clang" with
                | Some clang =>
                    let link :=
                      EvSymlink (Py.path_join (Py.path_join prev "bin") "opt")
                        (Py.path_join (Py.dirname clang) "opt") in
                    if symlink_ok h (mkWorld wrapped asked)
                         (Py.path_join (Py.path_join prev "bin") "opt")
                         (Py.path_join (Py.dirname clang) "opt")
                    then
                      configure_and_build h orig_path
                        (mkState (self st)
                           (mkWorld
                              (<["CXXFLAGS" := with_no_unused_warning
                                                 (wrapped !! "CXXFLAGS")]>
                                 (<["CFLAGS" := with_no_unused_warning
                                                  (wrapped !! "CFLAGS")]> wrapped))
                              (trace (world st)
                                 ++ [EvMkdir next; EvChangeDir next; EvRpathWrappers;
                                     link])))
                    else (Raise (FrameworkError "symlink"),
                          mkState (self st)
                            (mkWorld wrapped
                               (trace (world st)
                                  ++ [EvMkdir next; EvChangeDir next; EvRpathWrappers;
                                      link])))
                | None =>
                    (Raise (TypeError "os.path.dirname"),
                     mkState (self st) (mkWorld wrapped asked))
                end
            | None =>
                (Raise (FrameworkError "prepare_rpath_wrappers"),
                 mkState (self st) (mkWorld (environ w3) asked))
            end
        | None => (Raise (TypeError "str + None"), mkState (self st) w2)
        end
      else (Raise (FrameworkError "change_dir"), mkState (self st) w2)
    else (Raise (FrameworkError "mkdir"), mkState (self st) w1).
Proof.
  intros Hrpath. unfold build_with_prev_stage. rewrite Hrpath.
  cbn [need_str]. rewrite ret_bind, bind_run, mkdir_run. cbv zeta.
  destruct (mkdir_ok h (world st) next); [|reflexivity].
  rewrite bind_run, change_dir_run. cbn [self world environ trace].
  rewrite <- app_assoc. cbn [app].
  destruct (change_dir_ok h _ next); [|reflexivity].
  rewrite bind_run. cbn [getenv self world environ trace]. rewrite ret_bind.
  destruct (environ (world st) !! "PATH") as [orig_path|]; [|reflexivity].
  cbn [need_str]. rewrite ret_bind, bind_run, setvar_run. cbn [when].
  cbn [self world environ trace].
  rewrite (bind_run (_ ≫= _)), (bind_run get_world). cbn [get_world].
  rewrite bind_run, emit_run. cbn [self world environ trace].
  rewrite <- app_assoc. cbn [app]. rewrite bind_run. unfold stage_world.
  destruct (prepare_rpath_wrappers h _) as [wrapped|]; [|reflexivity].
  rewrite set_environ_run, bind_run. cbn [get_world self world environ trace].
  rewrite bind_run.
  destruct (which h _ "clang") as [clang|]; [|reflexivity].
  cbn [need_str mret M_ret]. rewrite bind_run, symlink_run.
  cbn [self world environ trace]. rewrite <- app_assoc. cbn [app].
  destruct (symlink_ok h _ _ _); [|reflexivity].
  rewrite bind_run. cbn [getenv self world environ trace].
  rewrite bind_run. cbn [getenv self world environ trace].
  rewrite bind_run, setvar_run, setvar_run. cbn [self world environ trace].
  unfold configure_and_build. rewrite Hrpath. reflexivity.
Qed.

Lemma configure_and_build_path h orig_path st :
  wp (configure_and_build h orig_path) st (fun _ st' =>
    environ (world st') !! "PATH" = Some orig_path).
Proof.
  unfold configure_and_build. wp_read. wp_read.
  wp_any. wp_any.
  apply wp_run. intros ? st_end Hrun. rewrite setvar_run in Hrun.
  injection Hrun as _ <-. cbn. apply lookup_insert_eq.
Qed.

Lemma configure_and_build_flags h orig_path : frames same_flags (configure_and_build h orig_path).
Proof. unfold configure_and_build. frames_with same_flags_solver. Qed.

Lemma stage_restores_path h prev_obj next_obj st :
  wp (build_with_prev_stage h prev_obj next_obj) st (fun _ st' =>
    environ (world st') !! "PATH" = environ (world st) !! "PATH").
Proof.
  unfold build_with_prev_stage.
  apply wp_bind, wp_need_str. intros next _.
  do 2 wp_skip same_environ same_environ_solver. wp_read. rewrite Hrel.
  apply wp_bind, wp_need_str. intros prev _. cbv zeta.
  apply wp_bind, wp_need_str. intros orig_path Horig. rewrite Horig.
  wp_any. wp_any.
  apply (configure_and_build_path h orig_path).
Qed.

Lemma stage_keeps_flags_without_rpath h prev_obj next_obj :
  build_option_rpath h = false ->
  frames same_flags (build_with_prev_stage h prev_obj next_obj).
Proof.
  intros Hrpath. unfold build_with_prev_stage, when. rewrite Hrpath.
  frames_with same_flags_solver.
Qed.

Lemma stage_needs_source h prev_obj next_obj st :
  llvm_src_dir (self st) = None ->
  loose_ge h (version (eb (self st))) "14" = true ->
  wp (build_with_prev_stage h prev_obj next_obj) st (fun _ _ => False).
Proof.
  intros Hsrc Hge. unfold build_with_prev_stage.
  apply wp_bind, wp_need_str. intros next _.
  do 2 wp_skip stable stable_solver. wp_read.
  apply wp_bind, wp_need_str. intros prev _. cbv zeta.
  apply wp_bind, wp_need_str. intros orig_path _.
  do 2 wp_skip stable stable_solver.
  wp_read. wp_read.
  rewrite (stable_eb _ _ Hrel), Hge, (stable_src _ _ Hrel), Hsrc.
  apply wp_bind, wp_bind, wp_raise.
Qed.

Lemma stage_without_next h prev_obj st :
  build_with_prev_stage h prev_obj None st = (Raise (TypeError "mkdir"), st).
Proof. reflexivity. Qed.

Lemma stage_without_prev h next st :
  build_with_prev_stage h None (Some next) st
  = let w1 := mkWorld (environ (world st)) (trace (world st) ++ [EvMkdir next]) in
    let w2 := mkWorld (environ (world st))
                (trace (world st) ++ [EvMkdir next; EvChangeDir next]) in
    if mkdir_ok h (world st) next then
      if change_dir_ok h w1 next
      then (Raise (TypeError "os.path.join"), mkState (self st) w2)
      else (Raise (FrameworkError "change_dir"), mkState (self st) w2)
    else (Raise (FrameworkError "mkdir"), mkState (self st) w1).
Proof.
  unfold build_with_prev_stage.
  cbn [need_str]. rewrite ret_bind, bind_run, mkdir_run. cbv zeta.
  destruct (mkdir_ok h (world st) next); [|reflexivity].
  rewrite bind_run, change_dir_run. cbn [self world environ trace].
  rewrite <- app_assoc. cbn [app].
  by destruct (change_dir_ok h _ next).
Qed.

Lemma stage_path_neq prev orig_path : stage_path prev orig_path <> orig_path.
Proof.
  unfold stage_path. intros Heq. apply (f_equal String.length) in Heq.
  rewrite !str_app_length in Heq. cbn in Heq. lia.
Qed.

Lemma with_no_unused_warning_neq (flags : option string) :
  Some (with_no_unused_warning flags) <> flags.
Proof.
  destruct flags as [v|]; [|done]. intros [= Heq]. by apply str_app_neq in Heq.
Qed.

(** A stage without rpath wrappers that stops in CMake, in [make] or on the
    source directory has [PATH] with the previous stage in front. *)
Lemma stage_failure_leaves_path h prev_obj next_obj st e st' :
  build_option_rpath h = false ->
  build_with_prev_stage h prev_obj next_obj st = (Raise e, st') ->
  e = FrameworkError "run_cmd" \/ (e = TypeError "os.path.join" /\ is_Some prev_obj) ->
  exists prev orig_path,
    prev_obj = Some prev /\ environ (world st) !! "PATH" = Some orig_path
    /\ environ (world st') !! "PATH" = Some (stage_path prev orig_path).
Proof.
  intros Hrpath Hrun He.
  destruct next_obj as [next|].
  2:{ rewrite stage_without_next in Hrun. injection Hrun as <- <-.
      by destruct He as [|[? _]]. }
  destruct prev_obj as [prev|].
  2:{ rewrite stage_without_prev in Hrun. cbv zeta in Hrun.
      destruct (mkdir_ok _ _ _); [destruct (change_dir_ok _ _ _)|];
        injection Hrun as <- <-; destruct He as [|[? [? ?]]]; done. }
  rewrite stage_without_rpath_eq in Hrun by done. cbv zeta in Hrun.
  destruct (mkdir_ok _ _ _);
    [|injection Hrun as <- <-; by destruct He as [|[? _]]].
  destruct (change_dir_ok _ _ _);
    [|injection Hrun as <- <-; by destruct He as [|[? _]]].
  destruct (environ (world st) !! "PATH") as [orig_path|];
    [|injection Hrun as <- <-; by destruct He as [|[? _]]].
  exists prev, orig_path. split; [done|]. split; [done|].
  rewrite configure_and_build_run in Hrun. cbn [self world] in Hrun.
  destruct (stage_source _ _); cbv zeta in Hrun;
    repeat (destruct (_ =? 0)%Z in Hrun); try discriminate;
    injection Hrun as _ <-; cbn; apply lookup_insert_eq.
Qed.

(** With rpath wrappers, a stage that returns leaves each flag variable as
    the wrappers set it up, with the flag against unused arguments added. *)
Lemma stage_flags_with_rpath h prev_obj next_obj st st' :
  build_option_rpath h = true ->
  build_with_prev_stage h prev_obj next_obj st = (Ok tt, st') ->
  exists wrapped,
    wrappers_environ h prev_obj next_obj st = Some wrapped
    /\ environ (world st') !! "CFLAGS"
       = Some (with_no_unused_warning (wrapped !! "CFLAGS"))
    /\ environ (world st') !! "CXXFLAGS"
       = Some (with_no_unused_warning (wrapped !! "CXXFLAGS")).
Proof.
  intros Hrpath Hrun.
  destruct next_obj as [next|]; [|by rewrite stage_without_next in Hrun].
  destruct prev_obj as [prev|].
  2:{ rewrite stage_without_prev in Hrun. cbv zeta in Hrun.
      destruct (mkdir_ok _ _ _); [|done]. by destruct (change_dir_ok _ _ _). }
  rewrite stage_with_rpath_eq in Hrun by done. cbv zeta in Hrun.
  unfold wrappers_environ. cbn [mbind option_bind].
  destruct (mkdir_ok _ _ _); [|done]. destruct (change_dir_ok _ _ _); [|done].
  destruct (environ (world st) !! "PATH") as [orig_path|]; [|done]. cbn [mbind option_bind].
  destruct (prepare_rpath_wrappers _ _) as [wrapped|]; [|done].
  destruct (which _ _ _) as [clang|]; [|done].
  destruct (symlink_ok _ _ _ _); [|done].
  exists wrapped. split; [done|].
  rewrite configure_and_build_run in Hrun. cbn [self world environ trace] in Hrun.
  destruct (stage_source _ _); [|done]. cbv zeta in Hrun.
  repeat (destruct (_ =? 0)%Z in Hrun); try discriminate.
  injection Hrun as <-. cbn [self world environ trace].
  rewrite lookup_insert_ne, lookup_insert_ne, lookup_insert_eq by done.
  rewrite lookup_insert_ne, lookup_insert_eq by done. done.
Qed.

(** C1, amended. A stage run by [build_with_prev_stage] sets [PATH] back
    only when it returns: then [PATH] is what it was before the stage. It
    does not return while the source directory is unknown, from version 14
    on. Without rpath wrappers, a stage that stops in CMake, in [make] or on
    the source directory leaves [PATH] with the [bin] of the previous stage
    in front, which is not what it was; and the stage never touches
    [CFLAGS] and [CXXFLAGS], whatever its outcome. With rpath wrappers, a
    stage that returns leaves [CFLAGS] and [CXXFLAGS] as the wrappers set
    them up with [-Wno-unused-command-line-argument] added after a blank:
    where the wrappers left the variable as it was before the stage, it now
    is its value before the stage with the flag added, and so not that
    value. Nothing sets the two variables back. *)
Theorem stage_environment (h : Host) (prev_obj next_obj : option string) (st : State) :
  (forall st', build_with_prev_stage h prev_obj next_obj st = (Ok tt, st') ->
     environ (world st') !! "PATH" = environ (world st) !! "PATH")
  /\ (llvm_src_dir (self st) = None -> loose_ge h (version (eb (self st))) "14" = true ->
        exists e, (build_with_prev_stage h prev_obj next_obj st).1 = Raise e)
  /\ (build_option_rpath h = false ->
        forall e st', build_with_prev_stage h prev_obj next_obj st = (Raise e, st') ->
          e = FrameworkError "run_cmd"
          \/ (e = TypeError "os.path.join" /\ is_Some prev_obj) ->
          exists prev orig_path,
            prev_obj = Some prev /\ environ (world st) !! "PATH" = Some orig_path
            /\ environ (world st') !! "PATH" = Some (stage_path prev orig_path)
            /\ environ (world st') !! "PATH" <> environ (world st) !! "PATH")
  /\ (build_option_rpath h = false ->
        same_flags st (build_with_prev_stage h prev_obj next_obj st).2)
  /\ (build_option_rpath h = true ->
        forall st', build_with_prev_stage h prev_obj next_obj st = (Ok tt, st') ->
          exists wrapped,
            wrappers_environ h prev_obj next_obj st = Some wrapped
            /\ forall flags, flags = "CFLAGS" \/ flags = "CXXFLAGS" ->
                 environ (world st') !! flags
                 = Some (with_no_unused_warning (wrapped !! flags))
                 /\ (wrapped !! flags = environ (world st) !! flags ->
                       environ (world st') !! flags
                       = Some (with_no_unused_warning (environ (world st) !! flags))
                       /\ environ (world st') !! flags <> environ (world st) !! flags)).
Proof.
  repeat apply conj.
  - intros st' Hrun.
    exact (wp_elim _ _ _ _ _ (stage_restores_path h prev_obj next_obj st) Hrun).
  - intros Hsrc Hge. by apply wp_never, stage_needs_source.
  - intros Hrpath e st' Hrun He.
    destruct (stage_failure_leaves_path _ _ _ _ _ _ Hrpath Hrun He)
      as (prev & orig_path & Hprev & Horig & Hpath).
    exists prev, orig_path. rewrite Hpath, Horig. repeat (split; [done|]).
    intros [= Heq]. by apply stage_path_neq in Heq.
  - intros Hrpath. by apply stage_keeps_flags_without_rpath.
  - intros Hrpath st' Hrun.
    destruct (stage_flags_with_rpath _ _ _ _ _ Hrpath Hrun) as (wrapped & Hw & Hc & Hcxx).
    exists wrapped. split; [done|].
    intros flags [-> | ->]; (split; [done|]); intros <-; (split; [done|]).
    + rewrite Hc. apply with_no_unused_warning_neq.
    + rewrite Hcxx. apply with_no_unused_warning_neq.
Qed.

Lemma stage_environment_witness :
  (exists st',
     build_with_prev_stage (Example.host false 0) (Some "/build/llvm.obj.1")
       (Some "/build/llvm.obj.2") (mkState Example.stage_self Example.world)
     = (Ok tt, st')
     /\ environ (world st') !! "PATH" = Some "/usr/bin"
     /\ environ (world st') !! "CFLAGS" = Some "-O2"
     /\ environ (world st') !! "CXXFLAGS" = Some "-O2")
  /\ (exists st2 st3,
        build_with_prev_stage (Example.host true 0) (Some "/build/llvm.obj.1")
          (Some "/build/llvm.obj.2") (mkState Example.stage_self Example.world)
        = (Ok tt, st2)
        /\ build_with_prev_stage (Example.host true 0) (Some "/build/llvm.obj.2")
             (Some "/build/llvm.obj.3") st2
           = (Ok tt, st3)
        /\ environ (world st2) !! "PATH" = Some "/usr/bin"
        /\ environ (world st2) !! "CFLAGS"
           = Some "-O2 -Wno-unused-command-line-argument"
        /\ environ (world st3) !! "CFLAGS"
           = Some ("-O2 -Wno-unused-command-line-argument"
                     +:+ " -Wno-unused-command-line-argument")
        /\ environ (world st3) !! "CXXFLAGS"
           = Some ("-O2 -Wno-unused-command-line-argument"
                     +:+ " -Wno-unused-command-line-argument"))
  /\ (exists st st',
        Example.configured (Example.host false 0) (Example.easyblock "Clang" "18.1.8")
          (Example.easyconfig true (Some ["X86"]) []) Example.world = Some st
        /\ build_with_prev_stage (Example.host false 0) (llvm_obj_dir_stage1 (self st))
             (llvm_obj_dir_stage2 (self st)) st
           = (Raise (TypeError "os.path.join"), st')
        /\ environ (world st) !! "PATH" = Some "/usr/bin"
        /\ environ (world st') !! "PATH" = Some "/build/llvm.obj.1/bin:/usr/bin").
Proof.
  split; [|split].
  - destruct (stage_environment (Example.host false 0) (Some "/build/llvm.obj.1")
                (Some "/build/llvm.obj.2") (mkState Example.stage_self Example.world))
      as (Hpath & _ & _ & Hflags & _).
    destruct (Hflags eq_refl) as [Hc Hcxx].
    destruct (build_with_prev_stage (Example.host false 0) (Some "/build/llvm.obj.1")
                (Some "/build/llvm.obj.2") (mkState Example.stage_self Example.world))
      as [[[]|e] st'] eqn:Hrun; [| by vm_compute in Hrun].
    exists st'. split; [reflexivity|].
    rewrite (Hpath st' eq_refl). cbn [snd] in Hc, Hcxx. rewrite Hc, Hcxx.
    by vm_compute.
  - assert (forall prev next st st',
              build_with_prev_stage (Example.host true 0) (Some prev) (Some next) st
              = (Ok tt, st') ->
              environ (world st') !! "PATH" = environ (world st) !! "PATH"
              /\ environ (world st') !! "CFLAGS"
                 = Some (with_no_unused_warning (environ (world st) !! "CFLAGS"))
              /\ environ (world st') !! "CXXFLAGS"
                 = Some (with_no_unused_warning (environ (world st) !! "CXXFLAGS")))
      as Hstage.
    { intros prev next st st' Hrun.
      destruct (stage_environment (Example.host true 0) (Some prev) (Some next) st)
        as (Hpath & _ & _ & _ & Hflags).
      split; [by apply Hpath|].
      destruct (Hflags eq_refl st' Hrun) as (wrapped & Hw & Hf).
      unfold wrappers_environ in Hw. cbn [mbind option_bind] in Hw.
      destruct (environ (world st) !! "PATH") as [orig_path|] eqn:Horig; [|done].
      cbn in Hw. injection Hw as <-.
      split; [apply (Hf "CFLAGS") | apply (Hf "CXXFLAGS")]; auto;
        by rewrite lookup_insert_ne. }
    pose (r2 := build_with_prev_stage (Example.host true 0) (Some "/build/llvm.obj.1")
                  (Some "/build/llvm.obj.2") (mkState Example.stage_self Example.world)).
    pose (r3 := build_with_prev_stage (Example.host true 0) (Some "/build/llvm.obj.2")
                  (Some "/build/llvm.obj.3") r2.2).
    assert (r2 = (Ok tt, r2.2)) as Hrun2 by (vm_compute; reflexivity).
    assert (r3 = (Ok tt, r3.2)) as Hrun3 by (vm_compute; reflexivity).
    destruct (Hstage "/build/llvm.obj.1" "/build/llvm.obj.2"
                (mkState Example.stage_self Example.world) r2.2 Hrun2)
      as (Hpath2 & Hc2 & Hcxx2).
    destruct (Hstage "/build/llvm.obj.2" "/build/llvm.obj.3" r2.2 r3.2 Hrun3)
      as (_ & Hc3 & Hcxx3).
    exists r2.2, r3.2. split; [exact Hrun2|]. split; [exact Hrun3|].
    rewrite Hc3, Hcxx3, Hc2, Hcxx2, Hpath2. clear.
    repeat split; vm_compute; reflexivity.
  - pose (st := default (mkState Example.stage_self Example.world)
                  (Example.configured (Example.host false 0)
                     (Example.easyblock "Clang" "18.1.8")
                     (Example.easyconfig true (Some ["X86"]) []) Example.world)).
    pose (r := build_with_prev_stage (Example.host false 0)
                 (llvm_obj_dir_stage1 (self st)) (llvm_obj_dir_stage2 (self st)) st).
    assert (r = (Raise (TypeError "os.path.join"), r.2)) as Hrun
      by (vm_compute; reflexivity).
    exists st, r.2. split; [vm_compute; reflexivity|]. split; [exact Hrun|].
    destruct (stage_environment (Example.host false 0) (llvm_obj_dir_stage1 (self st))
                (llvm_obj_dir_stage2 (self st)) st) as (_ & _ & Hleak & _).
    destruct (Hleak eq_refl _ _ Hrun) as (prev & orig_path & Hprev & Horig & Hpath & _).
    { right. split; [reflexivity|]. eexists. vm_compute. reflexivity. }
    rewrite Hpath, Horig. vm_compute in Hprev, Horig.
    injection Hprev as <-. injection Horig as <-. split; reflexivity.
Defined.

(** C1 as stated fails. When CMake fails in a stage, the error leaves
    [PATH] with the previous stage's [bin] in front; with rpath wrappers a
    stage that succeeds leaves [CFLAGS] and [CXXFLAGS] with the added flag;
    and a bootstrap run as this file sets it up stops in stage 2 on the
    source directory that is still [None], with [PATH] changed. *)
Lemma stage_leaks_environment :
  environ Example.world !! "PATH" = Some "/usr/bin"
  /\ environ Example.world !! "CFLAGS" = Some "-O2"
  /\ (let r := build_with_prev_stage (Example.host false 1)
                 (Some "/build/llvm.obj.1") (Some "/build/llvm.obj.2")
                 (mkState Example.stage_self Example.world) in
      r.1 = Raise (FrameworkError "run_cmd")
      /\ environ (world r.2) !! "PATH" = Some "/build/llvm.obj.1/bin:/usr/bin")
  /\ (let r := build_with_prev_stage (Example.host true 0)
                 (Some "/build/llvm.obj.1") (Some "/build/llvm.obj.2")
                 (mkState Example.stage_self Example.world) in
      r.1 = Ok tt
      /\ environ (world r.2) !! "PATH" = Some "/usr/bin"
      /\ environ (world r.2) !! "CFLAGS"
         = Some "-O2 -Wno-unused-command-line-argument"
      /\ environ (world r.2) !! "CXXFLAGS"
         = Some "-O2 -Wno-unused-command-line-argument")
  /\ (let r := run_easyblock (Example.host false 0)
                 (Example.easyblock "Clang" "18.1.8")
                 (Example.easyconfig true (Some ["X86"]) []) Example.world in
      r.1 = Raise (TypeError "os.path.join")
      /\ environ r.2 !! "PATH" = Some "/build/llvm.obj.1/bin:/usr/bin").
Proof. repeat split; by vm_compute. Qed.

(** * Further properties of the steps *)

(** ** More rules *)

Global Instance keeps_preorder {T} (f : State -> T) : PreOrder (keeps f).
Proof. split; [done|]. intros st1 st2 st3 H1 H2. unfold keeps in *. congruence. Qed.

Global Instance both_preorder R1 R2 `{!PreOrder R1, !PreOrder R2} : PreOrder (both R1 R2).
Proof.
  split.
  - intros st. by split.
  - intros st1 st2 st3 [H1 H1'] [H2 H2']. split; by etrans.
Qed.

Global Instance environ_but_preorder key : PreOrder (environ_but key).
Proof.
  split; [done|]. intros st1 st2 st3 H1 H2 k Hk. by rewrite (H2 k Hk), (H1 k Hk).
Qed.

Lemma frames_both R1 R2 {A} (m : M A) :
  frames R1 m -> frames R2 m -> frames (both R1 R2) m.
Proof. intros H1 H2 st. by split. Qed.

Ltac keeps_solver := unfold keeps; cbn; repeat case_match; reflexivity.

Ltac environ_but_solver :=
  let k := fresh "k" in
  let Hk := fresh "Hk" in
  intros k Hk; cbn; first [ reflexivity | by rewrite lookup_insert_ne ].

(** ** What [__init__] hands to the steps *)

Lemma unknown_targets_nil targets :
  unknown_targets targets = [] -> Forall (fun t => t ∈ CLANG_TARGETS) targets.
Proof.
  intros Hnil. apply Forall_forall. intros t Hin.
  destruct (decide (t ∈ CLANG_TARGETS)) as [|Hnot]; [done|].
  assert (t ∈ unknown_targets targets) as Hunk by by apply unknown_targets_spec.
  rewrite Hnil in Hunk. by apply elem_of_nil in Hunk.
Qed.

(** X1. An object that [__init__] returns has passed every check: its version
    is supported, bootstrap is asked for Clang only, each of its build
    targets is a known one and none is [MBlaze]; its configure options are
    those of the easyconfig followed by the Python3 hint, and its own
    attributes are the fresh ones. *)
Theorem init_returns_validated (h : Host) (b : EasyBlock) (c : EasyConfig) (s : Self) :
  __init__ h b c = Ok s ->
  version_supported h b /\ bootstrap_allowed b c /\ eb s = b
  /\ configopts (cfg s) = configopts c ++ ["-DPython3_FIND_VIRTUALENV=STANDARD"]
  /\ static_cfg (set_build_targets None (cfg s)) = static_cfg (set_build_targets None c)
  /\ (exists targets,
        build_targets (cfg s) = Some targets
        /\ Forall (fun t => t ∈ CLANG_TARGETS /\ t <> "MBlaze") targets)
  /\ llvm_src_dir s = None /\ stage_dirs (mkState s (mkWorld ∅ [])) = (None, None, None)
  /\ checks (mkState s (mkWorld ∅ [])) = ([], [], [], [])
  /\ runtime_lib_path s = "lib" /\ make_parallel_opts s = EmptyString.
Proof.
  unfold __init__, version_supported, bootstrap_allowed, is_clang.
  destruct (loose_lt _ _ _); [discriminate|].
  destruct (bootstrap c) eqn:Hboot; cbn [andb].
  - destruct (String.eqb_spec (Py.lower (name b)) "clang") as [Hclang|]; [|discriminate].
    cbn [negb]. revert Hclang. generalize (Py.lower (name b)). intros lname Hclang.
    destruct (match build_targets _ with Some t => _ | None => _ end) as [targets|e];
      [|discriminate].
    unfold mbind, result_bind. cbv beta iota zeta.
    destruct (bool_decide (unknown_targets targets = [])) eqn:Hunk; [|discriminate].
    apply bool_decide_eq_true in Hunk. cbn [negb].
    destruct (Py.mem "MBlaze" targets) eqn:Hmb; [discriminate|].
    intros [= <-]. repeat split; auto. exists targets. split; [done|].
    apply mem_not_elem_of in Hmb. pose proof (unknown_targets_nil _ Hunk) as Hknown.
    rewrite Forall_forall in Hknown |- *. intros t Hin. split; [by apply Hknown|].
    by intros ->.
  - destruct (match build_targets _ with Some t => _ | None => _ end) as [targets|e];
      [|discriminate].
    unfold mbind, result_bind. cbv beta iota zeta.
    destruct (bool_decide (unknown_targets targets = [])) eqn:Hunk; [|discriminate].
    apply bool_decide_eq_true in Hunk. cbn [negb].
    destruct (Py.mem "MBlaze" targets) eqn:Hmb; [discriminate|].
    intros [= <-]. repeat split; auto. exists targets. split; [done|].
    apply mem_not_elem_of in Hmb. pose proof (unknown_targets_nil _ Hunk) as Hknown.
    rewrite Forall_forall in Hknown |- *. intros t Hin. split; [by apply Hknown|].
    by intros ->.
Qed.

Lemma init_returns_validated_witness :
  exists s, __init__ (Example.host false 0) (Example.easyblock "LLVMruntimes" "18.1.8")
              (Example.easyconfig false None ["CUDA"]) = Ok s
            /\ build_targets (cfg s) = Some ["X86"; "NVPTX"]
            /\ configopts (cfg s) = ["-DPython3_FIND_VIRTUALENV=STANDARD"].
Proof.
  destruct (__init__ (Example.host false 0) (Example.easyblock "LLVMruntimes" "18.1.8")
              (Example.easyconfig false None ["CUDA"])) as [s|e] eqn:Hinit;
    [| by vm_compute in Hinit].
  destruct (init_returns_validated _ _ _ _ Hinit) as (_ & _ & _ & Hopts & _).
  exists s. split; [reflexivity|]. split; [|exact Hopts].
  vm_compute in Hinit. by injection Hinit as <-.
Defined.

(** ** What no step undoes *)

Lemma configure_step_stable h : frames stable (configure_step h).
Proof. unfold configure_step. frames_with stable_solver. Qed.

Lemma build_with_prev_stage_stable h prev_obj next_obj :
  frames stable (build_with_prev_stage h prev_obj next_obj).
Proof. unfold build_with_prev_stage. frames_with stable_solver. Qed.

Lemma build_step_stable h : frames stable (build_step h).
Proof.
  pose proof (build_with_prev_stage_stable h) as Hstage.
  unfold build_step. frames_with stable_solver.
Qed.

Lemma test_step_stable h : frames stable (test_step h).
Proof. unfold test_step. frames_with stable_solver. Qed.

Lemma install_step_stable h : frames stable (install_step h).
Proof. unfold install_step. frames_with stable_solver. Qed.

Lemma sanity_check_step_stable h : frames stable (sanity_check_step h).
Proof. unfold sanity_check_step. frames_with stable_solver. Qed.

(** X2. Whatever its outcome, no step removes or reorders a configure
    option that is already there, changes a parameter of the easyconfig
    other than the configure options and the sanity-check paths, changes
    the project name or the source directories of the object, or drops an
    event of the trace. *)
Theorem steps_only_extend (h : Host) (st : State) :
  stable st (configure_step h st).2
  /\ stable st (build_step h st).2
  /\ stable st (test_step h st).2
  /\ stable st (install_step h st).2
  /\ stable st (sanity_check_step h st).2.
Proof.
  repeat apply conj.
  - apply configure_step_stable.
  - apply build_step_stable.
  - apply test_step_stable.
  - apply install_step_stable.
  - apply sanity_check_step_stable.
Qed.

(** ** The environment that [configure_step] leaves *)

Lemma profiles_keep {T} (f : World -> T) h :
  frames (keeps (fun st => f (world st))) (_flang_config h)
  /\ frames (keeps (fun st => f (world st))) (_polly_config h)
  /\ frames (keeps (fun st => f (world st))) (_mlir_config h)
  /\ frames (keeps (fun st => f (world st))) (_runtimes_config h)
  /\ frames (keeps (fun st => f (world st))) (_lld_config h)
  /\ frames (keeps (fun st => f (world st))) (_lldb_config h)
  /\ frames (keeps (fun st => f (world st))) (_compiler_rt_config h).
Proof.
  repeat apply conj.
  - unfold _flang_config. frames_with keeps_solver.
  - unfold _polly_config. frames_with keeps_solver.
  - unfold _mlir_config. frames_with keeps_solver.
  - unfold _runtimes_config. frames_with keeps_solver.
  - unfold _lld_config. frames_with keeps_solver.
  - unfold _lldb_config. frames_with keeps_solver.
  - unfold _compiler_rt_config. frames_with keeps_solver.
Qed.

Lemma clang_config_keeps_environ h :
  frames (keeps (fun st => environ (world st))) (_clang_config h).
Proof. unfold _clang_config. frames_with keeps_solver. Qed.

Lemma dispatch_keeps_environ h project :
  frames (keeps (fun st => environ (world st)))
    (match configure_func project with
     | Some func => func h
     | None => mret tt
     end).
Proof.
  destruct (profiles_keep environ h) as (? & ? & ? & ? & ? & ? & ?).
  pose proof (clang_config_keeps_environ h).
  unfold configure_func.
  repeat (destruct (String.eqb _ _); [assumption|]).
  by apply frames_read; [tc_solve|].
Qed.

Lemma sibling_cmake_dirs_keeps_environ h :
  frames (keeps (fun st => environ (world st))) (sibling_cmake_dirs h).
Proof. unfold sibling_cmake_dirs. frames_with keeps_solver. Qed.

Lemma nvptx_keeps_environ h :
  frames (keeps (fun st => environ (world st))) (nvptx_offload_config h).
Proof. unfold nvptx_offload_config. frames_with keeps_solver. Qed.

Lemma amdgpu_keeps_environ h :
  frames (keeps (fun st => environ (world st))) (amdgpu_offload_config h).
Proof. unfold amdgpu_offload_config. frames_with keeps_solver. Qed.

Lemma keeps_environ_but key {A} (m : M A) :
  frames (keeps (fun st => environ (world st))) m -> frames (environ_but key) m.
Proof. intros Hm st k _. by rewrite (Hm st). Qed.

#[global] Hint Resolve dispatch_keeps_environ sibling_cmake_dirs_keeps_environ
  nvptx_keeps_environ amdgpu_keeps_environ : steps.
#[global] Hint Resolve keeps_environ_but | 10 : steps.

Lemma configure_step_environ_but h :
  frames (environ_but "CUDA_NVCC_EXECUTABLE") (configure_step h).
Proof. unfold configure_step. frames_with environ_but_solver. Qed.

Lemma configure_step_keeps_environ_with_cuda h :
  Py.truthy (get_software_root h "CUDA") = true ->
  frames (keeps (fun st => environ (world st))) (configure_step h).
Proof.
  intros Hcuda. unfold configure_step, when. rewrite Hcuda. cbn [negb].
  cbv beta iota zeta. frames_with keeps_solver.
Qed.

Lemma configure_step_ignores_nvcc h st :
  Py.truthy (get_software_root h "CUDA") = false ->
  wp (configure_step h) st (fun _ st' =>
    environ (world st') !! "CUDA_NVCC_EXECUTABLE" = Some "IGNORE").
Proof.
  intros Hcuda. unfold configure_step. destruct (negb _); [apply wp_raise|]. cbv zeta.
  wp_any. wp_read. do 6 wp_any. wp_read. do 9 wp_any.
  rewrite Hcuda. cbn [negb when].
  apply wp_bind, wp_run. intros ? st1 Hrun. rewrite setvar_run in Hrun.
  injection Hrun as _ <-.
  apply (wp_frames (keeps (fun st => environ (world st))));
    [frames_with keeps_solver|].
  intros _ st2 Hst2. unfold keeps in Hst2. rewrite Hst2. cbn.
  apply lookup_insert_eq.
Qed.

(** ** What [configure_step] asks of the outside *)

Global Instance appends_preorder P : PreOrder (appends P).
Proof.
  split.
  - intros st. exists []. by rewrite app_nil_r.
  - intros st1 st2 st3 (evs1 & H1 & HP1) (evs2 & H2 & HP2). exists (evs1 ++ evs2).
    split; [by rewrite H2, H1, app_assoc | by apply Forall_app].
Qed.

Lemma appends_mono (P Q : Event -> Prop) {A} (m : M A) :
  (forall ev, P ev -> Q ev) -> frames (appends P) m -> frames (appends Q) m.
Proof.
  intros HPQ Hm st. destruct (Hm st) as (evs & Htrace & HP). exists evs.
  split; [done|]. by apply (Forall_impl P).
Qed.

Ltac appends_solver :=
  cbn; repeat case_match; cbn;
  first [ by exists []; rewrite app_nil_r
        | eexists [_]; split; [reflexivity | by repeat constructor] ].

Lemma profiles_warn h :
  frames (appends is_warning) (_clang_config h)
  /\ frames (appends is_warning) (_flang_config h)
  /\ frames (appends is_warning) (_polly_config h)
  /\ frames (appends is_warning) (_mlir_config h)
  /\ frames (appends is_warning) (_runtimes_config h)
  /\ frames (appends is_warning) (_lld_config h)
  /\ frames (appends is_warning) (_lldb_config h)
  /\ frames (appends is_warning) (_compiler_rt_config h).
Proof.
  repeat apply conj.
  - unfold _clang_config. frames_with appends_solver.
  - unfold _flang_config. frames_with appends_solver.
  - unfold _polly_config. frames_with appends_solver.
  - unfold _mlir_config. frames_with appends_solver.
  - unfold _runtimes_config. frames_with appends_solver.
  - unfold _lld_config. frames_with appends_solver.
  - unfold _lldb_config. frames_with appends_solver.
  - unfold _compiler_rt_config. frames_with appends_solver.
Qed.

Lemma dispatch_warns h project :
  frames (appends is_warning)
    (match configure_func project with
     | Some func => func h
     | None => mret tt
     end).
Proof.
  destruct (profiles_warn h) as (? & ? & ? & ? & ? & ? & ? & ?).
  unfold configure_func.
  repeat (destruct (String.eqb _ _); [assumption|]).
  by apply frames_read; [tc_solve|].
Qed.

Lemma sibling_cmake_dirs_warns h : frames (appends is_warning) (sibling_cmake_dirs h).
Proof. unfold sibling_cmake_dirs. frames_with appends_solver. Qed.

Lemma nvptx_warns h : frames (appends is_warning) (nvptx_offload_config h).
Proof. unfold nvptx_offload_config. frames_with appends_solver. Qed.

Lemma amdgpu_warns h : frames (appends is_warning) (amdgpu_offload_config h).
Proof. unfold amdgpu_offload_config. frames_with appends_solver. Qed.

Lemma warning_is_preparation ev : is_warning ev -> is_preparation ev.
Proof. by destruct ev. Qed.

Lemma blocks_prepare h :
  (forall project,
     frames (appends is_preparation)
       (match configure_func project with
        | Some func => func h
        | None => mret tt
        end))
  /\ frames (appends is_preparation) (sibling_cmake_dirs h)
  /\ frames (appends is_preparation) (nvptx_offload_config h)
  /\ frames (appends is_preparation) (amdgpu_offload_config h).
Proof.
  repeat apply conj; [intros project|..];
    apply (appends_mono is_warning); auto using warning_is_preparation,
      dispatch_warns, sibling_cmake_dirs_warns, nvptx_warns, amdgpu_warns.
Qed.

Ltac prepares_solver := split; [stable_solver | appends_solver].

Lemma configure_step_before_cmake h st :
  wp (configure_step h) st (fun _ st' =>
    exists evs,
      trace (world st')
      = trace (world st) ++ evs
          ++ [EvConfigure (srcdir (self st)) (configopts (cfg (self st')))]
      /\ Forall is_preparation evs
      /\ super_configure_ok h (mkWorld (environ (world st')) (trace (world st) ++ evs))
           (srcdir (self st)) (configopts (cfg (self st'))) = true).
Proof.
  destruct (blocks_prepare h) as (Hdispatch & Hsibling & Hnvptx & Hamdgpu).
  pose proof (fun project => frames_both _ _ _ (dispatch_stable h project)
                               (Hdispatch project)) as Hd.
  pose proof (frames_both _ _ _ (frames_quiet_stable _ (sibling_cmake_dirs_quiet h))
                Hsibling) as Hs.
  pose proof (frames_both _ _ _ (frames_quiet_stable _ (nvptx_offload_config_quiet h))
                Hnvptx) as Hn.
  pose proof (frames_both _ _ _ (frames_quiet_stable _ (amdgpu_offload_config_quiet h))
                Hamdgpu) as Ha.
  unfold configure_step. destruct (negb _); [apply wp_raise|]. cbv zeta.
  wp_skip (both stable (appends is_preparation)) prepares_solver. wp_read.
  do 6 wp_skip (both stable (appends is_preparation)) prepares_solver. wp_read.
  do 11 wp_skip (both stable (appends is_preparation)) prepares_solver.
  wp_read. wp_read.
  apply wp_bind, wp_run. intros ? st1 Hrun. rewrite emit_run in Hrun.
  injection Hrun as _ <-.
  destruct Hrel as [Hstable (evs & Htrace & Hevs)].
  destruct (super_configure_ok _ _ _ _) eqn:Hok; [|apply wp_raise].
  apply wp_ret. exists evs. cbn [self world trace environ].
  rewrite (stable_srcdir _ _ Hstable) in *. rewrite Htrace, <- app_assoc.
  split; [done|]. split; [done|].
  rewrite <- Hok. f_equal. destruct (world _) as [env tr]; cbn in *. by subst.
Qed.

Lemma configure_step_appends h :
  frames (appends (fun ev => is_preparation ev \/ is_configure ev)) (configure_step h).
Proof.
  destruct (blocks_prepare h) as (Hdispatch & Hsibling & Hnvptx & Hamdgpu).
  pose proof (fun project =>
                appends_mono _ (fun ev => is_preparation ev \/ is_configure ev) _
                  (fun ev => @or_introl _ _) (Hdispatch project)) as Hd.
  pose proof (appends_mono _ (fun ev => is_preparation ev \/ is_configure ev) _
                (fun ev => @or_introl _ _) Hsibling) as Hs.
  pose proof (appends_mono _ (fun ev => is_preparation ev \/ is_configure ev) _
                (fun ev => @or_introl _ _) Hnvptx) as Hn.
  pose proof (appends_mono _ (fun ev => is_preparation ev \/ is_configure ev) _
                (fun ev => @or_introl _ _) Hamdgpu) as Ha.
  unfold configure_step.
  frames_with ltac:(first [ appends_solver
                          | eexists [_]; split; [reflexivity | repeat constructor; cbn; tauto] ]).
Qed.

(** X4. [configure_step] asks nothing of the outside but to make and enter
    directories, to print warnings and to run the generic CMake
    configuration: it runs no command, makes no link and builds nothing,
    whatever its outcome. When it returns, the CMake configuration is the
    last thing it asked for and the only one; it was asked for the source
    directory the object had at the start and handed every configure option
    the object holds at the end. *)
Theorem configure_step_runs_cmake_last (h : Host) (st : State) :
  appends (fun ev => is_preparation ev \/ is_configure ev) st (configure_step h st).2
  /\ forall st', configure_step h st = (Ok tt, st') ->
       exists evs,
         trace (world st')
         = trace (world st) ++ evs
             ++ [EvConfigure (srcdir (self st)) (configopts (cfg (self st')))]
         /\ Forall is_preparation evs
         /\ super_configure_ok h (mkWorld (environ (world st')) (trace (world st) ++ evs))
              (srcdir (self st)) (configopts (cfg (self st'))) = true.
Proof.
  split; [apply configure_step_appends|]. intros st' Hrun.
  exact (wp_elim _ _ _ _ _ (configure_step_before_cmake h st) Hrun).
Qed.

(** ** The environment in which CMake is configured *)

(** X3. Up to its call of the generic configuration, [configure_step]
    writes one variable of the environment at most: [CUDA_NVCC_EXECUTABLE].
    So when the step returns, the world in which the generic configuration
    was called has every other variable as at the start of the step; with
    CUDA installed its whole environment is as at the start, and without
    CUDA the variable is [IGNORE] in it. When the step stops on an error
    that is not the generic configuration's, every other variable is as at
    the start, and with CUDA installed so is the whole environment. *)
Theorem configure_step_environment (h : Host) (st : State) :
  (forall st', configure_step h st = (Ok tt, st') ->
     exists w evs,
       trace w = trace (world st) ++ evs /\ Forall is_preparation evs
       /\ super_configure_ok h w (srcdir (self st)) (configopts (cfg (self st'))) = true
       /\ (forall k, k <> "CUDA_NVCC_EXECUTABLE" ->
             environ w !! k = environ (world st) !! k)
       /\ (Py.truthy (get_software_root h "CUDA") = true ->
             environ w = environ (world st))
       /\ (Py.truthy (get_software_root h "CUDA") = false ->
             environ w !! "CUDA_NVCC_EXECUTABLE" = Some "IGNORE"))
  /\ (forall e, (configure_step h st).1 = Raise e ->
        e <> FrameworkError "configure_step" ->
        (forall k, k <> "CUDA_NVCC_EXECUTABLE" ->
           environ (world (configure_step h st).2) !! k = environ (world st) !! k)
        /\ (Py.truthy (get_software_root h "CUDA") = true ->
              environ (world (configure_step h st).2) = environ (world st))).
Proof.
  split.
  - intros st' Hrun.
    destruct (wp_elim _ _ _ _ _ (configure_step_before_cmake h st) Hrun)
      as (evs & _ & Hevs & Hok).
    pose proof (configure_step_environ_but h st) as Hbut.
    pose proof (fun Hcuda => configure_step_keeps_environ_with_cuda h Hcuda st) as Hkeep.
    pose proof (fun Hcuda =>
                  wp_elim _ _ _ _ _ (configure_step_ignores_nvcc h st Hcuda) Hrun) as Hnvcc.
    rewrite Hrun in Hbut, Hkeep. cbn [snd] in Hbut, Hkeep.
    exists (mkWorld (environ (world st')) (trace (world st) ++ evs)), evs.
    cbn [environ trace]. repeat (split; [done|]). done.
  - intros e _ _. split.
    + apply configure_step_environ_but.
    + intros Hcuda. by apply configure_step_keeps_environ_with_cuda.
Qed.

Lemma configure_step_environment_witness :
  exists st' w,
    configure_step (Example.host false 0)
      (mkState Example.stage_self Example.world) = (Ok tt, st')
    /\ super_configure_ok (Example.host false 0) w "/build/clang"
         (configopts (cfg (self st'))) = true
    /\ environ w !! "CUDA_NVCC_EXECUTABLE" = Some "IGNORE"
    /\ environ w !! "PATH" = Some "/usr/bin".
Proof.
  destruct (configure_step_environment (Example.host false 0)
              (mkState Example.stage_self Example.world)) as [Hcall _].
  destruct (configure_step (Example.host false 0)
              (mkState Example.stage_self Example.world))
    as [[[]|e] st'] eqn:Hrun; [| by vm_compute in Hrun].
  destruct (Hcall st' eq_refl) as (w & evs & _ & _ & Hok & Hbut & _ & Hnvcc).
  exists st', w. split; [reflexivity|]. split; [exact Hok|].
  split; [by apply Hnvcc|]. by rewrite Hbut.
Defined.

(** ** The stage directories and the expectations after [configure_step] *)

Lemma quiet_keeps_checks {A} (m : M A) : frames quiet m -> frames (keeps checks) m.
Proof. intros Hm st. destruct (Hm st). unfold keeps, checks. congruence. Qed.

Lemma quiet_keeps_stage_dirs {A} (m : M A) : frames quiet m -> frames (keeps stage_dirs) m.
Proof. intros Hm st. destruct (Hm st). unfold keeps, stage_dirs. congruence. Qed.

#[global] Hint Resolve quiet_keeps_checks quiet_keeps_stage_dirs | 10 : steps.

Lemma dispatch_keeps_stage_dirs h project :
  frames (keeps stage_dirs)
    (match configure_func project with
     | Some func => func h
     | None => mret tt
     end).
Proof.
  unfold configure_func.
  repeat (destruct (String.eqb _ _); [|]); [..|by apply frames_read; [tc_solve|]].
  - unfold _clang_config. frames_with keeps_solver.
  - unfold _flang_config. frames_with keeps_solver.
  - unfold _polly_config. frames_with keeps_solver.
  - unfold _mlir_config. frames_with keeps_solver.
  - unfold _runtimes_config. frames_with keeps_solver.
  - unfold _lld_config. frames_with keeps_solver.
  - unfold _lldb_config. frames_with keeps_solver.
  - unfold _compiler_rt_config. frames_with keeps_solver.
Qed.

Lemma append_inj_l (d a b : string) : d +:+ a = d +:+ b -> a = b.
Proof. induction d as [|c d IH]; [done|]. intros [= H]. by apply IH. Qed.

Lemma path_join_relative_inj (d a b : string) :
  Py.startswith a "/" = false -> Py.startswith b "/" = false ->
  Py.path_join d a = Py.path_join d b -> a = b.
Proof.
  unfold Py.path_join. intros -> ->. destruct (_ || _).
  - apply append_inj_l.
  - intros H. apply append_inj_l in H. by injection H.
Qed.

Lemma configure_step_sets_stage_dirs h st :
  wp (configure_step h) st (fun _ st' =>
    stage_dirs st'
    = (Some (Py.path_join (builddir (eb (self st))) "llvm.obj.1"),
       if bootstrap (cfg (self st))
       then Some (Py.path_join (builddir (eb (self st))) "llvm.obj.2")
       else llvm_obj_dir_stage2 (self st),
       if bootstrap (cfg (self st))
       then Some (Py.path_join (builddir (eb (self st))) "llvm.obj.3")
       else llvm_obj_dir_stage3 (self st))).
Proof.
  pose proof (dispatch_keeps_stage_dirs h) as Hdispatch.
  unfold configure_step. destruct (negb _); [apply wp_raise|]. cbv zeta.
  wp_skip quiet quiet_solver. wp_read.
  rewrite (stable_eb _ _ (quiet_stable _ _ Hrel)).
  do 2 wp_skip quiet quiet_solver.
  apply wp_bind, wp_run. intros ? st1 Hrun. rewrite modify_run in Hrun.
  injection Hrun as _ <-.
  apply (wp_frames (keeps stage_dirs)); [frames_with keeps_solver|].
  intros _ st2 ->. destruct Hrel as [Hstable _ H2 H3 _ _ _ _].
  rewrite (stable_bootstrap _ _ Hstable), (stable_eb _ _ Hstable).
  unfold stage_dirs. cbn [self]. rewrite <- H2, <- H3.
  by destruct (bootstrap _).
Qed.

(** X5. When [configure_step] returns, the stage-1 directory of the object
    is [llvm.obj.1] under the build directory. With [bootstrap] the stage-2
    and stage-3 directories are [llvm.obj.2] and [llvm.obj.3] under it, and
    the three are different directories; without [bootstrap] the stage-2
    and stage-3 directories are what they were. *)
Theorem configure_step_stage_dirs (h : Host) (st st' : State) :
  configure_step h st = (Ok tt, st') ->
  let dir n := Py.path_join (builddir (eb (self st))) ("llvm.obj." +:+ n) in
  llvm_obj_dir_stage1 (self st') = Some (dir "1")
  /\ (bootstrap (cfg (self st)) = true ->
        llvm_obj_dir_stage2 (self st') = Some (dir "2")
        /\ llvm_obj_dir_stage3 (self st') = Some (dir "3")
        /\ dir "1" <> dir "2" /\ dir "2" <> dir "3" /\ dir "1" <> dir "3")
  /\ (bootstrap (cfg (self st)) = false ->
        llvm_obj_dir_stage2 (self st') = llvm_obj_dir_stage2 (self st)
        /\ llvm_obj_dir_stage3 (self st') = llvm_obj_dir_stage3 (self st)).
Proof.
  intros Hrun dir.
  pose proof (wp_elim _ _ _ _ _ (configure_step_sets_stage_dirs h st) Hrun) as Hdirs.
  unfold stage_dirs in Hdirs. injection Hdirs as H1 H2 H3.
  split; [done|]. split; intros Hboot; rewrite Hboot in H2, H3.
  - repeat split; [done..| | |]; intros Heq;
      by apply path_join_relative_inj in Heq.
  - done.
Qed.

Lemma configure_step_stage_dirs_witness :
  exists st',
    configure_step (Example.host false 0)
      (mkState (set_obj_dirs None None None Example.stage_self) Example.world)
    = (Ok tt, st')
    /\ stage_dirs st'
       = (Some "/build/llvm.obj.1", Some "/build/llvm.obj.2", Some "/build/llvm.obj.3").
Proof.
  destruct (configure_step (Example.host false 0)
              (mkState (set_obj_dirs None None None Example.stage_self) Example.world))
    as [[[]|e] st'] eqn:Hrun; [| by vm_compute in Hrun].
  exists st'. split; [reflexivity|].
  destruct (configure_step_stage_dirs _ _ _ Hrun) as (H1 & H23 & _).
  destruct (H23 eq_refl) as (H2 & H3 & _).
  unfold stage_dirs. by rewrite H1, H2, H3.
Defined.

Lemma configure_step_unknown_project h st :
  configure_func (project_name (self st)) = None ->
  wp (configure_step h) st (fun _ st' => checks st' = checks st).
Proof.
  intros Hnone.
  unfold configure_step. destruct (negb _); [apply wp_raise|]. cbv zeta.
  wp_skip quiet quiet_solver. wp_read.
  rewrite (stable_project _ _ (quiet_stable _ _ Hrel)), Hnone.
  apply (wp_frames (keeps checks)); [frames_with keeps_solver|].
  intros _ st2 ->. destruct Hrel. unfold checks. congruence.
Qed.

(** X6. For a project that has no profile, [configure_step] leaves the
    expected files, directories and commands and the test targets of the
    object as they were. *)
Theorem unknown_project_expects_nothing (h : Host) (st st' : State) :
  configure_func (project_name (self st)) = None ->
  configure_step h st = (Ok tt, st') ->
  checks st' = checks st.
Proof.
  intros Hnone Hrun.
  exact (wp_elim _ _ _ _ _ (configure_step_unknown_project h st Hnone) Hrun).
Qed.

Lemma unknown_project_expects_nothing_witness :
  exists s st',
    __init__ (Example.host false 0) (Example.easyblock "LLVMbolt" "18.1.8")
      (Example.easyconfig false None []) = Ok s
    /\ project_name s = "bolt"
    /\ configure_step (Example.host false 0) (mkState s Example.world) = (Ok tt, st')
    /\ checks st' = ([], [], [], []).
Proof.
  destruct (__init__ (Example.host false 0) (Example.easyblock "LLVMbolt" "18.1.8")
              (Example.easyconfig false None [])) as [s|e] eqn:Hinit;
    [| by vm_compute in Hinit].
  vm_compute in Hinit. injection Hinit as <-.
  match goal with
  | |- exists s st', Ok ?s0 = Ok s /\ _ =>
      destruct (configure_step (Example.host false 0) (mkState s0 Example.world))
        as [[[]|e] st'] eqn:Hrun; [| by vm_compute in Hrun];
      exists s0, st'
  end.
  split; [reflexivity|]. split; [reflexivity|]. split; [exact Hrun|].
  refine (eq_trans (unknown_project_expects_nothing _ _ _ _ Hrun) _); reflexivity.
Defined.

(** ** The outcome of the profiles *)

Lemma returns_bind {A B} (m : M A) (f : A -> M B) :
  returns m -> (forall a, returns (f a)) -> returns (m ≫= f).
Proof.
  intros Hm Hf st. destruct (Hm st) as (a & st1 & Hrun).
  destruct (Hf a st1) as (b & st2 & Hrun'). exists b, st2.
  by rewrite bind_run, Hrun.
Qed.

Lemma returns_when (b : bool) (m : M unit) : returns m -> returns (when b m).
Proof. intros Hm. destruct b; [done|]. intros st. by exists tt, st. Qed.

Lemma returns_for_each {A} (l : list A) (body : A -> M unit) :
  (forall x, returns (body x)) -> returns (for_each l body).
Proof.
  intros Hb. induction l as [|x l IH]; simpl.
  - intros st. by exists tt, st.
  - by apply returns_bind.
Qed.

Lemma returns_unit (m : M unit) (st : State) : returns m -> (m st).1 = Ok tt.
Proof. intros Hm. destruct (Hm st) as ([] & st' & ->). done. Qed.

Lemma bind_returns_outcome {A B} (m : M A) (f : A -> M B) (st : State) :
  returns m -> exists a st', m st = (Ok a, st') /\ (m ≫= f) st = f a st'.
Proof.
  intros Hm. destruct (Hm st) as (a & st' & Hrun). exists a, st'.
  by rewrite bind_run, Hrun.
Qed.

Ltac returns_go :=
  lazymatch goal with
  | |- returns (mbind _ _) =>
      apply returns_bind; [returns_go | intros ?; returns_go]
  | |- returns (when _ _) => apply returns_when; returns_go
  | |- returns (for_each _ _) => apply returns_for_each; intros ?; returns_go
  | |- returns (if ?b then _ else _) => destruct b; returns_go
  | |- returns (mret _) => intros ?; eexists _, _; reflexivity
  | |- returns get_self => intros ?; eexists _, _; reflexivity
  | |- returns get_world => intros ?; eexists _, _; reflexivity
  | |- returns (getenv _) => intros ?; eexists _, _; reflexivity
  | |- returns (emit _) => intros ?; eexists _, _; reflexivity
  | |- returns (modify _) => intros ?; eexists _, _; reflexivity
  | |- returns (setvar _ _) => intros ?; eexists _, _; reflexivity
  | |- returns (set_environ _) => intros ?; eexists _, _; reflexivity
  end.

Ltac returns_with := autounfold with steps; cbv zeta; returns_go.

Lemma require_root_found h dep msg root :
  get_software_root h dep = Some root -> require_root h dep msg = mret root.
Proof. unfold require_root. by intros ->. Qed.

Lemma require_root_missing {B} h dep msg (f : string -> M B) st :
  get_software_root h dep = None ->
  (require_root h dep msg ≫= f) st = (Raise (EasyBuildError msg), st).
Proof. unfold require_root. by intros ->. Qed.

Lemma flang_config_outcome h st :
  (_flang_config h st).1
  = outcome_of_dependencies h ["lld"; "compiler-rt"] " is required to build Clang"
  /\ (first_missing h ["lld"; "compiler-rt"] <> None -> (_flang_config h st).2 = st).
Proof.
  unfold outcome_of_dependencies, first_missing, _flang_config. cbn [find].
  destruct (get_software_root h "lld") as [r1|] eqn:H1; cbn [negb];
    [|rewrite bool_decide_eq_false_2 by (by intros [? ?]); cbn [negb];
      by rewrite require_root_missing].
  rewrite bool_decide_eq_true_2 by done. cbn [negb].
  rewrite (require_root_found _ _ _ _ H1), ret_bind.
  destruct (get_software_root h "compiler-rt") as [r2|] eqn:H2; cbn [negb];
    [|rewrite bool_decide_eq_false_2 by (by intros [? ?]); cbn [negb];
      by rewrite require_root_missing].
  rewrite bool_decide_eq_true_2 by done. cbn [negb].
  rewrite (require_root_found _ _ _ _ H2), ret_bind.
  split; [|done]. apply returns_unit. returns_with.
Qed.

(** One step that returns from every state, taken out of the way. *)
Ltac run_step :=
  match goal with
  | |- context [(?m ≫= ?f) ?st] =>
      let H := fresh in
      assert (returns m) as H by returns_with;
      destruct (bind_returns_outcome m f st H) as (? & ? & _ & ->); clear H;
      cbv beta
  end.

Ltac dependency_found H :=
  rewrite bool_decide_eq_true_2 by done; cbn [negb];
  rewrite (require_root_found _ _ _ _ H), ret_bind.

Ltac dependency_missing :=
  rewrite bool_decide_eq_false_2 by (by intros [? ?]); cbn [negb];
  by rewrite require_root_missing.

Lemma clang_config_outcome h st :
  (_clang_config h st).1 = outcome_of_clang_config h
  /\ (first_missing h ["LLVMruntimes"; "lld"; "compiler-rt"] <> None ->
        (_clang_config h st).2 = st).
Proof.
  unfold outcome_of_clang_config, first_missing, _clang_config. cbn [find].
  destruct (get_software_root h "LLVMruntimes") as [r1|] eqn:H1;
    [dependency_found H1 | dependency_missing].
  destruct (get_software_root h "lld") as [r2|] eqn:H2;
    [dependency_found H2 | dependency_missing].
  destruct (get_software_root h "compiler-rt") as [r3|] eqn:H3;
    [dependency_found H3 | dependency_missing].
  split; [|done]. do 9 run_step.
  destruct (get_software_root h "GCCcore") as [p|] eqn:Hcore.
  { rewrite ret_bind. apply returns_unit. returns_with. }
  destruct (get_software_root h "GCC") as [p|] eqn:Hgcc.
  { rewrite (require_root_found _ _ _ _ Hgcc), ret_bind. apply returns_unit.
    returns_with. }
  by rewrite require_root_missing.
Qed.

Lemma runtimes_config_outcome h st :
  (_runtimes_config h st).1
  = outcome_of_dependencies h ["compiler-rt"] " is required to build LLVMruntimes"
  /\ (get_software_root h "compiler-rt" = None ->
        test_targets (self (_runtimes_config h st).2)
        = ["check-runtimes"; "check-unwind"; "check-cxx"; "check-cxxabi"]
        /\ configopts (cfg (self (_runtimes_config h st).2))
           = configopts (cfg (self st))
               ++ ["-DLLVM_ENABLE_RUNTIMES='libunwind;libcxxabi;libcxx'";
                   "-DLIBCXX_INCLUDE_BENCHMARKS=OFF";
                   "-DCXX_SUPPORTS_NOSTDLIBXX_FLAG=OFF"]
        /\ check_files (self (_runtimes_config h st).2) = check_files (self st)
        /\ check_dirs (self (_runtimes_config h st).2) = check_dirs (self st)).
Proof.
  unfold outcome_of_dependencies, first_missing, _runtimes_config. cbn [find].
  destruct (get_software_root h "compiler-rt") as [r|] eqn:Hrt.
  - rewrite bool_decide_eq_true_2 by done. cbn [negb]. split; [|done].
    rewrite (require_root_found _ _ _ _ Hrt). apply returns_unit. returns_with.
  - rewrite bool_decide_eq_false_2 by (by intros [? ?]). cbn [negb].
    unfold require_root. rewrite Hrt. split; [done|]. intros _.
    cbv [mbind M_bind assign_test_targets update_configopts modify raise]. cbn.
    by rewrite <- !app_assoc.
Qed.

(** X7. What the profiles with dependencies can end in. The Flang profile
    fails on the first of [lld] and [compiler-rt] that is not installed,
    with a message that speaks of Clang, and returns otherwise. The Clang
    profile fails on the first of [LLVMruntimes], [lld] and [compiler-rt]
    that is not installed, then, after everything else is set, when
    neither [GCCcore] nor [GCC] is installed, and returns otherwise. A
    missing dependency is noticed before either profile has changed
    anything. The runtimes profile fails when [compiler-rt] is not
    installed and returns otherwise, but it checks late: the test targets
    and three configure options are already set when it fails. *)
Theorem profile_outcomes (h : Host) (st : State) :
  (_flang_config h st).1
  = outcome_of_dependencies h ["lld"; "compiler-rt"] " is required to build Clang"
  /\ (first_missing h ["lld"; "compiler-rt"] <> None -> (_flang_config h st).2 = st)
  /\ (_clang_config h st).1 = outcome_of_clang_config h
  /\ (first_missing h ["LLVMruntimes"; "lld"; "compiler-rt"] <> None ->
        (_clang_config h st).2 = st)
  /\ (_runtimes_config h st).1
     = outcome_of_dependencies h ["compiler-rt"] " is required to build LLVMruntimes"
  /\ (get_software_root h "compiler-rt" = None ->
        test_targets (self (_runtimes_config h st).2)
        = ["check-runtimes"; "check-unwind"; "check-cxx"; "check-cxxabi"]
        /\ configopts (cfg (self (_runtimes_config h st).2))
           = configopts (cfg (self st))
               ++ ["-DLLVM_ENABLE_RUNTIMES='libunwind;libcxxabi;libcxx'";
                   "-DLIBCXX_INCLUDE_BENCHMARKS=OFF";
                   "-DCXX_SUPPORTS_NOSTDLIBXX_FLAG=OFF"]
        /\ check_files (self (_runtimes_config h st).2) = check_files (self st)
        /\ check_dirs (self (_runtimes_config h st).2) = check_dirs (self st)).
Proof.
  destruct (flang_config_outcome h st) as [Hflang Hflang'].
  destruct (clang_config_outcome h st) as [Hclang Hclang'].
  destruct (runtimes_config_outcome h st) as [Hruntimes Hruntimes'].
  by repeat apply conj.
Qed.

(** ** The Clang profile: tests and the GCC prefix *)

Ltac extends_solver := split; [stable_solver | keeps_solver].

Lemma clang_config_details h st :
  wp (_clang_config h) st (fun _ st' =>
    (if Py.truthy (which h (world st) "llvm-gtest")
     then test_targets (self st') = ["check-clang"]
          /\ "-DLLVM_INCLUDE_TESTS=ON" ∈ configopts (cfg (self st'))
          /\ trace (world st') = trace (world st)
     else test_targets (self st') = test_targets (self st)
          /\ "-DLLVM_INCLUDE_TESTS=OFF" ∈ configopts (cfg (self st'))
          /\ trace (world st')
             = trace (world st) ++ [EvWarning "llvm-gtest not found, disabling tests"])
    /\ exists gcc_prefix,
         (get_software_root h "GCCcore" = Some gcc_prefix
          \/ get_software_root h "GCCcore" = None
             /\ get_software_root h "GCC" = Some gcc_prefix)
         /\ ("-DGCC_INSTALL_PREFIX='" +:+ gcc_prefix +:+ "'")
              ∈ configopts (cfg (self st'))).
Proof.
  unfold _clang_config.
  do 3 wp_skip (keeps (fun st => (world st, test_targets (self st)))) keeps_solver.
  wp_read.
  do 6 wp_skip (keeps (fun st => (world st, test_targets (self st)))) keeps_solver.
  wp_read. injection Hrel as Hworld Htests. rewrite Hworld.
  apply wp_bind, wp_run. intros ? st1 Hrun1.
  apply wp_bind.
  destruct (get_software_root h "GCCcore") as [p|] eqn:Hcore;
    [ apply wp_ret
    | unfold require_root;
      destruct (get_software_root h "GCC") as [p|] eqn:Hgcc;
        [apply wp_ret | apply wp_raise] ].
  all: apply wp_bind, wp_run; intros ? st2 Hrun2;
    rewrite update_configopts_run in Hrun2; injection Hrun2 as _ <-;
    apply (wp_frames
             (both stable
                (keeps (fun st => (trace (world st), test_targets (self st))))));
    [frames_with extends_solver|]; intros _ st3 [Hstable Hkeep];
    injection Hkeep as Htrace3 Htests3; cbn [self world] in Htrace3, Htests3;
    pose proof (stable_configopts _ _ Hstable) as Hopts; cbn in Hopts.
  all: split;
    [ destruct (Py.truthy _); cbn [negb] in Hrun1;
      cbv [mbind M_bind print_warning emit update_configopts modify
           assign_test_targets] in Hrun1;
      injection Hrun1 as _ <-;
      cbn [self world cfg configopts test_targets trace set_cfg set_test_targets
           cfg_update_configopts set_configopts] in Htrace3, Htests3, Hopts;
      (split; [congruence|]);
      (split; [| by rewrite Htrace3, Hworld]);
      apply (prefix_elem_of _ _ _ Hopts), elem_of_app; left;
      apply elem_of_app; right; by left
    | exists p; split; [auto|];
      apply (prefix_elem_of _ _ _ Hopts), elem_of_app; right; by left ].
Qed.

(** X8. When the Clang profile returns: if [llvm-gtest] is found, the test
    targets are [check-clang] alone, the tests are included and nothing is
    reported; if it is not found, the test targets stay what they were, the
    tests are excluded and the only report is a warning. The GCC prefix
    handed to CMake is the root of [GCCcore] when that is installed, and
    the root of [GCC] only when it is not. *)
Theorem clang_config_tests_and_gcc (h : Host) (st st' : State) :
  _clang_config h st = (Ok tt, st') ->
  (if Py.truthy (which h (world st) "llvm-gtest")
   then test_targets (self st') = ["check-clang"]
        /\ "-DLLVM_INCLUDE_TESTS=ON" ∈ configopts (cfg (self st'))
        /\ trace (world st') = trace (world st)
   else test_targets (self st') = test_targets (self st)
        /\ "-DLLVM_INCLUDE_TESTS=OFF" ∈ configopts (cfg (self st'))
        /\ trace (world st')
           = trace (world st) ++ [EvWarning "llvm-gtest not found, disabling tests"])
  /\ exists gcc_prefix,
       (get_software_root h "GCCcore" = Some gcc_prefix
        \/ get_software_root h "GCCcore" = None
           /\ get_software_root h "GCC" = Some gcc_prefix)
       /\ ("-DGCC_INSTALL_PREFIX='" +:+ gcc_prefix +:+ "'")
            ∈ configopts (cfg (self st')).
Proof.
  intros Hrun. exact (wp_elim _ _ _ _ _ (clang_config_details h st) Hrun).
Qed.

Lemma clang_config_tests_and_gcc_witness :
  exists st',
    _clang_config (Example.host false 0) (mkState Example.stage_self Example.world)
    = (Ok tt, st')
    /\ test_targets (self st') = ["check-clang"]
    /\ "-DLLVM_INCLUDE_TESTS=ON" ∈ configopts (cfg (self st'))
    /\ "-DGCC_INSTALL_PREFIX='/sw/GCCcore'" ∈ configopts (cfg (self st')).
Proof.
  destruct (_clang_config (Example.host false 0)
              (mkState Example.stage_self Example.world))
    as [[[]|e] st'] eqn:Hrun; [| by vm_compute in Hrun].
  exists st'. split; [reflexivity|].
  destruct (clang_config_tests_and_gcc _ _ _ Hrun)
    as ((Htests & Hon & _) & p & [Hp|[Hp _]] & Hgcc); [|discriminate Hp].
  injection Hp as <-. done.
Defined.

(** ** The AMDGPU block *)

Lemma stable_amd_gfx_list st st' :
  stable st st' -> amd_gfx_list (cfg (self st')) = amd_gfx_list (cfg (self st)).
Proof. by apply (stable_static amd_gfx_list). Qed.

(** [configure_step] up to the AMDGPU block, and from it to the end. *)
Lemma configure_step_reaches_amdgpu h st (Q : State -> Prop) :
  in_build_targets "AMDGPU" (self st) = true ->
  (forall st1, stable st st1 ->
     wp (amdgpu_offload_config h) st1 (fun _ st2 =>
       forall st3, configopts (cfg (self st3)) = configopts (cfg (self st2)) -> Q st3)) ->
  wp (configure_step h) st (fun _ st' => Q st').
Proof.
  intros Hamd Hblock.
  unfold configure_step. destruct (negb _); [apply wp_raise|]. cbv zeta.
  wp_skip stable stable_solver. wp_read.
  do 6 wp_skip stable stable_solver.
  wp_read. rewrite (stable_in_build_targets "AMDGPU" _ _ Hrel), Hamd.
  do 10 wp_skip stable stable_solver.
  change (when true (amdgpu_offload_config h)) with (amdgpu_offload_config h).
  apply wp_bind. specialize (Hblock _ Hrel). unfold wp in Hblock |- *.
  destruct (amdgpu_offload_config h _) as [[[]|e] st2]; [|done].
  fold (wp (A := unit)).
  apply (wp_frames (keeps (fun st => configopts (cfg (self st)))));
    [frames_with keeps_solver|].
  intros _ st3 Hst3. by apply Hblock.
Qed.

Lemma amdgpu_without_rocr h st :
  Py.truthy (get_software_root h "ROCR-Runtime") = false ->
  amdgpu_offload_config h st = (Raise (EasyBuildError msg_no_rocr), st).
Proof.
  intros Hrocr. unfold amdgpu_offload_config.
  cbv [mbind M_bind get_self]. by rewrite Hrocr.
Qed.

Lemma amdgpu_without_gfx_list h st :
  Py.truthy (get_software_root h "ROCR-Runtime") = true ->
  list_truthy (amd_gfx_list (cfg (self st))) = false ->
  amdgpu_offload_config h st = (Raise (EasyBuildError msg_no_gfx_list), st).
Proof.
  intros Hrocr Hgfx. unfold amdgpu_offload_config.
  cbv [mbind M_bind get_self]. cbv zeta. cbn [self fst snd]. by rewrite Hrocr, Hgfx.
Qed.

Lemma amdgpu_with_gfx_list h st gfx :
  Py.truthy (get_software_root h "ROCR-Runtime") = true ->
  amd_gfx_list (cfg (self st)) = Some gfx -> gfx <> [] ->
  exists st',
    amdgpu_offload_config h st = (Ok tt, st')
    /\ configopts (cfg (self st')) = configopts (cfg (self st)) ++ [gfx_list_flag gfx].
Proof.
  intros Hrocr Hgfx Hne. unfold amdgpu_offload_config.
  cbv [mbind M_bind get_self]. cbv zeta. cbn [self fst snd]. rewrite Hrocr, Hgfx.
  destruct gfx as [|g gfx]; [done|]. cbn [negb list_truthy default].
  eexists. split; [reflexivity|]. done.
Qed.

(** X9. With [AMDGPU] among the build targets: if [ROCR-Runtime] is not
    installed, or if it is and the easyconfig gives no [amd_gfx_list], the
    AMDGPU block raises without changing anything and [configure_step]
    cannot return; if both are there and [configure_step] returns, the last
    configure option handed to CMake is the GFX list joined by spaces. *)
Theorem amdgpu_offload (h : Host) (st : State) :
  in_build_targets "AMDGPU" (self st) = true ->
  (Py.truthy (get_software_root h "ROCR-Runtime") = false ->
     amdgpu_offload_config h st = (Raise (EasyBuildError msg_no_rocr), st)
     /\ exists e, (configure_step h st).1 = Raise e)
  /\ (Py.truthy (get_software_root h "ROCR-Runtime") = true ->
      list_truthy (amd_gfx_list (cfg (self st))) = false ->
        amdgpu_offload_config h st = (Raise (EasyBuildError msg_no_gfx_list), st)
        /\ exists e, (configure_step h st).1 = Raise e)
  /\ (Py.truthy (get_software_root h "ROCR-Runtime") = true ->
      forall gfx, amd_gfx_list (cfg (self st)) = Some gfx -> gfx <> [] ->
      forall st', configure_step h st = (Ok tt, st') ->
        last (configopts (cfg (self st'))) = Some (gfx_list_flag gfx)
        /\ exists evs,
             trace (world st')
             = evs ++ [EvConfigure (srcdir (self st)) (configopts (cfg (self st')))]).
Proof.
  intros Hamd. repeat apply conj.
  - intros Hrocr. split; [by apply amdgpu_without_rocr|].
    apply wp_never, configure_step_reaches_amdgpu; [done|]. intros st1 _.
    unfold wp. by rewrite amdgpu_without_rocr.
  - intros Hrocr Hgfx. split; [by apply amdgpu_without_gfx_list|].
    apply wp_never, configure_step_reaches_amdgpu; [done|]. intros st1 Hst1.
    unfold wp. rewrite amdgpu_without_gfx_list; [done..|].
    by rewrite (stable_amd_gfx_list _ _ Hst1).
  - intros Hrocr gfx Hgfx Hne st' Hrun. split.
    + apply (wp_elim _ _ _ _ _
               (configure_step_reaches_amdgpu h st
                  (fun st3 => last (configopts (cfg (self st3))) = Some (gfx_list_flag gfx))
                  Hamd
                  ltac:(intros st1 Hst1;
                        destruct (amdgpu_with_gfx_list h st1 gfx Hrocr) as (st2 & Hrun2 & Hopts);
                          [by rewrite (stable_amd_gfx_list _ _ Hst1) | done |];
                        unfold wp; rewrite Hrun2; intros st3 ->; rewrite Hopts;
                        apply last_snoc)) Hrun).
    + destruct (wp_elim _ _ _ _ _ (configure_step_before_cmake h st) Hrun)
        as (evs & Htrace & _). exists (trace (world st) ++ evs).
      by rewrite Htrace, app_assoc.
Qed.

Lemma amdgpu_offload_witness :
  amdgpu_offload_config (Example.host false 0)
    (mkState (set_cfg (set_build_targets (Some ["X86"; "AMDGPU"])
                         (cfg Example.stage_self)) Example.stage_self)
       Example.world)
  = (Raise (EasyBuildError msg_no_rocr),
     mkState (set_cfg (set_build_targets (Some ["X86"; "AMDGPU"])
                         (cfg Example.stage_self)) Example.stage_self)
       Example.world)
  /\ exists e,
       (configure_step (Example.host false 0)
          (mkState (set_cfg (set_build_targets (Some ["X86"; "AMDGPU"])
                               (cfg Example.stage_self)) Example.stage_self)
             Example.world)).1 = Raise e.
Proof.
  destruct (amdgpu_offload (Example.host false 0)
              (mkState (set_cfg (set_build_targets (Some ["X86"; "AMDGPU"])
                                   (cfg Example.stage_self)) Example.stage_self)
                 Example.world) eq_refl) as (Hrocr & _ & _).
  exact (Hrocr eq_refl).
Defined.

(** ** The NVPTX block with a default capability *)

Lemma replace_dots s : Py.replace s "." EmptyString = without_dots s.
Proof.
  unfold Py.replace. induction s as [|c s IH]; [done|].
  cbn [Py.replace_from Py.startswith without_dots String.length Nat.sub].
  rewrite (Ascii.eqb_sym "." c). destruct (Ascii.eqb c "."); [|by rewrite IH].
  destruct s; by rewrite IH.
Qed.

Lemma nvptx_with_default h st d :
  default_cuda_capability (cfg (self st)) = Some d -> d <> EmptyString ->
  requested_cuda_cc h st <> [] ->
  exists st',
    nvptx_offload_config h st = (Ok tt, st')
    /\ configopts (cfg (self st'))
       = configopts (cfg (self st))
           ++ ["-DCLANG_OPENMP_NVPTX_DEFAULT_ARCH=sm_" +:+ without_dots d;
               "-DLIBOMPTARGET_NVPTX_COMPUTE_CAPABILITIES="
                 +:+ Py.join "," (map without_dots (requested_cuda_cc h st))]
    /\ world st' = world st.
Proof.
  intros Hdef Hd Hcc. unfold nvptx_offload_config, requested_cuda_cc in *.
  cbv [mbind M_bind get_self]. cbv zeta. rewrite Hdef.
  destruct d as [|c d]; [done|]. cbn [Py.truthy negb when Py.fmt].
  rewrite bool_decide_eq_false_2; [|done].
  eexists. split; [reflexivity|].
  cbn [self cfg world configopts set_cfg cfg_update_configopts set_configopts].
  rewrite <- app_assoc, replace_dots.
  rewrite (map_ext _ without_dots replace_dots). done.
Qed.

(** X10. When a default CUDA capability is set and a list of capabilities
    is asked for, the NVPTX block returns and reports nothing; it appends
    two configure options, the default architecture [sm_] followed by the
    default without its dots, and the asked capabilities, each without its
    dots, in the order given and joined by commas. The default is not
    looked for in the list. When [NVPTX] is among the build targets and
    [configure_step] returns, both options are among those handed to
    CMake. *)
Theorem nvptx_with_default_capability (h : Host) (st : State) (d : string) :
  default_cuda_capability (cfg (self st)) = Some d -> d <> EmptyString ->
  requested_cuda_cc h st <> [] ->
  (exists st',
     nvptx_offload_config h st = (Ok tt, st')
     /\ configopts (cfg (self st'))
        = configopts (cfg (self st))
            ++ ["-DCLANG_OPENMP_NVPTX_DEFAULT_ARCH=sm_" +:+ without_dots d;
                "-DLIBOMPTARGET_NVPTX_COMPUTE_CAPABILITIES="
                  +:+ Py.join "," (map without_dots (requested_cuda_cc h st))]
     /\ world st' = world st)
  /\ (in_build_targets "NVPTX" (self st) = true ->
      forall st', configure_step h st = (Ok tt, st') ->
        ("-DCLANG_OPENMP_NVPTX_DEFAULT_ARCH=sm_" +:+ without_dots d)
          ∈ configopts (cfg (self st'))
        /\ ("-DLIBOMPTARGET_NVPTX_COMPUTE_CAPABILITIES="
              +:+ Py.join "," (map without_dots (requested_cuda_cc h st)))
             ∈ configopts (cfg (self st'))).
Proof.
  intros Hdef Hd Hcc. split; [by apply nvptx_with_default|].
  intros Hnv st' Hrun.
  set (Q := fun st3 : State =>
              ("-DCLANG_OPENMP_NVPTX_DEFAULT_ARCH=sm_" +:+ without_dots d)
                ∈ configopts (cfg (self st3))
              /\ ("-DLIBOMPTARGET_NVPTX_COMPUTE_CAPABILITIES="
                    +:+ Py.join "," (map without_dots (requested_cuda_cc h st)))
                   ∈ configopts (cfg (self st3))).
  change (Q st').
  apply (wp_elim (configure_step h) st st' tt (fun _ st3 => Q st3)); [|exact Hrun].
  apply configure_step_reaches_nvptx; [done|].
  intros st1 Hst1.
  destruct (nvptx_with_default h st1 d) as (st2 & Hrun2 & Hopts & _).
  { by rewrite (stable_default_cuda_capability _ _ Hst1). }
  { done. }
  { by rewrite (stable_requested_cuda_cc _ _ _ Hst1). }
  rewrite (stable_requested_cuda_cc _ _ _ Hst1) in Hopts.
  unfold wp. rewrite Hrun2. intros st3 Hst3. unfold Q.
  split; apply (prefix_elem_of _ _ _ (stable_configopts _ _ Hst3));
    rewrite Hopts; apply elem_of_app; right; [by left | right; by left].
Qed.

Lemma nvptx_with_default_capability_witness :
  exists st',
    nvptx_offload_config (Example.host false 0)
      (mkState
         (set_cfg
            (mkEasyConfig None true false (Some ["X86"; "NVPTX"]) (Some "9.0") None
               false false false 0 (Some ["8.0"; "7.5"]) None ["CUDA"] [] ∅)
            Example.stage_self)
         Example.world) = (Ok tt, st')
    /\ configopts (cfg (self st'))
       = ["-DCLANG_OPENMP_NVPTX_DEFAULT_ARCH=sm_90";
          "-DLIBOMPTARGET_NVPTX_COMPUTE_CAPABILITIES=80,75"]
    /\ trace (world st') = [].
Proof.
  destruct (nvptx_with_default_capability (Example.host false 0)
              (mkState
                 (set_cfg
                    (mkEasyConfig None true false (Some ["X86"; "NVPTX"]) (Some "9.0")
                       None false false false 0 (Some ["8.0"; "7.5"]) None ["CUDA"]
                       [] ∅)
                    Example.stage_self)
                 Example.world) "9.0" eq_refl ltac:(discriminate) ltac:(discriminate))
    as [(st' & Hrun & Hopts & Hworld) _].
  exists st'. split; [exact Hrun|]. split; [exact Hopts|]. by rewrite Hworld.
Defined.

(** ** Running the tests *)

Lemma check_test_output_error out max_failed e :
  check_test_output out max_failed = Raise e ->
  e = EasyBuildError msg_no_results
  \/ exists n, (n > max_failed)%Z /\ e = EasyBuildError (msg_too_many n).
Proof.
  unfold check_test_output, num_failed_of, mbind, result_bind.
  destruct (Rgx.search "Failed" out) as [d|].
  - destruct (Py.int d >? max_failed)%Z eqn:Hgt; [|done]. intros [= <-]. right.
    exists (Py.int d). split; [lia | done].
  - destruct (Rgx.search "Passed" out); [|intros [= <-]; by left].
    destruct (0 >? max_failed)%Z eqn:Hgt; [|done]. intros [= <-]. right.
    exists 0%Z. split; [lia | done].
Qed.

Lemma test_body_run h max_failed t st :
  exists r,
    (out ← run_cmd_no_check h ("make " +:+ t);
     lift (check_test_output out max_failed)) st
    = (r, mkState (self st)
            (mkWorld (environ (world st)) (trace (world st) ++ [make_target t])))
    /\ (forall e, r = Raise e ->
          e = EasyBuildError msg_no_results
          \/ exists n, (n > max_failed)%Z /\ e = EasyBuildError (msg_too_many n)).
Proof.
  unfold run_cmd_no_check. cbv [mbind M_bind get_world emit mret M_ret].
  cbn [self world environ trace].
  destruct (check_test_output _ max_failed) as [[]|e] eqn:Hcheck; cbn [lift].
  - exists (Ok tt). by split.
  - exists (Raise e). split; [done|]. intros e' [= <-].
    by apply check_test_output_error in Hcheck.
Qed.

Lemma test_loop h max_failed targets st :
  exists ran,
    ran `prefix_of` targets
    /\ (for_each targets
          (fun target =>
             out ← run_cmd_no_check h ("make " +:+ target);
             lift (check_test_output out max_failed)) st).2
       = mkState (self st)
           (mkWorld (environ (world st)) (trace (world st) ++ map make_target ran))
    /\ ((for_each targets
           (fun target =>
              out ← run_cmd_no_check h ("make " +:+ target);
              lift (check_test_output out max_failed)) st).1 = Ok tt ->
        ran = targets)
    /\ (forall e,
          (for_each targets
             (fun target =>
                out ← run_cmd_no_check h ("make " +:+ target);
                lift (check_test_output out max_failed)) st).1 = Raise e ->
          e = EasyBuildError msg_no_results
          \/ exists n, (n > max_failed)%Z /\ e = EasyBuildError (msg_too_many n)).
Proof.
  revert st. induction targets as [|t targets IH]; intros st.
  - exists []. split; [done|]. cbn. rewrite app_nil_r.
    destruct st as [s [env tr]]. by repeat split.
  - cbn [for_each]. rewrite bind_run.
    destruct (test_body_run h max_failed t st) as (r & -> & Hr).
    destruct r as [[]|e].
    + match goal with
      | |- context [for_each _ _ ?st1] =>
          destruct (IH st1) as (ran & Hpre & Hst & Hok & Herr)
      end.
      exists (t :: ran). split; [by apply prefix_cons|].
      split; [rewrite Hst; cbn; by rewrite <- app_assoc|].
      split; [intros H; by rewrite (Hok H) | exact Herr].
    + exists [t]. split; [apply prefix_cons, prefix_nil|].
      split; [done|]. split; [done|]. intros e' [= <-]. by apply Hr.
Qed.

Lemma test_step_run h st :
  test_step h st
  = if skip_all_tests (cfg (self st)) then (Ok tt, st)
    else match final_stage_dir (self st) with
         | None => (Raise (TypeError "change_dir"), st)
         | Some dir =>
             let st1 := mkState (self st)
                          (mkWorld (environ (world st))
                             (trace (world st) ++ [EvChangeDir dir])) in
             if change_dir_ok h (world st) dir
             then for_each (test_targets (self st))
                    (fun target =>
                       out ← run_cmd_no_check h ("make " +:+ target);
                       lift (check_test_output out
                               (test_suite_max_failed (cfg (self st))))) st1
             else (Raise (FrameworkError "change_dir"), st1)
         end.
Proof.
  unfold test_step, final_stage_dir. rewrite bind_run. unfold get_self.
  destruct (skip_all_tests (cfg (self st))); [done|]. cbn [negb when].
  rewrite bind_run.
  destruct (if bootstrap (cfg (self st)) then _ else _) as [dir|]; [|done].
  cbn [need_str]. unfold mret, M_ret. rewrite bind_run, change_dir_run.
  by destruct (change_dir_ok h (world st) dir).
Qed.

(** X11. [test_step] never changes the object or the environment. With
    [skip_all_tests] it does nothing at all. Otherwise it needs the
    directory of the final stage, stage 3 with [bootstrap] and stage 1
    without: if there is none it raises at once; if there is one it enters
    it and then runs [make <target>] for the test targets in their order,
    stopping at the first one it rejects, and it returns only when it has
    run them all. It can only end in an error about that directory or in
    one of its own two errors about the test results. *)
Theorem test_step_runs_targets (h : Host) (st : State) :
  self (test_step h st).2 = self st
  /\ environ (world (test_step h st).2) = environ (world st)
  /\ (skip_all_tests (cfg (self st)) = true -> test_step h st = (Ok tt, st))
  /\ (skip_all_tests (cfg (self st)) = false -> final_stage_dir (self st) = None ->
        test_step h st = (Raise (TypeError "change_dir"), st))
  /\ (forall dir,
        skip_all_tests (cfg (self st)) = false -> final_stage_dir (self st) = Some dir ->
        exists ran,
          ran `prefix_of` test_targets (self st)
          /\ trace (world (test_step h st).2)
             = trace (world st) ++ EvChangeDir dir :: map make_target ran
          /\ ((test_step h st).1 = Ok tt -> ran = test_targets (self st)))
  /\ (forall e, (test_step h st).1 = Raise e ->
        test_step_error (test_suite_max_failed (cfg (self st))) e).
Proof.
  rewrite test_step_run. unfold test_step_error.
  destruct (skip_all_tests (cfg (self st))).
  { by repeat split. }
  destruct (final_stage_dir (self st)) as [dir|].
  2:{ repeat split; try done. intros e [= <-]. by left. }
  destruct (change_dir_ok h (world st) dir).
  2:{ cbn [fst snd self world environ trace].
      repeat split; try done.
      - intros dir' _ [= <-]. exists []. by repeat split; [apply prefix_nil|].
      - intros e [= <-]. right. by left. }
  match goal with
  | |- context [for_each ?l ?body ?st1] =>
      destruct (test_loop h (test_suite_max_failed (cfg (self st))) l st1)
        as (ran & Hpre & Hst & Hok & Herr)
  end.
  rewrite Hst. cbn [fst snd self world environ trace] in *.
  repeat split; try done.
  - intros dir' _ [= <-]. exists ran. rewrite <- app_assoc. by repeat split.
  - intros e He. right. right. by apply Herr.
Qed.

Lemma test_loop_exit_code h ec max_failed targets st :
  for_each targets
    (fun target =>
       out ← run_cmd_no_check (with_exit_code h ec) ("make " +:+ target);
       lift (check_test_output out max_failed)) st
  = for_each targets
      (fun target =>
         out ← run_cmd_no_check h ("make " +:+ target);
         lift (check_test_output out max_failed)) st.
Proof.
  revert st. induction targets as [|t targets IH]; intros st; [done|].
  cbn [for_each].
  rewrite (bind_run
             (out ← run_cmd_no_check (with_exit_code h ec) ("make " +:+ t);
              lift (check_test_output out max_failed))),
    (bind_run
       (out ← run_cmd_no_check h ("make " +:+ t);
        lift (check_test_output out max_failed))).
  change ((out ← run_cmd_no_check (with_exit_code h ec) ("make " +:+ t);
           lift (check_test_output out max_failed)) st)
    with ((out ← run_cmd_no_check h ("make " +:+ t);
           lift (check_test_output out max_failed)) st).
  destruct ((out ← run_cmd_no_check h ("make " +:+ t);
             lift (check_test_output out max_failed)) st) as [[[]|e] st1];
    [apply IH | done].
Qed.

(** X12. [test_step] never looks at the exit code of a test command: on a
    host whose commands all exit with some other code, it does the same
    and ends the same. *)
Theorem test_step_ignores_exit_codes (h : Host) (ec : Z) (st : State) :
  test_step (with_exit_code h ec) st = test_step h st.
Proof.
  unfold test_step. rewrite !bind_run.
  unfold get_self. cbv beta iota. unfold when.
  destruct (negb _); [|done]. rewrite !bind_run.
  destruct (need_str _ _ st) as [[dir|e] st1]; [|done].
  rewrite !bind_run.
  change (change_dir (with_exit_code h ec) dir st1) with (change_dir h dir st1).
  destruct (change_dir h dir st1) as [[[]|e] st2]; [|done].
  apply test_loop_exit_code.
Qed.

(** ** The source directory of the later stages *)

Lemma build_step_needs_source h st :
  bootstrap (cfg (self st)) = true ->
  llvm_src_dir (self st) = None ->
  loose_ge h (version (eb (self st))) "14" = true ->
  wp (build_step h) st (fun _ _ => False).
Proof.
  intros Hboot Hsrc Hge. unfold build_step.
  wp_read. rewrite Hboot.
  apply wp_bind, wp_need_str. intros dir1 _.
  wp_skip stable stable_solver. wp_read.
  do 2 wp_skip stable stable_solver.
  cbn [when]. apply wp_bind.
  apply (wp_weaken _ _ (fun _ _ => False)); [done|].
  apply stage_needs_source.
  - by rewrite (stable_src _ _ Hrel).
  - by rewrite (stable_eb _ _ Hrel).
Qed.

(** X13. [llvm_src_dir] is set to [None] by [__init__] and by nothing
    else, and from version 14 on a later stage joins it with [llvm]. So on
    a host that orders the version at or above 14, a run with [bootstrap]
    never returns, and neither does [build_step] with [bootstrap] from any
    state in which the source directory is not known. *)
Theorem bootstrap_never_builds (h : Host) (b : EasyBlock) (c : EasyConfig) :
  bootstrap c = true -> loose_ge h (version b) "14" = true ->
  (forall w, exists e, (run_easyblock h b c w).1 = Raise e)
  /\ (forall st,
        eb (self st) = b -> bootstrap (cfg (self st)) = true ->
        llvm_src_dir (self st) = None ->
        exists e, (build_step h st).1 = Raise e).
Proof.
  intros Hboot Hge. split.
  - intros w. unfold run_easyblock.
    destruct (__init__ h b c) as [s|e] eqn:Hinit; [|by exists e].
    destruct (init_build_targets _ _ _ _ Hinit)
      as (targets & _ & Heb & _ & _ & _ & _ & Hsrc & Hb & _).
    assert (wp (run_steps h) (mkState s w) (fun _ _ => False)) as Hwp.
    { unfold run_steps. apply wp_bind.
      apply (wp_frames stable); [apply configure_step_stable|].
      intros _ st1 Hst1. apply wp_bind.
      apply (wp_weaken _ _ (fun _ _ => False)); [done|].
      apply build_step_needs_source.
      - rewrite (stable_bootstrap _ _ Hst1). cbn. congruence.
      - rewrite (stable_src _ _ Hst1). done.
      - rewrite (stable_eb _ _ Hst1). cbn. by rewrite Heb. }
    apply wp_never in Hwp as [e He].
    destruct (run_steps h (mkState s w)) as [r st']. cbn in He |- *. eauto.
  - intros st Heb Hb Hsrc. apply wp_never, build_step_needs_source; [done..|].
    by rewrite Heb.
Qed.

Lemma bootstrap_never_builds_witness :
  exists e,
    (run_easyblock (Example.host false 0) (Example.easyblock "Clang" "18.1.8")
       (Example.easyconfig true (Some ["X86"]) []) Example.world).1 = Raise e.
Proof.
  destruct (bootstrap_never_builds (Example.host false 0)
              (Example.easyblock "Clang" "18.1.8")
              (Example.easyconfig true (Some ["X86"]) []) eq_refl eq_refl)
    as [Hrun _].
  exact (Hrun Example.world).
Defined.

(** ** A stage without rpath wrappers *)

Lemma stage_keeps_self h prev_obj next_obj :
  frames (keeps self) (build_with_prev_stage h prev_obj next_obj).
Proof. unfold build_with_prev_stage. frames_with keeps_solver. Qed.

Lemma options_occur (s : Self) opt :
  opt ∈ configopts (cfg s) -> occurs_in opt (Py.join " " (configopts (cfg s))).
Proof. apply join_occurs. Qed.

(** X14. Without rpath wrappers, a stage never changes the object,
    whatever its outcome. One that returns has needed both directories, a
    [PATH] and a source directory; it leaves the whole environment as it
    was, and what it asked for is, in this order: to make and to enter the
    directory of the stage, one [cmake] command and one [make] command. The
    [cmake] command names the installation prefix, then as compilers the
    [clang] and [clang++] found with the [bin] of the previous stage in
    front of [PATH], then a text in which every configure option of the
    object occurs, the build type and the source directory. When the source
    directory is unknown, a stage that could make and enter its directory
    stops there on a type error: it runs no command and leaves [PATH] with
    the previous stage in front. *)
Theorem stage_without_rpath (h : Host) (prev_obj next_obj : option string)
    (st : State) :
  build_option_rpath h = false ->
  self (build_with_prev_stage h prev_obj next_obj st).2 = self st
  /\ (forall st', build_with_prev_stage h prev_obj next_obj st = (Ok tt, st') ->
        environ (world st') = environ (world st)
        /\ exists prev next orig_path opts src,
             prev_obj = Some prev /\ next_obj = Some next
             /\ environ (world st) !! "PATH" = Some orig_path
             /\ stage_source h (self st) = Some src
             /\ (forall opt, opt ∈ configopts (cfg (self st)) -> occurs_in opt opts)
             /\ trace (world st')
                = trace (world st)
                    ++ [EvMkdir next; EvChangeDir next;
                        EvRunCmd
                          (stage_cmake (eb (self st))
                             (which h (stage_world prev next orig_path (world st)) "clang")
                             (which h (stage_world prev next orig_path (world st))
                                "clang++")
                             opts src);
                        stage_make (self st)])
  /\ (forall prev next orig_path,
        prev_obj = Some prev -> next_obj = Some next ->
        environ (world st) !! "PATH" = Some orig_path ->
        stage_source h (self st) = None ->
        mkdir_ok h (world st) next = true ->
        change_dir_ok h
          (mkWorld (environ (world st)) (trace (world st) ++ [EvMkdir next])) next
        = true ->
        build_with_prev_stage h prev_obj next_obj st
        = (Raise (TypeError "os.path.join"),
           mkState (self st) (stage_world prev next orig_path (world st)))).
Proof.
  intros Hrpath. split; [apply stage_keeps_self|]. split.
  - intros st' Hrun.
    destruct next_obj as [next|]; [|by rewrite stage_without_next in Hrun].
    destruct prev_obj as [prev|].
    2:{ rewrite stage_without_prev in Hrun. cbv zeta in Hrun.
        destruct (mkdir_ok _ _ _); [|done]. by destruct (change_dir_ok _ _ _). }
    rewrite stage_without_rpath_eq in Hrun by done. cbv zeta in Hrun.
    destruct (mkdir_ok _ _ _); [|done]. destruct (change_dir_ok _ _ _); [|done].
    destruct (environ (world st) !! "PATH") as [orig_path|] eqn:Horig; [|done].
    rewrite configure_and_build_run in Hrun. cbn [self world] in Hrun.
    destruct (stage_source _ _) as [src|]; [|done]. cbv zeta in Hrun.
    rewrite Hrpath in Hrun.
    repeat (destruct (_ =? 0)%Z in Hrun); try discriminate.
    injection Hrun as <-. cbn [self world environ trace stage_world]. split.
    + rewrite insert_insert_eq. by apply insert_id.
    + exists prev, next, orig_path, (Py.join " " (configopts (cfg (self st)))), src.
      repeat (split; [done|]). split; [apply options_occur|].
      by rewrite <- app_assoc.
  - intros prev next orig_path -> -> Horig Hsrc Hmkdir Hchdir.
    rewrite stage_without_rpath_eq by done. cbv zeta.
    rewrite Hmkdir, Hchdir, Horig, configure_and_build_run. cbn [self world].
    by rewrite Hsrc.
Qed.

Lemma stage_without_rpath_witness :
  (exists st',
     build_with_prev_stage (Example.host false 0) (Some "/build/llvm.obj.1")
       (Some "/build/llvm.obj.2") (mkState Example.stage_self Example.world)
     = (Ok tt, st')
     /\ self st' = Example.stage_self /\ environ (world st') = environ Example.world
     /\ trace (world st')
        = [EvMkdir "/build/llvm.obj.2"; EvChangeDir "/build/llvm.obj.2";
           EvRunCmd ("cmake -DCMAKE_INSTALL_PREFIX=/install  "
                       +:+ "-DCMAKE_C_COMPILER='/wrappers/clang'  "
                       +:+ "-DCMAKE_CXX_COMPILER='/wrappers/clang++'  "
                       +:+ " -DCMAKE_BUILD_TYPE=Release  /build/llvm-project/llvm");
           EvRunCmd "make -j 8 VERBOSE=1"])
  /\ (exists st,
        Example.configured (Example.host false 0) (Example.easyblock "Clang" "18.1.8")
          (Example.easyconfig true (Some ["X86"]) []) Example.world = Some st
        /\ build_with_prev_stage (Example.host false 0) (llvm_obj_dir_stage1 (self st))
             (llvm_obj_dir_stage2 (self st)) st
           = (Raise (TypeError "os.path.join"),
              mkState (self st)
                (stage_world "/build/llvm.obj.1" "/build/llvm.obj.2" "/usr/bin"
                   (world st)))).
Proof.
  split.
  - destruct (stage_without_rpath (Example.host false 0) (Some "/build/llvm.obj.1")
                (Some "/build/llvm.obj.2") (mkState Example.stage_self Example.world)
                eq_refl) as (Hself & Hreturns & _).
    destruct (build_with_prev_stage (Example.host false 0) (Some "/build/llvm.obj.1")
                (Some "/build/llvm.obj.2") (mkState Example.stage_self Example.world))
      as [[[]|e] st'] eqn:Hrun; [| by vm_compute in Hrun].
    exists st'. split; [reflexivity|]. split; [exact Hself|].
    destruct (Hreturns st' eq_refl) as (Henv & _). split; [exact Henv|].
    clear -Hrun. vm_compute in Hrun. injection Hrun as <-. reflexivity.
  - pose (st := default (mkState Example.stage_self Example.world)
                  (Example.configured (Example.host false 0)
                     (Example.easyblock "Clang" "18.1.8")
                     (Example.easyconfig true (Some ["X86"]) []) Example.world)).
    exists st. split; [vm_compute; reflexivity|].
    destruct (stage_without_rpath (Example.host false 0) (llvm_obj_dir_stage1 (self st))
                (llvm_obj_dir_stage2 (self st)) st eq_refl) as (_ & _ & Hstops).
    apply Hstops; vm_compute; reflexivity.
Defined.

(** ** What the sanity check asks for *)

Lemma checked_paths_spec shlib_ext s :
  checked_paths shlib_ext s !! "files"
  = Some (if String.eqb shlib_ext "so" then all_expected_files s
          else adapt_shlib_ext shlib_ext (all_expected_files s))
  /\ checked_paths shlib_ext s !! "dirs" = Some (all_expected_dirs s)
  /\ forall key, key <> "files" -> key <> "dirs" ->
       checked_paths shlib_ext s !! key = sanity_check_paths (cfg s) !! key.
Proof.
  unfold checked_paths, setdefault_extend, all_expected_files, all_expected_dirs.
  cbv zeta. destruct (String.eqb shlib_ext "so"); cbn [negb].
  all: repeat first [ rewrite lookup_insert_eq | rewrite lookup_insert_ne by done ].
  all: repeat split.
  all: intros key Hf Hd;
    repeat first [ rewrite lookup_insert_eq | rewrite lookup_insert_ne by congruence ];
    done.
Qed.

Lemma sanity_check_step_run h st :
  sanity_check_step h st
  = (if super_sanity_ok h
          (mkWorld (environ (world st)) (trace (world st) ++ arch_warning h))
          (default [] (checked_paths (get_shared_lib_ext h) (self st) !! "files"))
          (default [] (checked_paths (get_shared_lib_ext h) (self st) !! "dirs"))
          (check_commands (self st))
     then Ok tt else Raise (FrameworkError "sanity_check_step"),
     mkState
       (set_cfg (set_sanity_check_paths
                   (checked_paths (get_shared_lib_ext h) (self st)) (cfg (self st)))
          (self st))
       (mkWorld (environ (world st))
          (trace (world st) ++ arch_warning h
             ++ [EvSanityCheck
                   (default [] (checked_paths (get_shared_lib_ext h) (self st) !! "files"))
                   (default [] (checked_paths (get_shared_lib_ext h) (self st) !! "dirs"))
                   (check_commands (self st))]))).
Proof.
  unfold sanity_check_step, arch_warning. cbv zeta. destruct st as [s [env tr]].
  rewrite bind_run, when_run.
  destruct (get_cpu_architecture h);
    repeat match goal with
           | |- context [bool_decide (?a = ?b)] =>
               first [ rewrite (bool_decide_eq_true_2 (a = b)) by done
                     | rewrite (bool_decide_eq_false_2 (a = b)) by done ]
           end;
    cbn [negb andb];
    cbv [mbind M_bind get_self modify get_world emit print_warning mret M_ret raise];
    cbn [self world environ trace app];
    rewrite ?app_nil_r, <- ?app_assoc;
    by destruct (super_sanity_ok _ _ _ _ _).
Qed.

(** X15. [sanity_check_step] never fails on its own account and leaves the
    environment alone. It reports an architecture other than x86_64, POWER
    and AArch64 with one warning, then asks the generic check, once, for
    the directories of the easyconfig followed by those of the object, for
    the commands of the object, and for the files of the easyconfig
    followed by those of the object; on a platform whose libraries do not
    end in [so] the files are rewritten, the directories never are. It
    returns exactly when the generic check accepts. *)
Theorem sanity_check_request (h : Host) (st : State) :
  trace (world (sanity_check_step h st).2)
  = trace (world st) ++ arch_warning h
      ++ [EvSanityCheck
            (if String.eqb (get_shared_lib_ext h) "so" then all_expected_files (self st)
             else adapt_shlib_ext (get_shared_lib_ext h) (all_expected_files (self st)))
            (all_expected_dirs (self st)) (check_commands (self st))]
  /\ environ (world (sanity_check_step h st).2) = environ (world st)
  /\ checks (sanity_check_step h st).2 = checks st
  /\ ((sanity_check_step h st).1 = Ok tt <->
      super_sanity_ok h
        (mkWorld (environ (world st)) (trace (world st) ++ arch_warning h))
        (if String.eqb (get_shared_lib_ext h) "so" then all_expected_files (self st)
         else adapt_shlib_ext (get_shared_lib_ext h) (all_expected_files (self st)))
        (all_expected_dirs (self st)) (check_commands (self st)) = true)
  /\ ((sanity_check_step h st).1 = Ok tt
      \/ (sanity_check_step h st).1 = Raise (FrameworkError "sanity_check_step")).
Proof.
  rewrite sanity_check_step_run.
  destruct (checked_paths_spec (get_shared_lib_ext h) (self st)) as (-> & -> & _).
  cbn [fst snd self world environ trace default].
  destruct (super_sanity_ok _ _ _ _ _); repeat split; auto; done.
Qed.

(** ** The installation *)

Lemma before_dot_major v : major_of v (before_dot v).
Proof.
  unfold major_of. induction v as [|c v [IHdots IH]]; [by split; [|left]|].
  cbn [before_dot]. destruct (Ascii.eqb c ".") eqn:Hc.
  - split; [done|]. right. exists v. apply Ascii.eqb_eq in Hc as ->. done.
  - cbn [without_dots]. rewrite Hc, IHdots. split; [done|].
    destruct IH as [IH|[rest IH]]; [left | right; exists rest]; by rewrite IH at 1.
Qed.

Lemma install_step_run h st :
  install_step h st
  = match final_stage_dir (self st) with
    | None => (Raise (TypeError "change_dir"), st)
    | Some dir =>
        let w1 := mkWorld (environ (world st)) (trace (world st) ++ [EvChangeDir dir]) in
        let w2 := mkWorld (environ (world st))
                    (trace (world st) ++ [EvChangeDir dir; EvInstall]) in
        if negb (change_dir_ok h (world st) dir)
        then (Raise (FrameworkError "change_dir"), mkState (self st) w1)
        else if negb (super_install_ok h w1)
        then (Raise (FrameworkError "install_step"), mkState (self st) w2)
        else if negb (String.eqb (project_name (self st)) "clang")
        then (Ok tt, mkState (self st) w2)
        else match get_software_root h "compiler-rt" with
             | None => (Raise (TypeError "os.path.join"), mkState (self st) w2)
             | Some root =>
                 let link := runtime_link root (eb (self st))
                               (before_dot (version (eb (self st)))) in
                 (if symlink_ok h w2 (Py.path_join root "lib")
                       (Py.path_join
                          (Py.path_join
                             (Py.path_join
                                (Py.path_join (installdir (eb (self st))) "lib")
                                "clang")
                             (before_dot (version (eb (self st)))))
                          "lib")
                  then Ok tt else Raise (FrameworkError "symlink"),
                  mkState (self st)
                    (mkWorld (environ (world st))
                       (trace (world st) ++ [EvChangeDir dir; EvInstall; link])))
             end
    end.
Proof.
  unfold install_step, final_stage_dir. rewrite bind_run. unfold get_self.
  rewrite bind_run.
  destruct (if bootstrap (cfg (self st)) then _ else _) as [dir|]; [|done].
  cbn [need_str]. unfold mret, M_ret. rewrite bind_run, change_dir_run.
  destruct (change_dir_ok h (world st) dir); [|done]. cbn [negb].
  cbv [mbind M_bind get_world emit]. cbn [self world environ trace].
  rewrite <- app_assoc. cbn [app].
  destruct (super_install_ok _ _); [|done]. cbn [negb when].
  destruct (String.eqb (project_name (self st)) "clang"); [|done]. cbn [negb when].
  destruct (get_software_root h "compiler-rt") as [root|]; [|done].
  cbn [need_str]. unfold mret, M_ret. cbv beta iota.
  rewrite symlink_run. cbn [self world environ trace].
  rewrite <- app_assoc. done.
Qed.

(** X16. [install_step] never changes the object or the environment. When
    it returns, it has entered the directory of the final stage and run the
    generic installation, and for the project [clang] it has then linked
    the [lib] directory of compiler-rt to [lib/clang/<major>/lib] under the
    installation directory, where the major is the version up to its first
    dot; for any other project it makes no link. For [clang] without
    compiler-rt it never returns, and the error about the missing root
    comes only after the installation has been run. *)
Theorem install_step_links_runtime (h : Host) (st : State) :
  self (install_step h st).2 = self st
  /\ environ (world (install_step h st).2) = environ (world st)
  /\ (forall st', install_step h st = (Ok tt, st') ->
        exists dir,
          final_stage_dir (self st) = Some dir
          /\ if String.eqb (project_name (self st)) "clang"
             then exists root major,
                    get_software_root h "compiler-rt" = Some root
                    /\ major_of (version (eb (self st))) major
                    /\ trace (world st')
                       = trace (world st)
                           ++ [EvChangeDir dir; EvInstall;
                               runtime_link root (eb (self st)) major]
             else trace (world st') = trace (world st) ++ [EvChangeDir dir; EvInstall])
  /\ (project_name (self st) = "clang" -> get_software_root h "compiler-rt" = None ->
        (exists e, (install_step h st).1 = Raise e)
        /\ ((install_step h st).1 = Raise (TypeError "os.path.join") ->
            exists dir,
              trace (world (install_step h st).2)
              = trace (world st) ++ [EvChangeDir dir; EvInstall])).
Proof.
  rewrite install_step_run.
  destruct (final_stage_dir (self st)) as [dir|].
  2:{ split; [done|]. split; [done|]. split; [done|]. intros _ _.
      split; [by eexists | discriminate]. }
  cbv zeta.
  destruct (change_dir_ok h (world st) dir); cbn [negb].
  2:{ split; [done|]. split; [done|]. split; [done|]. intros _ _.
      split; [by eexists | discriminate]. }
  destruct (super_install_ok h _); cbn [negb].
  2:{ split; [done|]. split; [done|]. split; [done|]. intros _ _.
      split; [by eexists | discriminate]. }
  destruct (String.eqb_spec (project_name (self st)) "clang") as [Hclang|Hother];
    cbn [negb].
  2:{ split; [done|]. split; [done|]. split; [|done].
      intros st' [= <-]. by exists dir. }
  destruct (get_software_root h "compiler-rt") as [root|].
  - split; [done|]. split; [done|]. split; [|done].
    intros st' [= Hok <-]. exists dir. split; [done|].
    exists root, (before_dot (version (eb (self st)))).
    split; [done|]. split; [apply before_dot_major | done].
  - split; [done|]. split; [done|]. split; [done|]. intros _ _.
    split; [by eexists|]. intros _. by exists dir.
Qed.

(** ** The hints to the sibling components *)

Lemma for_each_options {A} (p : A -> bool) (g : A -> string) (l : list A) st :
  exists st',
    for_each l (fun x => when (p x) (update_configopts (g x))) st = (Ok tt, st')
    /\ configopts (cfg (self st'))
       = configopts (cfg (self st)) ++ map g (List.filter p l)
    /\ world st' = world st.
Proof.
  revert st. induction l as [|x l IH]; intros st.
  - exists st. by rewrite app_nil_r.
  - cbn [for_each List.filter]. rewrite bind_run, when_run.
    destruct (p x).
    + rewrite update_configopts_run.
      match goal with
      | |- context [for_each _ _ ?st1] => destruct (IH st1) as (st' & -> & Hopts & Hworld)
      end.
      exists st'. split; [done|]. split; [|done].
      rewrite Hopts. cbn. by rewrite <- app_assoc.
    + destruct (IH st) as (st' & -> & Hopts & Hworld). by exists st'.
Qed.

Lemma sibling_cmake_dirs_run h st :
  exists st',
    sibling_cmake_dirs h st = (Ok tt, st')
    /\ configopts (cfg (self st')) = configopts (cfg (self st)) ++ sibling_hints h
    /\ world st' = world st.
Proof.
  apply (for_each_options (fun sibling => Py.truthy (get_software_root h sibling))
           (sibling_hint h)).
Qed.

Lemma configure_step_starts_with_hints h st :
  wp (configure_step h) st (fun _ st' =>
    (configopts (cfg (self st)) ++ sibling_hints h)
      `prefix_of` configopts (cfg (self st'))).
Proof.
  unfold configure_step. destruct (negb _); [apply wp_raise|]. cbv zeta.
  apply wp_bind, wp_run. intros ? st1 Hrun.
  destruct (sibling_cmake_dirs_run h st) as (st1' & Hrun' & Hopts & _).
  rewrite Hrun' in Hrun. injection Hrun as _ <-. rewrite <- Hopts.
  apply (wp_frames stable); [|intros _ st2 Hst2; apply (stable_configopts _ _ Hst2)].
  pose proof (dispatch_stable h) as Hdispatch.
  frames_with stable_solver.
Qed.

(** X17. Without an LLVM root [configure_step] raises at once and changes
    nothing. Otherwise it begins with the hints to the siblings: for each
    of LLVM, lld, lldb, clang-tools-extra, clang, flang and mlir that is
    installed, in this order, one option [-D<NAME>_DIR=<root>/lib/cmake/<name>]
    with the name in upper case before the [=] and in lower case after;
    these options follow those the object already had, and whatever comes
    later comes after them. The loop over the siblings changes nothing
    else and never fails. *)
Theorem configure_step_sibling_hints (h : Host) (st : State) :
  (Py.truthy (get_software_root h "LLVM") = false ->
     configure_step h st = (Raise (EasyBuildError "Can't find LLVM to use"), st))
  /\ (exists st',
        sibling_cmake_dirs h st = (Ok tt, st')
        /\ configopts (cfg (self st')) = configopts (cfg (self st)) ++ sibling_hints h
        /\ world st' = world st /\ quiet st st')
  /\ (forall st', configure_step h st = (Ok tt, st') ->
        Py.truthy (get_software_root h "LLVM") = true
        /\ (exists rest, sibling_hints h = sibling_hint h "LLVM" :: rest)
        /\ (configopts (cfg (self st)) ++ sibling_hints h)
             `prefix_of` configopts (cfg (self st'))).
Proof.
  split; [|split].
  - intros Hllvm. unfold configure_step. by rewrite Hllvm.
  - destruct (sibling_cmake_dirs_run h st) as (st' & Hrun & Hopts & Hworld).
    exists st'. repeat apply conj; try done.
    pose proof (sibling_cmake_dirs_quiet h st) as Hquiet. by rewrite Hrun in Hquiet.
  - intros st' Hrun.
    assert (Py.truthy (get_software_root h "LLVM") = true) as Hllvm.
    { unfold configure_step in Hrun.
      destruct (Py.truthy (get_software_root h "LLVM")); [done|discriminate]. }
    split; [done|]. split.
    + unfold sibling_hints, siblings. cbn [List.filter]. rewrite Hllvm.
      cbn [map]. by eexists.
    + exact (wp_elim _ _ _ _ _ (configure_step_starts_with_hints h st) Hrun).
Qed.

(** ** The test targets of a project *)

Ltac keeps_tests :=
  wp_skip (keeps (fun st => test_targets (self st))) keeps_solver.

(** The profile assigns its test targets at this step and leaves them
    alone afterwards. *)
Ltac assigns_tests :=
  apply wp_bind, wp_run;
  let Hrun := fresh "Hrun" in
  intros ? ? Hrun; unfold assign_test_targets in Hrun; rewrite modify_run in Hrun;
  injection Hrun as _ <-;
  apply (wp_frames (keeps (fun st => test_targets (self st))));
  [frames_with keeps_solver | by intros _ ? ->].

Lemma profiles_test_targets h st :
  wp (_flang_config h) st (fun _ st' => test_targets (self st') = test_targets (self st))
  /\ wp (_polly_config h) st (fun _ st' => test_targets (self st') = ["check-polly"])
  /\ wp (_mlir_config h) st (fun _ st' => test_targets (self st') = ["check-mlir"])
  /\ wp (_runtimes_config h) st (fun _ st' =>
       test_targets (self st')
       = ["check-runtimes"; "check-unwind"; "check-cxx"; "check-cxxabi"])
  /\ wp (_lld_config h) st (fun _ st' => test_targets (self st') = ["check-lld"])
  /\ wp (_lldb_config h) st (fun _ st' => test_targets (self st') = test_targets (self st))
  /\ wp (_compiler_rt_config h) st (fun _ st' =>
       test_targets (self st') = test_targets (self st)).
Proof.
  repeat apply conj.
  - apply (wp_frames (keeps (fun st => test_targets (self st))));
      [unfold _flang_config; frames_with keeps_solver | by intros _ ? ->].
  - unfold _polly_config. assigns_tests.
  - unfold _mlir_config. do 2 keeps_tests. assigns_tests.
  - unfold _runtimes_config. assigns_tests.
  - unfold _lld_config. keeps_tests. assigns_tests.
  - apply (wp_frames (keeps (fun st => test_targets (self st))));
      [unfold _lldb_config; frames_with keeps_solver | by intros _ ? ->].
  - apply (wp_frames (keeps (fun st => test_targets (self st))));
      [unfold _compiler_rt_config; frames_with keeps_solver | by intros _ ? ->].
Qed.

Lemma dispatch_test_targets h project st :
  Py.replace project "-" "_" <> "clang" ->
  wp (match configure_func project with
      | Some func => func h
      | None => mret tt
      end) st
    (fun _ st' =>
       test_targets (self st') = profile_test_targets project (test_targets (self st))).
Proof.
  destruct (profiles_test_targets h st)
    as (Hflang & Hpolly & Hmlir & Hruntimes & Hlld & Hlldb & Hrt).
  unfold configure_func, profile_test_targets. cbv zeta.
  generalize (Py.replace project "-" "_"). intros key Hkey.
  destruct (String.eqb_spec key "clang") as [|_]; [done|].
  destruct (String.eqb_spec key "flang") as [->|_]; [exact Hflang|].
  destruct (String.eqb_spec key "polly") as [->|_]; [exact Hpolly|].
  destruct (String.eqb_spec key "mlir") as [->|_]; [exact Hmlir|].
  destruct (String.eqb_spec key "runtimes") as [->|_]; [exact Hruntimes|].
  destruct (String.eqb_spec key "lld") as [->|_]; [exact Hlld|].
  destruct (String.eqb_spec key "lldb") as [->|_]; [exact Hlldb|].
  destruct (String.eqb_spec key "compiler_rt") as [->|_]; [exact Hrt|].
  by apply wp_ret.
Qed.

Lemma quiet_keeps_tests {A} (m : M A) :
  frames quiet m -> frames (keeps (fun st => test_targets (self st))) m.
Proof. intros Hm st. by destruct (Hm st). Qed.

Lemma configure_step_sets_test_targets h st :
  Py.replace (project_name (self st)) "-" "_" <> "clang" ->
  wp (configure_step h) st (fun _ st' =>
    test_targets (self st')
    = profile_test_targets (project_name (self st)) (test_targets (self st))).
Proof.
  intros Hkey.
  unfold configure_step. destruct (negb _); [apply wp_raise|]. cbv zeta.
  wp_skip quiet quiet_solver. wp_read.
  rewrite (stable_project _ _ (quiet_stable _ _ Hrel)).
  pose proof (quiet_tests _ _ Hrel) as Htests. clear Hrel.
  do 5 keeps_tests. unfold keeps in Hrel. rewrite Htests in Hrel.
  apply wp_bind.
  eapply wp_weaken; [|apply (dispatch_test_targets h _ _ Hkey)].
  intros ? st1 Hst1. cbv beta in Hst1. rewrite Hrel in Hst1.
  pose proof (quiet_keeps_tests _ (nvptx_offload_config_quiet h)) as Hnvptx.
  pose proof (quiet_keeps_tests _ (amdgpu_offload_config_quiet h)) as Hamdgpu.
  apply (wp_frames (keeps (fun st => test_targets (self st))));
    [frames_with keeps_solver|].
  intros _ st2 ->. exact Hst1.
Qed.

(** X18. For a project whose profile is not Clang's, the test targets that
    [configure_step] leaves when it returns depend on the project name
    alone, read with [-] as [_]: [check-polly] for polly, [check-mlir] for
    mlir, [check-lld] for lld, the four runtimes targets for runtimes; for
    flang, lldb, compiler-rt and every project without a profile, the
    targets that were there before, which are none after [__init__]. *)
Theorem configure_step_test_targets (h : Host) (st st' : State) :
  Py.replace (project_name (self st)) "-" "_" <> "clang" ->
  configure_step h st = (Ok tt, st') ->
  test_targets (self st')
  = profile_test_targets (project_name (self st)) (test_targets (self st)).
Proof.
  intros Hkey Hrun.
  exact (wp_elim _ _ _ _ _ (configure_step_sets_test_targets h st Hkey) Hrun).
Qed.

Lemma configure_step_test_targets_witness :
  exists s st',
    __init__ (Example.host false 0) (Example.easyblock "compiler-rt" "18.1.8")
      (Example.easyconfig false None []) = Ok s
    /\ configure_func (project_name s) = Some _compiler_rt_config
    /\ configure_step (Example.host false 0) (mkState s Example.world) = (Ok tt, st')
    /\ test_targets (self st') = [].
Proof.
  destruct (__init__ (Example.host false 0) (Example.easyblock "compiler-rt" "18.1.8")
              (Example.easyconfig false None [])) as [s|e] eqn:Hinit;
    [| by vm_compute in Hinit].
  vm_compute in Hinit. injection Hinit as <-.
  match goal with
  | |- exists s st', Ok ?s0 = Ok s /\ _ =>
      destruct (configure_step (Example.host false 0) (mkState s0 Example.world))
        as [[[]|e] st'] eqn:Hrun; [| by vm_compute in Hrun];
      exists s0, st'
  end.
  split; [reflexivity|]. split; [reflexivity|]. split; [exact Hrun|].
  refine (eq_trans (configure_step_test_targets _ _ _ _ Hrun) _);
    [discriminate | reflexivity].
Defined.

(** ** The paths of the module *)

Lemma init_runtime_lib_path h b c s : __init__ h b c = Ok s -> runtime_lib_path s = "lib".
Proof.
  unfold __init__.
  destruct (loose_lt _ _ _); [discriminate|].
  destruct (bootstrap c && _); [discriminate|].
  destruct (match build_targets _ with Some t => _ | None => _ end) as [targets|e];
    [|discriminate].
  unfold mbind, result_bind. cbv beta iota zeta.
  destruct (negb _); [discriminate|]. destruct (Py.mem _ _); [discriminate|].
  by intros [= <-].
Qed.

Lemma dispatch_keeps_runtime_lib_path h project :
  frames (keeps (fun st => runtime_lib_path (self st)))
    (match configure_func project with
     | Some func => func h
     | None => mret tt
     end).
Proof.
  unfold configure_func.
  repeat (destruct (String.eqb _ _); [|]); [..|by apply frames_read; [tc_solve|]].
  - unfold _clang_config. frames_with keeps_solver.
  - unfold _flang_config. frames_with keeps_solver.
  - unfold _polly_config. frames_with keeps_solver.
  - unfold _mlir_config. frames_with keeps_solver.
  - unfold _runtimes_config. frames_with keeps_solver.
  - unfold _lld_config. frames_with keeps_solver.
  - unfold _lldb_config. frames_with keeps_solver.
  - unfold _compiler_rt_config. frames_with keeps_solver.
Qed.

Lemma run_steps_keep_runtime_lib_path h :
  frames (keeps (fun st => runtime_lib_path (self st))) (run_steps h).
Proof.
  pose proof (dispatch_keeps_runtime_lib_path h) as Hdispatch.
  assert (frames (keeps (fun st => runtime_lib_path (self st))) (sibling_cmake_dirs h))
    as Hsibling by (unfold sibling_cmake_dirs; frames_with keeps_solver).
  assert (frames (keeps (fun st => runtime_lib_path (self st))) (nvptx_offload_config h))
    as Hnvptx by (unfold nvptx_offload_config; frames_with keeps_solver).
  assert (frames (keeps (fun st => runtime_lib_path (self st))) (amdgpu_offload_config h))
    as Hamdgpu by (unfold amdgpu_offload_config; frames_with keeps_solver).
  assert (forall prev_obj next_obj,
            frames (keeps (fun st => runtime_lib_path (self st)))
              (build_with_prev_stage h prev_obj next_obj)) as Hstage
    by (intros; unfold build_with_prev_stage; frames_with keeps_solver).
  unfold run_steps, configure_step, build_step, test_step, install_step,
    sanity_check_step.
  frames_with keeps_solver.
Qed.

(** X19. The module paths. Whatever the generic easyblock guesses, the
    guess for [CPATH] becomes [include] alone, and those for
    [LIBRARY_PATH] and [LD_LIBRARY_PATH] become [lib], [lib64],
    [lib/linux] and the runtime library path of the object; every other
    guess is kept. No step changes the runtime library path that
    [__init__] sets, so after any run the last entry is [lib] again. *)
Theorem module_paths (h : Host) (b : EasyBlock) (c : EasyConfig) (s : Self)
    (w : World) (guesses : gmap string (list string)) :
  __init__ h b c = Ok s ->
  make_module_req_guess guesses (self (run_steps h (mkState s w)).2) !! "CPATH"
  = Some ["include"]
  /\ make_module_req_guess guesses (self (run_steps h (mkState s w)).2) !! "LIBRARY_PATH"
     = Some ["lib"; "lib64"; "lib/linux"; "lib"]
  /\ make_module_req_guess guesses (self (run_steps h (mkState s w)).2)
       !! "LD_LIBRARY_PATH"
     = Some ["lib"; "lib64"; "lib/linux"; "lib"]
  /\ forall key,
       key <> "CPATH" -> key <> "LIBRARY_PATH" -> key <> "LD_LIBRARY_PATH" ->
       make_module_req_guess guesses (self (run_steps h (mkState s w)).2) !! key
       = guesses !! key.
Proof.
  intros Hinit.
  pose proof (run_steps_keep_runtime_lib_path h (mkState s w)) as Hkeep.
  unfold keeps in Hkeep. cbn [self] in Hkeep.
  rewrite (init_runtime_lib_path _ _ _ _ Hinit) in Hkeep.
  unfold make_module_req_guess. rewrite Hkeep.
  repeat apply conj.
  - do 2 (rewrite lookup_insert_ne by done). by rewrite lookup_insert_eq.
  - rewrite lookup_insert_ne by done. by rewrite lookup_insert_eq.
  - by rewrite lookup_insert_eq.
  - intros key H1 H2 H3. by do 3 (rewrite lookup_insert_ne by done).
Qed.

Lemma module_paths_witness :
  exists s,
    __init__ (Example.host false 0) (Example.easyblock "polly" "18.1.8")
      (Example.easyconfig false None []) = Ok s
    /\ make_module_req_guess {[ "PATH" := ["bin"]; "CPATH" := ["include"; "inc"] ]}
         (self (run_steps (Example.host false 0) (mkState s Example.world)).2)
       !! "CPATH" = Some ["include"]
    /\ make_module_req_guess {[ "PATH" := ["bin"]; "CPATH" := ["include"; "inc"] ]}
         (self (run_steps (Example.host false 0) (mkState s Example.world)).2)
       !! "PATH" = Some ["bin"].
Proof.
  destruct (__init__ (Example.host false 0) (Example.easyblock "polly" "18.1.8")
              (Example.easyconfig false None [])) as [s|e] eqn:Hinit;
    [| by vm_compute in Hinit].
  exists s. split; [reflexivity|].
  destruct (module_paths (Example.host false 0) _ _ s Example.world
              {[ "PATH" := ["bin"]; "CPATH" := ["include"; "inc"] ]} Hinit)
    as (Hcpath & _ & _ & Hother).
  split; [exact Hcpath|]. rewrite Hother by done. by vm_compute.
Defined.

(** ** The generic steps in a run *)

Lemma preparation_is_own ev : is_preparation ev -> is_own ev.
Proof. by destruct ev. Qed.

Lemma stage_own h prev_obj next_obj :
  frames (appends is_own) (build_with_prev_stage h prev_obj next_obj).
Proof. unfold build_with_prev_stage. frames_with appends_solver. Qed.

Lemma test_step_own h : frames (appends is_own) (test_step h).
Proof. unfold test_step. frames_with appends_solver. Qed.

Lemma build_step_trace h st :
  wp (build_step h) st (fun _ st' =>
    exists dir rest,
      trace (world st') = trace (world st) ++ [EvChangeDir dir; EvBuild] ++ rest
      /\ Forall is_own rest).
Proof.
  pose proof (stage_own h) as Hstage.
  unfold build_step. wp_read.
  apply wp_bind, wp_need_str. intros dir _.
  wp_exact change_dir_run. wp_read. wp_exact emit_run.
  apply wp_bind. destruct (super_build_ok h _); [apply wp_ret | apply wp_raise].
  apply (wp_frames (appends is_own)); [frames_with appends_solver|].
  intros _ st' (rest & Htrace & Hrest). exists dir, rest. split; [|done].
  rewrite Htrace. cbn [self world environ trace]. by rewrite <- !app_assoc.
Qed.

Lemma install_step_trace h st :
  wp (install_step h) st (fun _ st' =>
    exists dir rest,
      trace (world st') = trace (world st) ++ [EvChangeDir dir; EvInstall] ++ rest
      /\ Forall is_own rest).
Proof.
  unfold wp. rewrite install_step_run.
  destruct (final_stage_dir (self st)) as [dir|]; [|done]. cbv zeta.
  destruct (negb (change_dir_ok _ _ _)); [done|].
  destruct (negb (super_install_ok _ _)); [done|].
  destruct (negb (String.eqb _ _)).
  { exists dir, []. by rewrite app_nil_r. }
  destruct (get_software_root h "compiler-rt") as [root|]; [|done].
  destruct (symlink_ok _ _ _ _); [|done].
  eexists dir, [_]. split; [done|]. by repeat constructor.
Qed.

Lemma arch_warning_own h : Forall is_own (arch_warning h).
Proof. unfold arch_warning. destruct (get_cpu_architecture h); by repeat constructor. Qed.

Lemma run_steps_trace h st :
  wp (run_steps h) st (fun _ st' =>
    exists before opts between1 between2 between3 files dirs commands,
      trace (world st')
      = trace (world st) ++ before ++ [EvConfigure (srcdir (self st)) opts]
          ++ between1 ++ [EvBuild] ++ between2 ++ [EvInstall]
          ++ between3 ++ [EvSanityCheck files dirs commands]
      /\ Forall is_own (before ++ between1 ++ between2 ++ between3)).
Proof.
  unfold run_steps.
  apply wp_bind. eapply wp_weaken; [|apply configure_step_before_cmake].
  intros ? st1 (before & Ht1 & Hbefore & _).
  apply wp_bind. eapply wp_weaken; [|apply build_step_trace].
  intros ? st2 (dir2 & rest2 & Ht2 & Hrest2).
  apply wp_bind. apply (wp_frames (appends is_own)); [apply test_step_own|].
  intros ? st3 (tests & Ht3 & Htests).
  apply wp_bind. eapply wp_weaken; [|apply install_step_trace].
  intros ? st4 (dir4 & rest4 & Ht4 & Hrest4).
  apply wp_run. intros ? st5 Hrun. rewrite sanity_check_step_run in Hrun.
  injection Hrun as _ <-. cbn [self world environ trace].
  eexists before, _, [EvChangeDir dir2], (rest2 ++ tests ++ [EvChangeDir dir4]),
    (rest4 ++ arch_warning h), _, _, _.
  split.
  - rewrite Ht4, Ht3, Ht2, Ht1. rewrite <- !app_assoc. cbn [app]. reflexivity.
  - rewrite !Forall_app. repeat split; try done.
    + by apply (Forall_impl is_preparation), preparation_is_own.
    + by repeat constructor.
    + by repeat constructor.
    + apply arch_warning_own.
Qed.

(** X20. A run that returns has called the four steps of the generic
    easyblock once each and in this order: the configuration, for the
    source directory of the object, the build, the installation and the
    sanity check; whatever else it asked for, before and between them, was
    on its own account. *)
Theorem run_calls_generic_steps_in_order (h : Host) (st st' : State) :
  run_steps h st = (Ok tt, st') ->
  exists before opts between1 between2 between3 files dirs commands,
    trace (world st')
    = trace (world st) ++ before ++ [EvConfigure (srcdir (self st)) opts]
        ++ between1 ++ [EvBuild] ++ between2 ++ [EvInstall]
        ++ between3 ++ [EvSanityCheck files dirs commands]
    /\ Forall is_own (before ++ between1 ++ between2 ++ between3).
Proof.
  intros Hrun. exact (wp_elim _ _ _ _ _ (run_steps_trace h st) Hrun).
Qed.

Lemma run_calls_generic_steps_in_order_witness :
  exists s st',
    __init__ (Example.host false 0) (Example.easyblock "polly" "18.1.8")
      (Example.easyconfig false None []) = Ok s
    /\ run_steps (Example.host false 0) (mkState s Example.world) = (Ok tt, st')
    /\ exists before opts between1 between2 between3 files dirs commands,
         trace (world st')
         = before ++ [EvConfigure "/build/polly" opts]
             ++ between1 ++ [EvBuild] ++ between2 ++ [EvInstall]
             ++ between3 ++ [EvSanityCheck files dirs commands].
Proof.
  destruct (__init__ (Example.host false 0) (Example.easyblock "polly" "18.1.8")
              (Example.easyconfig false None [])) as [s|e] eqn:Hinit;
    [| by vm_compute in Hinit].
  vm_compute in Hinit. injection Hinit as <-.
  match goal with
  | |- exists s st', Ok ?s0 = Ok s /\ _ =>
      destruct (run_steps (Example.host false 0) (mkState s0 Example.world))
        as [[[]|e] st'] eqn:Hrun; [| by vm_compute in Hrun];
      exists s0, st'
  end.
  split; [reflexivity|]. split; [exact Hrun|].
  destruct (run_calls_generic_steps_in_order _ _ _ Hrun)
    as (before & opts & between1 & between2 & between3 & files & dirs & commands
        & Htrace & _).
  exists before, opts, between1, between2, between3, files, dirs, commands.
  exact Htrace.
Defined.

(** ** A stage with rpath wrappers *)

(** X22. With rpath wrappers, a stage that returns has needed both
    directories, a [PATH], the wrappers, a wrapped [clang] and a source
    directory. What it asked for is, in this order: to make and to enter
    the directory of the stage, the wrappers, a link to [opt] of the
    previous stage beside the wrapped [clang], one [cmake] command and one
    [make] command. The compilers and the linker of the NVPTX bitcode are
    looked up once the link is made, in the environment the wrappers set
    up with the flag against unused arguments added to [CFLAGS] and
    [CXXFLAGS]; the [cmake] command names the installation prefix, these
    compilers, a text in which every configure option of the object
    occurs, the build type, that linker and the source directory. The
    stage leaves that environment, with [PATH] put back to what it was
    before the stage. When the source directory is unknown, a stage for
    which every call up to the link succeeds stops there on a type error:
    it runs no command, and it leaves that environment with the [PATH] the
    wrappers set up. *)
Theorem stage_with_rpath (h : Host) (prev_obj next_obj : option string) (st : State) :
  build_option_rpath h = true ->
  (forall st', build_with_prev_stage h prev_obj next_obj st = (Ok tt, st') ->
     exists prev next orig_path wrapped clang opts src w,
       prev_obj = Some prev /\ next_obj = Some next
       /\ environ (world st) !! "PATH" = Some orig_path
       /\ prepare_rpath_wrappers h (stage_world prev next orig_path (world st))
          = Some wrapped
       /\ which h
            (mkWorld wrapped
               (trace (world st) ++ [EvMkdir next; EvChangeDir next; EvRpathWrappers]))
            "clang" = Some clang
       /\ stage_source h (self st) = Some src
       /\ (forall opt, opt ∈ configopts (cfg (self st)) -> occurs_in opt opts)
       /\ environ w
          = <["CXXFLAGS" := with_no_unused_warning (wrapped !! "CXXFLAGS")]>
              (<["CFLAGS" := with_no_unused_warning (wrapped !! "CFLAGS")]> wrapped)
       /\ trace w
          = trace (world st)
              ++ [EvMkdir next; EvChangeDir next; EvRpathWrappers;
                  EvSymlink (Py.path_join (Py.path_join prev "bin") "opt")
                    (Py.path_join (Py.dirname clang) "opt")]
       /\ self st' = self st
       /\ environ (world st') = <["PATH" := orig_path]> (environ w)
       /\ trace (world st')
          = trace w
              ++ [EvRunCmd
                    (stage_cmake (eb (self st)) (which h w "clang")
                       (which h w "clang++") opts
                       (linker_and_source (which h w "llvm-link") src));
                  stage_make (self st)])
  /\ (forall prev next orig_path wrapped clang,
        prev_obj = Some prev -> next_obj = Some next ->
        environ (world st) !! "PATH" = Some orig_path ->
        stage_source h (self st) = None ->
        mkdir_ok h (world st) next = true ->
        change_dir_ok h
          (mkWorld (environ (world st)) (trace (world st) ++ [EvMkdir next])) next
        = true ->
        prepare_rpath_wrappers h (stage_world prev next orig_path (world st))
        = Some wrapped ->
        which h
          (mkWorld wrapped
             (trace (world st) ++ [EvMkdir next; EvChangeDir next; EvRpathWrappers]))
          "clang" = Some clang ->
        symlink_ok h
          (mkWorld wrapped
             (trace (world st) ++ [EvMkdir next; EvChangeDir next; EvRpathWrappers]))
          (Py.path_join (Py.path_join prev "bin") "opt")
          (Py.path_join (Py.dirname clang) "opt") = true ->
        build_with_prev_stage h prev_obj next_obj st
        = (Raise (TypeError "os.path.join"),
           mkState (self st)
             (mkWorld
                (<["CXXFLAGS" := with_no_unused_warning (wrapped !! "CXXFLAGS")]>
                   (<["CFLAGS" := with_no_unused_warning (wrapped !! "CFLAGS")]>
                      wrapped))
                (trace (world st)
                   ++ [EvMkdir next; EvChangeDir next; EvRpathWrappers;
                       EvSymlink (Py.path_join (Py.path_join prev "bin") "opt")
                         (Py.path_join (Py.dirname clang) "opt")])))).
Proof.
  intros Hrpath. split.
  - intros st' Hrun.
    destruct next_obj as [next|]; [|by rewrite stage_without_next in Hrun].
    destruct prev_obj as [prev|].
    2:{ rewrite stage_without_prev in Hrun. cbv zeta in Hrun.
        destruct (mkdir_ok _ _ _); [|done]. by destruct (change_dir_ok _ _ _). }
    rewrite stage_with_rpath_eq in Hrun by done. cbv zeta in Hrun.
    destruct (mkdir_ok _ _ _); [|done]. destruct (change_dir_ok _ _ _); [|done].
    destruct (environ (world st) !! "PATH") as [orig_path|] eqn:Horig; [|done].
    destruct (prepare_rpath_wrappers _ _) as [wrapped|] eqn:Hwrapped; [|done].
    destruct (which _ _ "clang") as [clang|] eqn:Hclang; [|done].
    destruct (symlink_ok _ _ _ _); [|done].
    rewrite configure_and_build_run in Hrun. cbn [self world] in Hrun.
    destruct (stage_source _ _) as [src|]; [|done]. cbv zeta in Hrun.
    rewrite Hrpath in Hrun.
    repeat (destruct (_ =? 0)%Z in Hrun); try discriminate.
    injection Hrun as <-. cbn [self world environ trace].
    eexists prev, next, orig_path, wrapped, clang,
      (Py.join " " (configopts (cfg (self st)))), src, (mkWorld _ _).
    cbn [environ trace].
    repeat (split; [done|]). split; [apply options_occur|].
    split; [reflexivity|]. split; [reflexivity|].
    split; [done|]. split; [done|]. by rewrite <- app_assoc.
  - intros prev next orig_path wrapped clang -> -> Horig Hsrc Hmkdir Hchdir Hwrapped
      Hclang Hlink.
    rewrite stage_with_rpath_eq by done. cbv zeta.
    rewrite Hmkdir, Hchdir, Horig, Hwrapped, Hclang, Hlink, configure_and_build_run.
    cbn [self world]. by rewrite Hsrc.
Qed.

Lemma stage_with_rpath_witness :
  (exists st',
     build_with_prev_stage (Example.host true 0) (Some "/build/llvm.obj.1")
       (Some "/build/llvm.obj.2") (mkState Example.stage_self Example.world)
     = (Ok tt, st')
     /\ self st' = Example.stage_self
     /\ trace (world st')
        = [EvMkdir "/build/llvm.obj.2"; EvChangeDir "/build/llvm.obj.2";
           EvRpathWrappers; EvSymlink "/build/llvm.obj.1/bin/opt" "/wrappers/opt";
           EvRunCmd ("cmake -DCMAKE_INSTALL_PREFIX=/install  "
                       +:+ "-DCMAKE_C_COMPILER='/wrappers/clang'  "
                       +:+ "-DCMAKE_CXX_COMPILER='/wrappers/clang++'  "
                       +:+ " -DCMAKE_BUILD_TYPE=Release  "
                       +:+ "-DLIBOMPTARGET_NVPTX_BC_LINKER=/wrappers/llvm-link "
                       +:+ "/build/llvm-project/llvm");
           EvRunCmd "make -j 8 VERBOSE=1"])
  /\ (exists st st',
        Example.configured (Example.host true 0) (Example.easyblock "Clang" "18.1.8")
          (Example.easyconfig true (Some ["X86"]) []) Example.world = Some st
        /\ build_with_prev_stage (Example.host true 0) (llvm_obj_dir_stage1 (self st))
             (llvm_obj_dir_stage2 (self st)) st
           = (Raise (TypeError "os.path.join"), st')
        /\ environ (world st') !! "PATH" = Some "/build/llvm.obj.1/bin:/usr/bin"
        /\ environ (world st') !! "CFLAGS"
           = Some "-O2 -Wno-unused-command-line-argument").
Proof.
  split.
  - destruct (stage_with_rpath (Example.host true 0) (Some "/build/llvm.obj.1")
                (Some "/build/llvm.obj.2") (mkState Example.stage_self Example.world)
                eq_refl) as (Hreturns & _).
    destruct (build_with_prev_stage (Example.host true 0) (Some "/build/llvm.obj.1")
                (Some "/build/llvm.obj.2") (mkState Example.stage_self Example.world))
      as [[[]|e] st'] eqn:Hrun; [| by vm_compute in Hrun].
    exists st'. split; [reflexivity|].
    destruct (Hreturns st' eq_refl)
      as (prev & next & orig_path & wrapped & clang & opts & src & w & _ & _ & _ & _
          & _ & _ & _ & _ & _ & Hself & _).
    split; [exact Hself|].
    clear -Hrun. vm_compute in Hrun. injection Hrun as <-. reflexivity.
  - pose (st := default (mkState Example.stage_self Example.world)
                  (Example.configured (Example.host true 0)
                     (Example.easyblock "Clang" "18.1.8")
                     (Example.easyconfig true (Some ["X86"]) []) Example.world)).
    pose (wrapped := <["PATH" := "/build/llvm.obj.1/bin:/usr/bin"]> (environ (world st))).
    destruct (stage_with_rpath (Example.host true 0) (llvm_obj_dir_stage1 (self st))
                (llvm_obj_dir_stage2 (self st)) st eq_refl) as (_ & Hstops).
    specialize (Hstops "/build/llvm.obj.1" "/build/llvm.obj.2" "/usr/bin" wrapped
                  "/wrappers/clang").
    eexists st, _. split; [vm_compute; reflexivity|].
    split; [apply Hstops; vm_compute; reflexivity|].
    split; vm_compute; reflexivity.
Defined.

(** ** The project of a name *)

Lemma startswith_drop s p :
  Py.startswith s p = true -> s = p +:+ Py.drop (String.length p) s.
Proof.
  revert s. induction p as [|a p IH]; intros s; [done|].
  destruct s as [|b s]; [done|]. cbn [Py.startswith String.length Py.drop].
  destruct (Ascii.eqb_spec a b) as [->|]; [|done]. intros H.
  rewrite app_cons. f_equal. by apply IH.
Qed.

Lemma replace_dash s t :
  Py.replace s "-" "_" = t -> has_char "_" t = false -> s = t.
Proof.
  unfold Py.replace. revert t. induction s as [|c s IH]; intros t; [done|].
  cbn [Py.replace_from Py.startswith String.length Nat.sub].
  destruct (Ascii.eqb "-" c).
  - destruct s; intros <-; discriminate.
  - intros <-. cbn [has_char]. intros H. apply orb_false_iff in H as [_ H].
    f_equal. by apply IH.
Qed.

Lemma init_project_name h b c s :
  __init__ h b c = Ok s ->
  project_name s
  = (if Py.startswith (Py.lower (name b)) "llvm" then Py.drop 4 (Py.lower (name b))
     else Py.lower (name b))
  /\ srcdir s = Py.path_join (builddir b) (project_name s)
  /\ (bootstrap c = true -> Py.lower (name b) = "clang").
Proof.
  unfold __init__.
  destruct (loose_lt _ _ _); [discriminate|].
  destruct (bootstrap c) eqn:Hboot; cbn [andb].
  - destruct (String.eqb_spec (Py.lower (name b)) "clang") as [Hclang|]; [|discriminate].
    cbn [negb].
    destruct (match build_targets _ with Some t => _ | None => _ end) as [targets|e];
      [|discriminate].
    unfold mbind, result_bind. cbv beta iota zeta.
    destruct (negb _); [discriminate|]. destruct (Py.mem _ _); [discriminate|].
    by intros [= <-].
  - destruct (match build_targets _ with Some t => _ | None => _ end) as [targets|e];
      [|discriminate].
    unfold mbind, result_bind. cbv beta iota zeta.
    destruct (negb _); [discriminate|]. destruct (Py.mem _ _); [discriminate|].
    by intros [= <-].
Qed.

(** X23. Which names get the Clang profile. The project of an object that
    [__init__] returns is dispatched to the Clang profile exactly when the
    name, in lower case, is [clang] or [llvmclang]; its source directory is
    the project name under the build directory. With [bootstrap] the
    project name is [clang], so the object gets the Clang profile and the
    link that [install_step] makes for Clang. *)
Theorem clang_profile_by_name (h : Host) (b : EasyBlock) (c : EasyConfig) (s : Self) :
  __init__ h b c = Ok s ->
  (clang_profile (project_name s) <->
     Py.lower (name b) = "clang" \/ Py.lower (name b) = "llvmclang")
  /\ srcdir s = Py.path_join (builddir b) (project_name s)
  /\ (bootstrap c = true ->
        project_name s = "clang" /\ configure_func (project_name s) = Some _clang_config).
Proof.
  intros Hinit. destruct (init_project_name _ _ _ _ Hinit) as (Hproject & Hsrc & Hboot).
  split; [|split; [done|]].
  - unfold clang_profile. rewrite Hproject. split.
    + intros Hkey. apply replace_dash in Hkey; [|done].
      destruct (Py.startswith (Py.lower (name b)) "llvm") eqn:Hllvm; [|by left].
      right. rewrite (startswith_drop _ _ Hllvm). cbn [String.length]. by rewrite Hkey.
    + by intros [-> | ->].
  - intros Hb. rewrite Hproject, (Hboot Hb). done.
Qed.

Lemma clang_profile_by_name_witness :
  exists s,
    __init__ (Example.host false 0) (Example.easyblock "LLVMclang" "18.1.8")
      (Example.easyconfig false None []) = Ok s
    /\ clang_profile (project_name s) /\ srcdir s = "/build/clang".
Proof.
  destruct (__init__ (Example.host false 0) (Example.easyblock "LLVMclang" "18.1.8")
              (Example.easyconfig false None [])) as [s|e] eqn:Hinit;
    [| by vm_compute in Hinit].
  exists s. split; [reflexivity|].
  destruct (clang_profile_by_name _ _ _ _ Hinit) as (Hclang & Hsrc & _).
  split; [apply Hclang; by right|].
  rewrite Hsrc. vm_compute in Hinit. by injection Hinit as <-.
Defined.

(** ** The threshold of failed tests *)

Lemma digit_value_bounds c : Py.is_digit c = true -> (0 <= Py.digit_value c <= 9)%Z.
Proof.
  unfold Py.is_digit, Py.digit_value. cbv zeta. intros H.
  apply andb_true_iff in H as [H1 H2].
  apply Nat.leb_le in H1. apply Nat.leb_le in H2. lia.
Qed.

Lemma int_from_nonneg acc s :
  all Py.is_digit s = true -> (0 <= acc)%Z -> (0 <= Py.int_from acc s)%Z.
Proof.
  revert acc. induction s as [|c s IH]; intros acc Hall Hacc; [done|].
  cbn [all] in Hall. apply andb_true_iff in Hall as [Hc Hs].
  cbn [Py.int_from]. apply IH; [done|].
  pose proof (digit_value_bounds c Hc). lia.
Qed.

Lemma num_failed_nonneg out n : num_failed_of out = Ok n -> (0 <= n)%Z.
Proof.
  unfold num_failed_of.
  destruct (Rgx.search "Failed" out) as [d|] eqn:Hfailed.
  - intros [= <-]. apply (search_first _ _ _ solid_Failed) in Hfailed as [pre Hfirst].
    destruct Hfirst as [[_ (s & _ & Hsummary)] _].
    destruct Hsummary as (sp1 & sp2 & sp3 & rest & _ & _ & _ & _ & [_ Hdigits] & _).
    by apply int_from_nonneg.
  - destruct (Rgx.search "Passed" out); [|done]. by intros [= <-].
Qed.

(** X24. The number of failed tests read from an output is never negative.
    So an output accepted under one threshold is accepted under every
    larger one, an output with a summary and no failure is accepted under
    every threshold that is not negative, and under a negative threshold
    no output is accepted. *)
Theorem failed_tests_threshold (out : string) (max_failed : Z) :
  (forall n, num_failed_of out = Ok n -> (0 <= n)%Z)
  /\ (forall larger,
        check_test_output out max_failed = Ok tt -> (max_failed <= larger)%Z ->
        check_test_output out larger = Ok tt)
  /\ (num_failed_of out = Ok 0%Z -> (0 <= max_failed)%Z ->
        check_test_output out max_failed = Ok tt)
  /\ ((max_failed < 0)%Z -> check_test_output out max_failed <> Ok tt).
Proof.
  split; [apply num_failed_nonneg|]. split; [|split].
  - intros larger. unfold check_test_output, mbind, result_bind.
    destruct (num_failed_of out) as [n|e]; [|done].
    destruct (n >? max_failed)%Z eqn:Hgt; [done|]. intros _ Hle.
    destruct (n >? larger)%Z eqn:Hgt'; [lia | done].
  - intros Hzero Hmax. unfold check_test_output, mbind, result_bind. rewrite Hzero.
    destruct (0 >? max_failed)%Z eqn:Hgt; [lia | done].
  - intros Hneg. unfold check_test_output, mbind, result_bind.
    destruct (num_failed_of out) as [n|e] eqn:Hn; [|done].
    apply num_failed_nonneg in Hn.
    destruct (n >? max_failed)%Z eqn:Hgt; [done | lia].
Qed.
